(** * fetch-first-dui-data: the acquisition protocol, embedded and verified

    The development embeds [src/fetch-first-dui-data.py] shallowly; the
    script that converts its downloads, [src/excel-sheet-to-csv.py], follows
    in a second part, with a model of its own.

    - Python [str] values are [string]s holding the UTF-8 bytes of the text;
      [startswith], [replace] of an ASCII character and percent-encoding act
      on those bytes exactly as Python acts on the code points.
    - Everything the program does to the outside world (HTTP requests through
      Playwright's [request_api], calls on the browser [page], [print],
      [time.sleep], the write of the downloaded file) appends an [event] to a
      history.  The history is the whole state of a run.
    - The outside world is an [Env]: one oracle per external call, which
      receives the history so far and the call's arguments and answers with a
      value or with a raised exception.
    - Python exceptions are an explicit [Raise] result that propagates
      through [mbind] and is caught by [try_except].  Every call on
      [request_api] and on the browser may raise.  Reading a response that
      has arrived ([status], [text()], [body()]), [print], [time.sleep] and
      the write of the local file are taken to complete; [resp.json()] may
      raise. *)

From Stdlib Require Import ZArith Ascii String List Lia.
From Stdlib.Strings Require Import Byte.
From stdpp Require Import base option list strings pretty gmap sorting.

Set Warnings "-register-all".

Local Open Scope string_scope.
Local Open Scope list_scope.
Local Open Scope Z_scope.

(** ** Python values *)

(** Values produced by [json.loads] / [resp.json()].  A float is kept as
    [m * 2^e]; the program only ever tests such a value for truth. *)
Inductive pyval : Type :=
| PNone
| PBool (b : bool)
| PInt (n : Z)
| PFloat (m e : Z)
| PStr (s : string)
| PList (l : list pyval)
| PDict (d : list (string * pyval)).

(** A raised exception: its class name and its message. *)
Inductive exn : Type := Exn (cls msg : string).

Definition AttributeError (what : string) : exn := Exn "AttributeError" what.
Definition TypeError (what : string) : exn := Exn "TypeError" what.

(** Python truth value ([if v:], [a or b]). *)
Definition truthy (v : pyval) : bool :=
  match v with
  | PNone => false
  | PBool b => b
  | PInt n => negb (n =? 0)
  | PFloat m _ => negb (m =? 0)
  | PStr s => negb (String.eqb s "")
  | PList l => match l with [] => false | _ => true end
  | PDict d => match d with [] => false | _ => true end
  end.

(** [a or b] *)
Definition py_or (a b : pyval) : pyval := if truthy a then a else b.

(** Lookup in a dict kept as an association list in insertion order. *)
Fixpoint assoc {V : Type} (k : string) (d : list (string * V)) : option V :=
  match d with
  | [] => None
  | (k', v) :: d' => if String.eqb k k' then Some v else assoc k d'
  end.

(** [d[k] = v] on an insertion-ordered dict: an existing key keeps its
    position and takes the new value, a new key goes to the end. *)
Fixpoint dict_set {V : Type} (k : string) (v : V) (d : list (string * V))
  : list (string * V) :=
  match d with
  | [] => [(k, v)]
  | (k', v') :: d' =>
      if String.eqb k k' then (k', v) :: d' else (k', v') :: dict_set k v d'
  end.


(** [d.get(k)] and [d.get(k, default)] on a dict. *)
Definition dict_get (d : list (string * pyval)) (k : string) (default : pyval)
  : pyval :=
  match assoc k d with Some v => v | None => default end.

(** ** Strings *)

(** [s.startswith(p)] *)
Definition startswith (s p : string) : bool := String.prefix p s.

(** [s.replace(old, new)] for one-character [old] and [new]. *)
Fixpoint str_replace (old new : ascii) (s : string) : string :=
  match s with
  | EmptyString => EmptyString
  | String c s' =>
      String (if Ascii.eqb c old then new else c) (str_replace old new s')
  end.

(** ['sep'.join(l)] *)
Fixpoint str_join (sep : string) (l : list string) : string :=
  match l with
  | [] => ""
  | [x] => x
  | x :: l' => x +:+ sep +:+ str_join sep l'
  end.

(** The double-quote character, for the literals that contain it. *)
Definition dq : string := String (ascii_of_nat 34) EmptyString.

(** *** [urllib.parse]: [quote], [quote_plus], [urlencode] *)

Definition in_range (lo hi c : ascii) : bool :=
  (nat_of_ascii lo <=? nat_of_ascii c)%nat && (nat_of_ascii c <=? nat_of_ascii hi)%nat.

(** [_ALWAYS_SAFE]: letters, digits and [_.-~]. *)
Definition always_safe (c : ascii) : bool :=
  in_range "A" "Z" c || in_range "a" "z" c || in_range "0" "9" c
  || Ascii.eqb c "_" || Ascii.eqb c "." || Ascii.eqb c "-" || Ascii.eqb c "~".

Definition hex_digit (n : nat) : ascii :=
  if (n <? 10)%nat then ascii_of_nat (48 + n) else ascii_of_nat (55 + n).

(** ['%{:02X}'.format(byte)] *)
Definition percent (c : ascii) : string :=
  let n := nat_of_ascii c in
  String "%" (String (hex_digit (n / 16)) (String (hex_digit (n mod 16)) EmptyString)).

(** [quote(s, safe)] on the UTF-8 bytes of [s]. *)
Fixpoint quote_safe (safe : ascii -> bool) (s : string) : string :=
  match s with
  | EmptyString => EmptyString
  | String c s' =>
      (if always_safe c || safe c then String c EmptyString else percent c)
      +:+ quote_safe safe s'
  end.

(** [quote(s)], whose default is [safe='/']. *)
Definition quote (s : string) : string :=
  quote_safe (fun c => Ascii.eqb c "/") s.

(** [quote_plus(s)] (default [safe='']): quote with the space kept, then
    every space becomes [+]. *)
Definition quote_plus (s : string) : string :=
  str_replace " " "+" (quote_safe (fun c => Ascii.eqb c " ") s).

(** [k + '=' + v] of [urlencode], both quoted. *)
Definition encode_pair (kv : string * string) : string :=
  quote_plus (fst kv) +:+ "=" +:+ quote_plus (snd kv).

(** [urlencode(d)] for a dict of [str] to [str]. *)
Definition urlencode (d : list (string * string)) : string :=
  str_join "&" (map encode_pair d).

(** *** The receiving side

    The program never decodes a form body; the server does.  [parse_qsl]
    reads a body the way [urllib.parse.parse_qsl(body,
    keep_blank_values=True)] does, and serves to state that [urlencode]
    loses nothing. *)

Definition unhex (c : ascii) : option nat :=
  if in_range "0" "9" c then Some (nat_of_ascii c - 48)%nat
  else if in_range "A" "F" c then Some (nat_of_ascii c - 55)%nat
  else if in_range "a" "f" c then Some (nat_of_ascii c - 87)%nat
  else None.

(** [unquote_plus(s)]: [+] is a space, [%XX] is the byte [XX]. *)
Fixpoint unquote_plus (s : string) : string :=
  match s with
  | EmptyString => EmptyString
  | String c s' =>
      if Ascii.eqb c "+" then String " " (unquote_plus s')
      else if Ascii.eqb c "%" then
        match s' with
        | String hi (String lo s'') =>
            match unhex hi, unhex lo with
            | Some a, Some b =>
                String (ascii_of_nat (16 * a + b)) (unquote_plus s'')
            | _, _ => String c (unquote_plus s')
            end
        | _ => String c (unquote_plus s')
        end
      else String c (unquote_plus s')
  end.

(** [s.split(sep)] for a one-character [sep]. *)
Fixpoint split_on (sep : ascii) (s : string) : list string :=
  match s with
  | EmptyString => [""]
  | String c s' =>
      if Ascii.eqb c sep then "" :: split_on sep s'
      else match split_on sep s' with
           | x :: xs => String c x :: xs
           | [] => [String c ""]
           end
  end.

(** [s.split(sep, 1)] as a pair: what precedes the first [sep] and what
    follows it. *)
Fixpoint cut_at (sep : ascii) (s : string) : string * string :=
  match s with
  | EmptyString => ("", "")
  | String c s' =>
      if Ascii.eqb c sep then ("", s')
      else let (k, v) := cut_at sep s' in (String c k, v)
  end.

Definition decode_pair (piece : string) : string * string :=
  let (k, v) := cut_at "=" piece in (unquote_plus k, unquote_plus v).

Definition parse_qsl (s : string) : list (string * string) :=
  if String.eqb s "" then [] else map decode_pair (split_on "&" s).

(** [x not in s] *)
Fixpoint lacks (x : ascii) (s : string) : bool :=
  match s with
  | EmptyString => true
  | String c s' => negb (Ascii.eqb c x) && lacks x s'
  end.

(** What [quote_plus] makes of one byte. *)
Definition quote_plus_char (c : ascii) : string :=
  str_replace " " "+"
    (if always_safe c || Ascii.eqb c " " then String c EmptyString else percent c).

(** ** BeautifulSoup documents *)

(** The tree [BeautifulSoup(text, "html.parser")] builds: tags with their
    attribute dict and contents, and text nodes.  The attributes the program
    reads ([name], [id], [action], [value]) are single-valued strings. *)
Inductive node : Type :=
| Tag (name : string) (attrs : list (string * string)) (contents : list node)
| NavigableString (s : string).

(** All nodes below [n], in document order ([Tag.descendants]). *)
Fixpoint descendants (n : node) : list node :=
  match n with
  | Tag _ _ cs => flat_map (fun c => c :: descendants c) cs
  | NavigableString _ => []
  end.

(** [tag.get(key)] *)
Definition tag_get (n : node) (key : string) : option string :=
  match n with
  | Tag _ attrs _ => assoc key attrs
  | NavigableString _ => None
  end.

Definition is_tag_named (names : list string) (n : node) : bool :=
  match n with
  | Tag nm _ _ => existsb (String.eqb nm) names
  | NavigableString _ => false
  end.

Definition has_attr (key value : string) (n : node) : bool :=
  match tag_get n key with
  | Some v => String.eqb v value
  | None => false
  end.

(** [tag.find_all(names)] *)
Definition find_all (names : list string) (n : node) : list node :=
  filter (fun d => is_tag_named names d = true) (descendants n).

(** [tag.find(name, attrs={key: value})]: the first match in document order,
    or [None]. *)
Definition find (name key value : string) (n : node) : option node :=
  head (filter (fun d => is_tag_named [name] d && has_attr key value d = true)
          (descendants n)).

(** ** The outside world *)

Record response : Type := {
  status : Z;                      (* resp.status *)
  text : string;                   (* resp.text() *)
  json : exn + pyval;              (* resp.json(), which may raise *)
  body : list byte                 (* resp.body() *)
}.

Definition headers : Type := list (string * string).

(** What [print] writes, one constructor per call site, carrying the values
    the f-string interpolates. *)
Inductive message : Type :=
| MsgDebugPost (text name : string) (status : Z)          (* line 70 *)
| MsgDebugPreviewPost (text : string)                     (* line 71 *)
| MsgFollowingSSO (auth_url : string)                     (* line 82 *)
| MsgDebugPostRetry (text name : string) (status : Z)     (* line 87 *)
| MsgDebugPreviewPostRetry (text : string)                (* line 88 *)
| MsgSubmittingForm (action : string)                     (* line 104 *)
| MsgDebugForm (status : Z) (page_html : string)          (* line 108 *)
| MsgLinkNotFound (name : string)                         (* line 133 *)
| MsgSaved (outpath : string)                             (* line 151 *)
| MsgDownloadFailed (name : string) (status : Z)          (* line 154 *)
| MsgProcessing (sid : pyval) (name : string)             (* line 170 *)
| MsgError (name : string) (e : exn).                     (* line 174 *)

Inductive event : Type :=
| EMkdir (path : string)                                       (* OUTDIR.mkdir *)
| ELoadStates                                                  (* load_states() *)
| ELaunch                                                      (* browser, context, page *)
| EPost (url data : string) (hdrs : headers) (timeout : Z)     (* request_api.post *)
| EGet (url : string) (hdrs : headers) (timeout : Z)           (* request_api.get *)
| ESetContent (html : string)                                  (* page.set_content *)
| EGoto (url : string) (timeout : Z)                           (* page.goto *)
| EWaitForSelector (selector : string) (timeout : Z)           (* page.wait_for_selector *)
| EGetAttribute (attr : string)                                (* handle.get_attribute *)
| EEvaluate (js : string)                                      (* page.evaluate *)
| EWrite (path : string) (content : list byte)                 (* open(path, "wb"); write *)
| EPrint (m : message)
| ESleep (secs : Z)                                            (* time.sleep *)
| EClose.                                                      (* browser.close *)

(** An [ElementHandle]: what [get_attribute] answers. *)
Record handle : Type := { get_attribute : string -> exn + option string }.

(** The oracles.  Each receives the history before the call. *)
Record Env : Type := {
  WORKDIR : string;                                      (* Path(__file__).parent *)
  py_str : pyval -> string;                              (* str(v) in an f-string *)
  html_parser : string -> list node;                     (* BeautifulSoup(text, "html.parser") *)
  mkdir : list event -> string -> option exn;
  states_file : list event -> exn + pyval;               (* load_states() *)
  launch : list event -> option exn;
  request_post : list event -> string -> string -> headers -> Z -> exn + response;
  request_get : list event -> string -> headers -> Z -> exn + response;
  set_content : list event -> string -> option exn;
  goto : list event -> string -> Z -> option exn;
  wait_for_selector : list event -> string -> Z -> exn + handle;
  evaluate : list event -> string -> exn + option string
}.

(** ** The monad of runs *)

Inductive result (A : Type) : Type :=
| Ok (a : A)
| Raise (e : exn).
Arguments Ok {A} a.
Arguments Raise {A} e.

Definition M (A : Type) : Type := list event -> result A * list event.

#[export] Instance M_ret : MRet M := fun A a h => (Ok a, h).
#[export] Instance M_bind : MBind M := fun A B f m h =>
  match m h with
  | (Ok a, h') => f a h'
  | (Raise e, h') => (Raise e, h')
  end.

Definition raise {A : Type} (e : exn) : M A := fun h => (Raise e, h).

(** [try: m  except Exception as e: handler(e)] *)
Definition try_except {A : Type} (m : M A) (handler : exn -> M A) : M A :=
  fun h =>
    match m h with
    | (Ok a, h') => (Ok a, h')
    | (Raise e, h') => handler e h'
    end.

(** An external call: the event is recorded, the oracle's answer is the
    outcome. *)
Definition call {A : Type} (ev : event) (answer : list event -> exn + A) : M A :=
  fun h =>
    match answer h with
    | inl e => (Raise e, h ++ [ev])
    | inr a => (Ok a, h ++ [ev])
    end.

Definition call_unit (ev : event) (answer : list event -> option exn) : M unit :=
  call ev (fun h => match answer h with Some e => inl e | None => inr tt end).

(** An effect that cannot fail in the model. *)
Definition emit (ev : event) : M unit := fun h => (Ok tt, h ++ [ev]).

Definition print (m : message) : M unit := emit (EPrint m).

(** ** Module constants (lines 19-26) *)

Definition SAS_URL : string := "https://cdan.dot.gov/SASJobExecution/?sso_guest=true".
Definition QUERY_URL : string := "https://cdan.dot.gov/query".
Definition PROGRAM : string := "/Public/OTRA/Apps/FIRST/FIRST".
Definition APPHOST : string := "cdan.dot.gov".
Definition BASE : string := "https://cdan.dot.gov".

(** [dir / leaf] of [pathlib] for a directory other than the root and a
    leaf that is a single relative component.  [main] replaces every ["/"]
    of the name before it is used, and the leaf always ends in [.xlsx], so
    this is the only case that occurs. *)
Definition path_div (dir leaf : string) : string := dir +:+ "/" +:+ leaf.

(** The three header sets the program sends. *)
Definition xhr_headers : headers :=
  [("x-requested-with", "XMLHttpRequest");
   ("referer", QUERY_URL);
   ("origin", "https://cdan.dot.gov");
   ("accept", "*/*");
   ("content-type", "application/x-www-form-urlencoded")].

Definition session_headers : headers :=
  [("referer", QUERY_URL); ("origin", "https://cdan.dot.gov")].

Definition form_headers : headers :=
  [("referer", QUERY_URL);
   ("origin", "https://cdan.dot.gov");
   ("content-type", "application/x-www-form-urlencoded")].

(** The selector of lines 123 and 128. *)
Definition xlsx_selector : string :=
  "a[download$=" +:+ dq +:+ ".xlsx" +:+ dq +:+ "], a[href$=" +:+ dq +:+ ".xlsx"
  +:+ dq +:+ "], a[href*=" +:+ dq +:+ "/files/files/" +:+ dq +:+ "]".

Definition xlsx_script : string :=
  "() => { const a = document.querySelector('" +:+ xlsx_selector
  +:+ "'); return a ? a.getAttribute('href') : null }".

Section Program.

Variable env : Env.

Definition OUTDIR : string := path_div (WORKDIR env) "scraped".

(** [f"{v}"]: a [str] is itself, anything else goes through [str()]. *)
Definition format (v : pyval) : string :=
  match v with
  | PStr s => s
  | _ => py_str env v
  end.

(** *** The calls on [request_api] and [page] *)

Definition request_api_post (url data : string) (hdrs : headers) (timeout : Z)
  : M response :=
  call (EPost url data hdrs timeout)
       (fun h => request_post env h url data hdrs timeout).

Definition request_api_get (url : string) (hdrs : headers) (timeout : Z)
  : M response :=
  call (EGet url hdrs timeout) (fun h => request_get env h url hdrs timeout).

Definition page_set_content (html : string) : M unit :=
  call_unit (ESetContent html) (fun h => set_content env h html).

Definition page_goto (url : string) (timeout : Z) : M unit :=
  call_unit (EGoto url timeout) (fun h => goto env h url timeout).

Definition page_wait_for_selector (selector : string) (timeout : Z) : M handle :=
  call (EWaitForSelector selector timeout)
       (fun h => wait_for_selector env h selector timeout).

Definition handle_get_attribute (hd : handle) (attr : string) : M (option string) :=
  call (EGetAttribute attr) (fun _ => get_attribute hd attr).

Definition page_evaluate (js : string) : M (option string) :=
  call (EEvaluate js) (fun h => evaluate env h js).

(** *** [post_query_and_download], block by block *)

(** Lines 46-51. *)
Definition sas_query (sid : pyval) : string :=
  "&topic_num=26&metric_num=33&metrictype_num=37"
  +:+ "&CrashYear=2010,2011,2012,2013,2014,2015,2016,2017,2018,2019,2020,2021,2022,2023,"
  +:+ "&State=" +:+ format sid +:+ "&A_PTYPE=1&DRIMPAIR_A=9&TableRows=YEAR&TableCols=MONTH"
  +:+ "&ReleaseDate=Version 9.2.1, released Nov 13, 2025&ReportType=1&Criteria=Years: 2010-2023".

(** Lines 52-56 and 66: [body = urlencode(data)]. *)
Definition job_body (sid : pyval) : string :=
  urlencode [("SASQueryString", sas_query sid);
             ("_program", PROGRAM);
             ("_apphostname", APPHOST)].

(** The event of line 67 (and of line 84). *)
Definition job_post (sid : pyval) : event :=
  EPost SAS_URL (job_body sid) xhr_headers 60000.

(** Lines 67-71: the job submission. *)
Definition submit_job (sid : pyval) (name : string) : M response :=
  resp ← request_api_post SAS_URL (job_body sid) xhr_headers 60000;
  print (MsgDebugPost (text resp) name (status resp));;
  print (MsgDebugPreviewPost (text resp));;
  mret resp.

(** Lines 75-79: [j.get] raises on anything but a dict, and every exception
    of the [try] leaves [uri = None]. *)
Definition challenge_uri (resp : response) : pyval :=
  match json resp with
  | inr (PDict j) =>
      py_or (dict_get j "uri" PNone)
            (py_or (dict_get j "URI" PNone) (dict_get j "uri" PNone))
  | _ => PNone
  end.

(** Line 81. *)
Definition auth_url_of (uri : string) : string :=
  if startswith uri "http" then uri else BASE +:+ uri.

(** Lines 74-88: the 449 handler.  Returns the [text] the rest of the
    function works on ([status] is not read again). *)
Definition handle_challenge (sid : pyval) (name : string) (resp : response)
  : M string :=
  if status resp =? 449 then
    let uri := challenge_uri resp in
    if truthy uri then
      match uri with
      | PStr u =>
          let auth_url := auth_url_of u in
          print (MsgFollowingSSO auth_url);;
          _ ← request_api_get auth_url session_headers 60000;
          resp' ← request_api_post SAS_URL (job_body sid) xhr_headers 60000;
          print (MsgDebugPostRetry (text resp') name (status resp'));;
          print (MsgDebugPreviewPostRetry (text resp'));;
          mret (text resp')
      | _ => raise (AttributeError "startswith")
      end
    else mret (text resp)
  else mret (text resp).

(** Line 93: [soup.find(...) or soup.find(...)]; a found tag is truthy. *)
Definition find_progress_form (soup : node) : option node :=
  match find "form" "name" "ProgressForm" soup with
  | Some f => Some f
  | None => find "form" "id" "ProgressForm" soup
  end.

(** Lines 95-97. *)
Definition form_action (form : node) : string :=
  let action :=
    match tag_get form "action" with
    | Some a => if String.eqb a "" then SAS_URL else a
    | None => SAS_URL
    end in
  if startswith action "/" then BASE +:+ action else action.

(** Lines 98-103: the loop over the named fields, as a fold over
    [find_all]. *)
Definition form_inputs (form : node) : list (string * string) :=
  fold_left
    (fun inputs inp =>
       match tag_get inp "name" with
       | Some namei =>
           if String.eqb namei "" then inputs
           else dict_set namei (default "" (tag_get inp "value")) inputs
       | None => inputs
       end)
    (find_all ["input"; "textarea"] form) [].

(** Lines 90-110: the page to load. *)
Definition resolve_form (txt : string) : M string :=
  let soup := Tag "[document]" [] (html_parser env txt) in
  match find_progress_form soup with
  | Some form =>
      let action := form_action form in
      let inputs := form_inputs form in
      print (MsgSubmittingForm action);;
      resp2 ← request_api_post action (urlencode inputs) form_headers 60000;
      print (MsgDebugForm (status resp2) (text resp2));;
      mret (text resp2)
  | None => mret txt
  end.

(** Lines 113-119: a failed [set_content] falls back to a [data:] address. *)
Definition load_page (page_html : string) : M unit :=
  try_except
    (page_set_content page_html)
    (fun _ => page_goto ("data:text/html," +:+ quote page_html) 60000).

(** Lines 122-130: wait for the anchor; on any exception ask the DOM once
    more through a script; if that raises too, [link = None]. *)
Definition find_link : M (option string) :=
  try_except
    (hd ← page_wait_for_selector xlsx_selector 180000;
     handle_get_attribute hd "href")
    (fun _ =>
       try_except (page_evaluate xlsx_script) (fun _ => mret None)).

(** [not link] *)
Definition no_link (link : option string) : bool :=
  match link with
  | Some l => String.eqb l ""
  | None => true
  end.

(** Lines 138-143. *)
Definition normalize_link (link : string) : string :=
  if startswith link "/" then BASE +:+ link
  else if startswith link "http" then link
  else BASE +:+ "/" +:+ link.

(** Line 147. *)
Definition outpath (name : string) : string :=
  path_div OUTDIR (name +:+ "-dui-data.xlsx").

(** Lines 145-155. *)
Definition download (url name : string) : M bool :=
  r2 ← request_api_get url session_headers 120000;
  if status r2 =? 200 then
    emit (EWrite (outpath name) (body r2));;
    print (MsgSaved (outpath name));;
    mret true
  else
    print (MsgDownloadFailed name (status r2));;
    mret false.

(** Lines 132-155. *)
Definition fetch_artifact (name : string) (link : option string) : M bool :=
  match link with
  | Some l =>
      if String.eqb l "" then print (MsgLinkNotFound name);; mret false
      else download (normalize_link l) name
  | None => print (MsgLinkNotFound name);; mret false
  end.

(** Lines 46-88: the submission and its 449 handler. *)
Definition fetch_response (sid : pyval) (name : string) : M string :=
  resp ← submit_job sid name;
  handle_challenge sid name resp.

(** Lines 46-119: everything up to the loaded page. *)
Definition acquire_page (sid : pyval) (name : string) : M unit :=
  txt ← fetch_response sid name;
  page_html ← resolve_form txt;
  load_page page_html.

(** Lines 121-155: what follows the loaded page. *)
Definition resolve_and_fetch (name : string) : M bool :=
  link ← find_link;
  fetch_artifact name link.

Definition post_query_and_download (sid : pyval) (name : string) : M bool :=
  acquire_page sid name;;
  resolve_and_fetch name.

(** The continuations of the function after line 88 and after line 110;
    [post_query_and_download] runs them once the earlier blocks return. *)
Definition after_page (name page_html : string) : M bool :=
  load_page page_html;;
  resolve_and_fetch name.

Definition after_response (name txt : string) : M bool :=
  page_html ← resolve_form txt;
  after_page name page_html.

(** *** [main] *)

(** [v.get(key, default)]: only a dict has [get]. *)
Definition py_get (v : pyval) (key : string) (default : pyval) : M pyval :=
  match v with
  | PDict d => mret (dict_get d key default)
  | _ => raise (AttributeError "get")
  end.

(** [v.replace("/", "-")]: only a [str] has [replace]. *)
Definition py_replace (v : pyval) : M string :=
  match v with
  | PStr s => mret (str_replace "/" "-" s)
  | _ => raise (AttributeError "replace")
  end.

(** [for s in v]: a list yields its items, a dict its keys, a [str] its
    characters; nothing else is iterable. *)
Definition py_iter (v : pyval) : M (list pyval) :=
  match v with
  | PList l => mret l
  | PDict d => mret (map (fun kv => PStr (fst kv)) d)
  | PStr s => mret (map (fun c => PStr (String c EmptyString)) (list_ascii_of_string s))
  | _ => raise (TypeError "not iterable")
  end.

(** Lines 168-175: the body of the loop.  Only the call of
    [post_query_and_download] is inside the [try]. *)
Definition process_state (s : pyval) : M unit :=
  sid ← py_get s "Id" PNone;
  nm ← py_get s "StateName" (PStr "unknown");
  name ← py_replace nm;
  print (MsgProcessing sid name);;
  try_except
    (_ ← post_query_and_download sid name; mret tt)
    (fun e => print (MsgError name e));;
  emit (ESleep 1).

(** Line 167: [for s in states]. *)
Fixpoint for_each (body : pyval -> M unit) (l : list pyval) : M unit :=
  match l with
  | [] => mret tt
  | s :: l' => body s;; for_each body l'
  end.

(** Lines 158-176.  [load_states] and the browser start-up enter through
    their oracles. *)
Definition main : M unit :=
  call_unit (EMkdir OUTDIR) (fun h => mkdir env h OUTDIR);;
  states ← call ELoadStates (states_file env);
  call_unit ELaunch (launch env);;
  page_goto QUERY_URL 60000;;
  items ← py_iter states;
  for_each process_state items;;
  emit EClose.

End Program.

(** ** Observations on histories *)

Definition is_post (ev : event) : bool :=
  match ev with EPost _ _ _ _ => true | _ => false end.

Definition is_get (ev : event) : bool :=
  match ev with EGet _ _ _ => true | _ => false end.

(** The job request carries the [x-requested-with] header; the form
    submission does not. *)
Definition is_job_post (ev : event) : bool :=
  match ev with
  | EPost _ _ hdrs _ =>
      match assoc "x-requested-with" hdrs with Some _ => true | None => false end
  | _ => false
  end.

(** The re-authentication GET waits 60 s, the artifact GET 120 s. *)
Definition is_reauth_get (ev : event) : bool :=
  match ev with EGet _ _ t => t =? 60000 | _ => false end.

Definition is_artifact_get (ev : event) : bool :=
  match ev with EGet _ _ t => t =? 120000 | _ => false end.

Definition is_write (ev : event) : bool :=
  match ev with EWrite _ _ => true | _ => false end.

(** The events that delimit one Target in the loop of [main]. *)
Definition is_pacing (ev : event) : bool :=
  match ev with
  | EPrint (MsgProcessing _ _) => true
  | ESleep _ => true
  | _ => false
  end.

(** The files on disk after a run: every [EWrite] replaces its file. *)
Definition apply_write (fs : gmap string (list byte)) (ev : event)
  : gmap string (list byte) :=
  match ev with
  | EWrite path content => <[path := content]> fs
  | _ => fs
  end.

Definition files_after (fs : gmap string (list byte)) (evs : list event)
  : gmap string (list byte) :=
  fold_left apply_write evs fs.

(** A Target record: a dict whose [StateName], when present, is a [str]. *)
Definition is_target (s : pyval) : bool :=
  match s with
  | PDict d =>
      match assoc "StateName" d with
      | Some (PStr _) | None => true
      | Some _ => false
      end
  | _ => false
  end.

Definition target_id (s : pyval) : pyval :=
  match s with PDict d => dict_get d "Id" PNone | _ => PNone end.

(** The display name of a Target, and the name [main] derives from it. *)
Definition display_name (s : pyval) : string :=
  match s with
  | PDict d => match dict_get d "StateName" (PStr "unknown") with PStr n => n | _ => "" end
  | _ => ""
  end.

Definition target_name (s : pyval) : string := str_replace "/" "-" (display_name s).


(** The document [resolve_form] searches. *)
Definition soup_of (env : Env) (txt : string) : node :=
  Tag "[document]" [] (html_parser env txt).

(** The body of a 449 response has no follow-up address: it does not parse,
    or what it parses to is not an object, or the object has neither a [uri]
    nor a [URI] field. *)
Definition no_follow_up (resp : response) : Prop :=
  match json resp with
  | inl _ => True
  | inr (PDict j) => assoc "uri" j = None ∧ assoc "URI" j = None
  | inr _ => True
  end.

(** [m] only ever appends events, and all of them satisfy [P]. *)
Definition appends {A : Type} (P : event -> Prop) (m : M A) : Prop :=
  ∀ h, ∃ new, (m h).2 = h ++ new ∧ Forall P new.

(** ** Concrete worlds

    A scripted world answers the k-th POST with the k-th entry of [posts]
    and the k-th GET with the k-th entry of [gets]; the browser answers are
    fixed. *)

Definition timed_out : exn := Exn "TimeoutError" "Timeout exceeded".

Definition scripted_str (v : pyval) : string :=
  match v with
  | PNone => "None"
  | PBool true => "True"
  | PBool false => "False"
  | PInt n => pretty n
  | _ => ""
  end.

Definition scripted
  (states : list pyval)
  (posts gets : list (exn + response)) (parser : string -> list node)
  (content : option exn) (selector : exn + handle) (script : exn + option string)
  : Env :=
  {| WORKDIR := "/srv/first";
     py_str := scripted_str;
     html_parser := parser;
     mkdir := fun _ _ => None;
     states_file := fun _ => inr (PList states);
     launch := fun _ => None;
     request_post := fun h _ _ _ _ =>
       nth (length (List.filter is_post h)) posts (inl timed_out);
     request_get := fun h _ _ _ =>
       nth (length (List.filter is_get h)) gets (inl timed_out);
     set_content := fun _ _ => content;
     goto := fun _ _ _ => None;
     wait_for_selector := fun _ _ _ => selector;
     evaluate := fun _ _ => script |}.

Definition html_response (st : Z) (txt : string) : response :=
  {| status := st; text := txt;
     json := inl (Exn "JSONDecodeError" "Expecting value"); body := [] |}.

Definition json_response (st : Z) (txt : string) (j : pyval) : response :=
  {| status := st; text := txt; json := inr j; body := [] |}.

Definition file_response (st : Z) (content : list byte) : response :=
  {| status := st; text := ""; json := inl (Exn "JSONDecodeError" "Expecting value");
     body := content |}.

Definition anchor (href : string) : handle :=
  {| get_attribute := fun a => inr (if String.eqb a "href" then Some href else None) |}.

(** A result page with the link in it, and a page that carries the
    auto-submitting form. *)
Definition result_page : string := "<a href='/files/files/ca.xlsx'>xlsx</a>".
Definition progress_page : string := "<form name='ProgressForm' ...>".

Definition progress_form (action : option string) (fields : list node) : node :=
  Tag "form"
      (("name", "ProgressForm") ::
       match action with Some a => [("action", a)] | None => [] end)
      fields.

Definition input (name value : string) : node :=
  Tag "input" [("type", "hidden"); ("name", name); ("value", value)] [].

Definition parse_with (form : node) (txt : string) : list node :=
  if String.eqb txt progress_page then [Tag "html" [] [Tag "body" [] [form]]]
  else [Tag "a" [("href", "/files/files/ca.xlsx")] [NavigableString "xlsx"]].

Definition xlsx_bytes : list byte := [x50; x4b; x03; x04].

Definition california : pyval :=
  PDict [("Id", PStr "06"); ("StateName", PStr "California")].

(** The worlds used below. *)

(** The job answers 200 with the result page; the anchor is found. *)
Definition direct_world : Env :=
  scripted [california]
    [inr (html_response 200 result_page)]
    [inr (file_response 200 xlsx_bytes)]
    (parse_with (progress_form None [])) None
    (inr (anchor "/files/files/ca.xlsx")) (inr None).

(** The job answers 449 with a follow-up address, then 200. *)
Definition challenge_response : response :=
  json_response 449
    ("{" +:+ dq +:+ "uri" +:+ dq +:+ ":" +:+ dq +:+ "/auth/x" +:+ dq +:+ "}")
    (PDict [("uri", PStr "/auth/x")]).

Definition challenge_world : Env :=
  scripted [california]
    [inr challenge_response; inr (html_response 200 result_page)]
    [inr (html_response 200 ""); inr (file_response 200 xlsx_bytes)]
    (parse_with (progress_form None [])) None
    (inr (anchor "/files/files/ca.xlsx")) (inr None).

(** The job answers 449 with a body that is not JSON. *)
Definition unparsable_challenge : response := html_response 449 result_page.

Definition unresolvable_world : Env :=
  scripted [california]
    [inr unparsable_challenge]
    [inr (file_response 200 xlsx_bytes)]
    (parse_with (progress_form None [])) None
    (inr (anchor "/files/files/ca.xlsx")) (inr None).

(** The job answers 200 with a page that carries [form]; the submission of
    the form answers with the result page. *)
Definition form_world (form : node) : Env :=
  scripted [california]
    [inr (html_response 200 progress_page); inr (html_response 200 result_page)]
    [inr (file_response 200 xlsx_bytes)]
    (parse_with form) None
    (inr (anchor "/files/files/ca.xlsx")) (inr None).

Definition plain_form : node :=
  progress_form (Some "/SASJobExecution/") [input "_program" "x"; input "_job" "7"].

Definition actionless_form : node :=
  progress_form None [input "_program" "x"; input "_job" "7"].


(** The wait for the anchor times out and the script finds none. *)
Definition no_link_world : Env :=
  scripted [california]
    [inr (html_response 200 result_page)] []
    (parse_with (progress_form None [])) None
    (inl timed_out) (inr None).

(** Two Targets; the submission for the first one times out. *)
Definition columbia : pyval :=
  PDict [("Id", PStr "11"); ("StateName", PStr "District/Columbia")].

Definition two_targets_world : Env :=
  scripted [california; columbia]
    [inl timed_out; inr (html_response 200 result_page)]
    [inr (file_response 200 xlsx_bytes)]
    (parse_with (progress_form None [])) None
    (inr (anchor "/files/files/ca.xlsx")) (inr None).

(** Histories of these worlds, computed. *)
Definition direct_fetched : list event :=
  Eval vm_compute in (fetch_response direct_world (PStr "06") "California" []).2.

Definition direct_loaded : list event :=
  Eval vm_compute in (acquire_page direct_world (PStr "06") "California" []).2.

Definition direct_found : list event :=
  Eval vm_compute in (find_link direct_world direct_loaded).2.

Definition direct_done : list event :=
  Eval vm_compute in
    (post_query_and_download direct_world (PStr "06") "California"
       [EPrint (MsgProcessing (PStr "06") "California")]).2.

Definition form_fetched : list event :=
  Eval vm_compute in (fetch_response (form_world plain_form) (PStr "06") "California" []).2.

Definition no_link_loaded : list event :=
  Eval vm_compute in (acquire_page no_link_world (PStr "06") "California" []).2.

(** ** Further observations *)

Definition is_poll (ev : event) : bool :=
  match ev with EWaitForSelector _ _ => true | _ => false end.

Definition is_error_line (ev : event) : bool :=
  match ev with EPrint (MsgError _ _) => true | _ => false end.

(** [m] only appends events, at most [n] of which satisfy [f]. *)
Definition at_most {A : Type} (f : event -> bool) (n : nat) (m : M A) : Prop :=
  ∀ h, ∃ new, (m h).2 = h ++ new ∧ (length (List.filter f new) <= n)%nat.

(** A write goes to a file of the output directory whose name is a
    ["/"]-free stem followed by [-dui-data.xlsx]. *)
Definition inside_outdir (env : Env) (ev : event) : Prop :=
  match ev with
  | EWrite path _ =>
      ∃ stem, path = OUTDIR env +:+ "/" +:+ stem +:+ "-dui-data.xlsx"
              ∧ lacks "/" stem = true
  | _ => True
  end.

(** What [quote] makes of one byte, and the reading of a percent-encoded
    address on the receiving side ([urllib.parse.unquote]; the program never
    decodes). *)
Definition quote_char (c : ascii) : string :=
  if always_safe c || Ascii.eqb c "/" then String c EmptyString else percent c.

Fixpoint unquote (s : string) : string :=
  match s with
  | EmptyString => EmptyString
  | String c s' =>
      if Ascii.eqb c "%" then
        match s' with
        | String hi (String lo s'') =>
            match unhex hi, unhex lo with
            | Some a, Some b => String (ascii_of_nat (16 * a + b)) (unquote s'')
            | _, _ => String c (unquote s')
            end
        | _ => String c (unquote s')
        end
      else String c (unquote s')
  end.

(** The characters a percent-encoded address is made of. *)
Definition url_char (c : ascii) : bool :=
  always_safe c || Ascii.eqb c "/" || Ascii.eqb c "%".

Fixpoint all_chars (f : ascii -> bool) (s : string) : bool :=
  match s with
  | EmptyString => true
  | String c s' => f c && all_chars f s'
  end.

(** Further worlds. *)

(** The job answers 500 with a body that names a follow-up address. *)
Definition server_error_response : response :=
  json_response 500 result_page (PDict [("uri", PStr "/auth/x")]).

Definition server_error_world : Env :=
  scripted [california]
    [inr server_error_response]
    [inr (file_response 200 xlsx_bytes)]
    (parse_with (progress_form None [])) None
    (inr (anchor "/files/files/ca.xlsx")) (inr None).

(** The job answers 449 with [{"uri": 5}]. *)
Definition numeric_uri_response : response :=
  json_response 449 "" (PDict [("uri", PInt 5)]).

Definition numeric_uri_world : Env :=
  scripted [california]
    [inr numeric_uri_response; inr (html_response 200 result_page)]
    [inr (html_response 200 ""); inr (file_response 200 xlsx_bytes)]
    (parse_with (progress_form None [])) None
    (inr (anchor "/files/files/ca.xlsx")) (inr None).

(** The anchor is found but has no [href]. *)
Definition bare_anchor : handle := {| get_attribute := fun _ => inr None |}.

Definition bare_anchor_world : Env :=
  scripted [california]
    [inr (html_response 200 result_page)]
    [inr (file_response 200 xlsx_bytes)]
    (parse_with (progress_form None [])) None
    (inr bare_anchor) (inr (Some "/files/files/ca.xlsx")).

(** The wait times out; the script finds the link. *)
Definition script_world : Env :=
  scripted [california]
    [inr (html_response 200 result_page)]
    [inr (file_response 200 xlsx_bytes)]
    (parse_with (progress_form None [])) None
    (inl timed_out) (inr (Some "ca.xlsx")).

(** [set_content] fails. *)
Definition content_error_world : Env :=
  scripted [california]
    [inr (html_response 200 result_page)]
    [inr (file_response 200 xlsx_bytes)]
    (parse_with (progress_form None [])) (Some timed_out)
    (inr (anchor "/files/files/ca.xlsx")) (inr None).

(** A list whose second element is not a record. *)
Definition broken_list_world : Env :=
  scripted [california; PStr "Texas"; columbia]
    [inr (html_response 200 result_page)]
    [inr (file_response 200 xlsx_bytes)]
    (parse_with (progress_form None [])) None
    (inr (anchor "/files/files/ca.xlsx")) (inr None).

(** The state file holds [v], whatever it is. *)
Definition with_states (v : pyval) (e : Env) : Env :=
  {| WORKDIR := WORKDIR e; py_str := py_str e; html_parser := html_parser e;
     mkdir := mkdir e; states_file := fun _ => inr v; launch := launch e;
     request_post := request_post e; request_get := request_get e;
     set_content := set_content e; goto := goto e;
     wait_for_selector := wait_for_selector e; evaluate := evaluate e |}.

Definition bare_loaded : list event :=
  Eval vm_compute in (acquire_page bare_anchor_world (PStr "06") "California" []).2.

Definition script_loaded : list event :=
  Eval vm_compute in (acquire_page script_world (PStr "06") "California" []).2.

(** * excel-sheet-to-csv: the conversion script

    [src/excel-sheet-to-csv.py] reads every downloaded workbook and writes
    one CSV per workbook.  What it does to the outside world is a list of
    [xl_event]s; the workbook loader, the directory listing and Python's
    number parsers enter through a [Lib]. *)

(** ** [str.strip] and [str.lower] on UTF-8 *)

(** The whitespace of [str.strip()] ([str.isspace]): the ASCII ones, and the
    encodings of U+0085, U+00A0, U+1680, U+2000..U+200A, U+2028, U+2029,
    U+202F, U+205F and U+3000. *)
Definition space1 (a : ascii) : bool :=
  let n := nat_of_ascii a in
  ((9 <=? n) && (n <=? 13) || (28 <=? n) && (n <=? 32))%nat.

Definition space2 (a b : ascii) : bool :=
  let '(x, y) := (nat_of_ascii a, nat_of_ascii b) in
  ((x =? 194) && ((y =? 133) || (y =? 160)))%nat.

Definition space3 (a b c : ascii) : bool :=
  let '(x, y, z) := (nat_of_ascii a, nat_of_ascii b, nat_of_ascii c) in
  ((x =? 225) && (y =? 154) && (z =? 128)
   || (x =? 226) && (y =? 128)
      && ((128 <=? z) && (z <=? 138) || (z =? 168) || (z =? 169) || (z =? 175))
   || (x =? 226) && (y =? 129) && (z =? 159)
   || (x =? 227) && (y =? 128) && (z =? 128))%nat.

(** [s.lstrip()] *)
Fixpoint lstrip (s : string) : string :=
  match s with
  | String a s1 =>
      if space1 a then lstrip s1
      else match s1 with
           | String b s2 =>
               if space2 a b then lstrip s2
               else match s2 with
                    | String c s3 => if space3 a b c then lstrip s3 else s
                    | EmptyString => s
                    end
           | EmptyString => s
           end
  | EmptyString => s
  end.

(** [s.rstrip()], on the reversed bytes: a whitespace character is read
    from its last byte to its first. *)
Fixpoint lstrip_rev (s : string) : string :=
  match s with
  | String c s1 =>
      if space1 c then lstrip_rev s1
      else match s1 with
           | String b s2 =>
               if space2 b c then lstrip_rev s2
               else match s2 with
                    | String a s3 => if space3 a b c then lstrip_rev s3 else s
                    | EmptyString => s
                    end
           | EmptyString => s
           end
  | EmptyString => s
  end.

Definition str_rev (s : string) : string :=
  string_of_list_ascii (rev (list_ascii_of_string s)).

Definition rstrip (s : string) : string := str_rev (lstrip_rev (str_rev s)).

(** [s.strip()] *)
Definition py_strip (s : string) : string := rstrip (lstrip s).

(** [s.lower()] on the ASCII letters.  Python also changes letters outside
    ASCII, but into characters outside ASCII, with two exceptions: the
    Kelvin sign becomes [k], and U+0130 becomes [i] followed by a combining
    dot.  The program only compares lowered text with the lowered month
    names and with [total]: ASCII words without [k], which no text that
    holds a combining dot equals or, within the five characters of [total],
    begins with.  So every comparison it makes comes out the same. *)
Definition lower_char (c : ascii) : ascii :=
  if in_range "A" "Z" c then ascii_of_nat (nat_of_ascii c + 32) else c.

Fixpoint str_lower (s : string) : string :=
  match s with
  | EmptyString => EmptyString
  | String c s' => String (lower_char c) (str_lower s')
  end.

(** [s.replace(c, '')] *)
Fixpoint str_remove (c : ascii) (s : string) : string :=
  match s with
  | EmptyString => EmptyString
  | String a s' => if Ascii.eqb a c then str_remove c s' else String a (str_remove c s')
  end.

(** [s.endswith(p)] *)
Definition endswith (s p : string) : bool := String.prefix (str_rev p) (str_rev s).

(** [s.rfind(c)] for a one-character [c]. *)
Fixpoint rfind (c : ascii) (s : string) : option nat :=
  match s with
  | EmptyString => None
  | String a s' =>
      match rfind c s' with
      | Some i => Some (S i)
      | None => if Ascii.eqb a c then Some 0%nat else None
      end
  end.

(** The longest prefix of characters that satisfy [f], and the rest. *)
Fixpoint span (f : ascii -> bool) (s : string) : string * string :=
  match s with
  | EmptyString => ("", "")
  | String a s' =>
      if f a then let (run, rest) := span f s' in (String a run, rest)
      else ("", s)
  end.

Module Excel.

(** ** Cell values *)

(** A [float] by what the program can see of it: an integer-valued one
    ([is_integer()], with its [int()]), another finite one (with its
    [int()]), or an infinity or NaN; each with its [str()]. *)
Inductive pyfloat : Type :=
| Whole (n : Z) (repr : string)
| Fraction (trunc : Z) (repr : string)
| NonFinite (repr : string).

(** What [iter_rows(values_only=True)] yields in a cell: nothing, a bool, an
    int, a float, a str, or another object (a date, a time, a duration),
    kept by its truth value and its [str()]. *)
Inductive cell : Type :=
| CNone
| CBool (b : bool)
| CInt (n : Z)
| CFloat (x : pyfloat)
| CStr (s : string)
| COther (truth : bool) (repr : string).

Definition float_str (x : pyfloat) : string :=
  match x with Whole _ r | Fraction _ r | NonFinite r => r end.

(** [str(v)] *)
Definition cell_str (v : cell) : string :=
  match v with
  | CNone => "None"
  | CBool b => if b then "True" else "False"
  | CInt n => pretty n
  | CFloat x => float_str x
  | CStr s => s
  | COther _ r => r
  end.

Definition cell_truthy (v : cell) : bool :=
  match v with
  | CNone => false
  | CBool b => b
  | CInt n => negb (n =? 0)
  | CFloat (Whole n _) => negb (n =? 0)
  | CFloat _ => true
  | CStr s => negb (String.eqb s "")
  | COther t _ => t
  end.

(** [(c or "")] *)
Definition or_empty (c : cell) : cell := if cell_truthy c then c else CStr "".

(** ** The outside world of the script *)

Inductive xl_message : Type :=
| MsgProcessing (path : string)                  (* line 78 *)
| MsgNoHeader (path : string)                    (* line 84 *)
| MsgNoData (path : string)                      (* line 143 *)
| MsgWrote (outpath : string) (rows : nat)       (* line 152 *)
| MsgNoFiles.                                    (* line 158 *)

Inductive xl_event : Type :=
| XMkdir (path : string)                         (* OUTDIR.mkdir, line 11 *)
| XGlob (dir pattern : string)                   (* SCRAPED.glob *)
| XLoad (path : string)                          (* openpyxl.load_workbook ... iter_rows *)
| XOpen (path : string)                          (* outpath.open('w') *)
| XWriteRow (fields : list string)               (* writer.writerow *)
| XPrint (m : xl_message).

Record Lib : Type := {
  WORKDIR : string;                              (* Path(__file__).parent *)
  py_float : string -> option pyfloat;           (* float(s); None when it raises *)
  py_int : string -> option Z;                   (* int(s); None when it raises *)
  make_outdir : option exn;                      (* OUTDIR.mkdir(exist_ok=True) *)
  glob_xlsx : exn + list string;                 (* the names SCRAPED.glob('*.xlsx') yields *)
  load_rows : string -> exn + list (list cell)   (* lines 79-81, for a file name *)
}.

(** A run: how it ended and what it did, in order. *)
Definition Run (A : Type) : Type := result A * list xl_event.

#[export] Instance Run_ret : MRet Run := fun A a => (Ok a, []).
#[export] Instance Run_bind : MBind Run := fun A B k m =>
  match m with
  | (Ok a, evs) => let (r, evs') := k a in (r, evs ++ evs')
  | (Raise e, evs) => (Raise e, evs)
  end.

Definition xl_raise {A : Type} (e : exn) : Run A := (Raise e, []).
Definition xl_emit (ev : xl_event) : Run unit := (Ok tt, [ev]).
Definition xl_call {A : Type} (ev : xl_event) (answer : exn + A) : Run A :=
  match answer with
  | inl e => (Raise e, [ev])
  | inr a => (Ok a, [ev])
  end.

(** A pure computation that may raise, inside a run. *)
Definition xl_lift {A : Type} (r : result A) : Run A := (r, []).

(** ** Module constants (lines 8-28) *)

Definition MONTHS : list string :=
  ["January"; "February"; "March"; "April"; "May"; "June"; "July"; "August";
   "September"; "October"; "November"; "December"].

Definition is_digit (c : ascii) : bool := in_range "0" "9" c.

Definition skip_optional (c : ascii) (s : string) : string :=
  match s with
  | String a s' => if Ascii.eqb a c then s' else s
  | EmptyString => s
  end.

(** [NUM_RE.match(s)], as its group 1.  The pattern is
    [^-?\(?\$?([0-9,]+(?:\.[0-9]+)?)\)?$]; on a stripped string [$] is the
    end.  Every quantifier is forced: what it could give back, nothing after
    it could take. *)
Definition NUM_RE (s : string) : option string :=
  let s := skip_optional "$" (skip_optional "(" (skip_optional "-" s)) in
  let (run, rest) := span (fun c => is_digit c || Ascii.eqb c ",") s in
  if String.eqb run "" then None
  else
    let closes (t : string) := String.eqb t "" || String.eqb t ")" in
    match rest with
    | String "." rest' =>
        let (frac, rest'') := span is_digit rest' in
        if String.eqb frac "" then None
        else if closes rest'' then Some (run +:+ "." +:+ frac) else None
    | _ => if closes rest then Some run else None
    end.

(** The characters of a group 1 of [NUM_RE], and the ones the pattern lets
    stand before it. *)
Definition number_char (c : ascii) : bool :=
  is_digit c || Ascii.eqb c "," || Ascii.eqb c ".".

Definition opener_char (c : ascii) : bool :=
  Ascii.eqb c "-" || Ascii.eqb c "(" || Ascii.eqb c "$".

Section Script.

Variable lib : Lib.

Definition SCRAPED : string := path_div (WORKDIR lib) "scraped".
Definition OUTDIR : string := path_div (WORKDIR lib) "output".

(** ** [parse_number] (lines 31-60) *)

(** [str(int(f))] for an integer-valued [f], [str(f)] otherwise
    (lines 36-38 and 51-53). *)
Definition number_text (x : pyfloat) : string :=
  match x with
  | Whole n _ => pretty n
  | Fraction _ r | NonFinite r => r
  end.

(** [s2[1:-1]] *)
Definition drop_ends (s : string) : string :=
  match s with
  | String _ s' => str_rev (match str_rev s' with String _ t => t | EmptyString => "" end)
  | EmptyString => ""
  end.

(** Lines 43-46: commas and the currency sign removed, and a text in
    parentheses turned into a negative one. *)
Definition cleaned (s : string) : string :=
  let s2 := str_remove "$" (str_remove "," s) in
  if startswith s2 "(" && endswith s2 ")" then "-" +:+ drop_ends s2 else s2.

(** Lines 48-54, the body of the [try]: [None] when [float] or [int]
    raises. *)
Definition converted (s2 : string) : option string :=
  if negb (lacks "." s2) then number_text <$> py_float lib s2
  else pretty <$> py_int lib s2.

Definition parse_number (v : cell) : string :=
  match v with
  | CNone => ""
  | CBool b => if b then "True" else "False"
  | CInt n => pretty n
  | CFloat x => number_text x
  | CStr _ | COther _ _ =>
      let s := py_strip (cell_str v) in
      if String.eqb s "" then ""
      else
        match converted (cleaned s) with
        | Some r => r
        | None =>
            match NUM_RE s with
            | Some g => g
            | None => cleaned s
            end
        end
  end.

(** ** [find_month_header_row] (lines 63-74) *)

(** Line 66: the comprehension raises at the first cell that has no
    [strip]. *)
Fixpoint strip_cells (row : list cell) : result (list string) :=
  match row with
  | [] => Ok []
  | c :: row' =>
      match or_empty c with
      | CStr s =>
          match strip_cells row' with
          | Ok cells => Ok (py_strip s :: cells)
          | Raise e => Raise e
          end
      | _ => Raise (AttributeError "strip")
      end
  end.

Definition same_word (a b : string) : bool := String.eqb (str_lower a) (str_lower b).

(** Lines 67-70. *)
Definition months_found (cells : list string) : nat :=
  length (List.filter (fun m => existsb (fun cell => same_word cell m) cells) MONTHS).

Fixpoint find_from (i : Z) (rows : list (list cell)) : result Z :=
  match rows with
  | [] => Ok (-1)
  | row :: rows' =>
      match strip_cells row with
      | Raise e => Raise e
      | Ok cells =>
          if (6 <=? months_found cells)%nat then Ok i else find_from (i + 1) rows'
      end
  end.

Definition find_month_header_row (rows : list (list cell)) : result Z :=
  find_from 0 rows.

(** ** [process_file] (lines 77-152) *)

(** Lines 91-99: one step of the loop over the header cells. *)
Definition header_step (acc : list (string * nat) * option nat) (indexed : nat * cell)
  : list (string * nat) * option nat :=
  let '(month_cols, total_col) := acc in
  let '(idx, c) := indexed in
  if negb (cell_truthy c) then acc
  else
    let cell_s := py_strip (cell_str c) in
    (fold_left (fun cols m => if same_word cell_s m then dict_set m idx cols else cols)
       MONTHS month_cols,
     if same_word cell_s "total" then Some idx else total_col).

Definition enumerate {A : Type} (l : list A) : list (nat * A) :=
  combine (seq 0 (length l)) l.

Definition header_columns (header_row : list cell) : list (string * nat) * option nat :=
  fold_left header_step (enumerate header_row) ([], None).

(** Lines 103-108: from the right, the first non-empty header cell that is
    not a month name. *)
Fixpoint last_other_column (indexed : list (nat * cell)) : result (option nat) :=
  match indexed with
  | [] => Ok None
  | (idx, c) :: rest =>
      match c with
      | CNone | CStr "" => last_other_column rest
      | CStr s =>
          if forallb (fun m => negb (same_word (py_strip s) m)) MONTHS then Ok (Some idx)
          else last_other_column rest
      | _ => Raise (AttributeError "strip")
      end
  end.

Definition total_column (header_row : list cell) (total_col : option nat)
  : result (option nat) :=
  match total_col with
  | Some idx => Ok (Some idx)
  | None => last_other_column (rev (enumerate header_row))
  end.

(** Line 125: [int(float(sfirst))]. *)
Definition year_of (sfirst : string) : option Z :=
  match py_float lib sfirst with
  | Some (Whole n _) => Some n
  | Some (Fraction t _) => Some t
  | Some (NonFinite _) | None => None
  end.

(** Lines 130-139. *)
Definition row_values (month_cols : list (string * nat)) (total_col : option nat)
  (year : Z) (r : list cell) : list string :=
  [pretty year]
  ++ map (fun m =>
            parse_number
              match assoc m month_cols with
              | Some col => if (col <? length r)%nat then nth col r CNone else CNone
              | None => CNone
              end)
         MONTHS
  ++ [match total_col with
      | Some col => if (col <? length r)%nat then parse_number (nth col r CNone) else ""
      | None => ""
      end].

(** Lines 112-140: the loop over the rows below the header, with its
    [break]s and its [continue]. *)
Fixpoint data_rows (month_cols : list (string * nat)) (total_col : option nat)
  (rows : list (list cell)) : result (list (list string)) :=
  match rows with
  | [] => Ok []
  | r :: rows' =>
      match r with
      | [] => Raise (Exn "IndexError" "tuple index out of range")
      | CNone :: _ => Ok []
      | first :: _ =>
          let sfirst := py_strip (cell_str first) in
          if String.eqb sfirst "" then Ok []
          else if startswith (str_lower sfirst) "total" then Ok []
          else
            match year_of sfirst with
            | None => data_rows month_cols total_col rows'
            | Some year =>
                match data_rows month_cols total_col rows' with
                | Ok out => Ok (row_values month_cols total_col year r :: out)
                | Raise e => Raise e
                end
            end
      end
  end.

(** [path.stem] for a file name. *)
Definition stem (name : string) : string :=
  match rfind "." name with
  | Some i =>
      if ((0 <? i) && (i <? String.length name - 1))%nat then String.substring 0 i name
      else name
  | None => name
  end.

(** Line 146. *)
Definition outpath (name : string) : string := path_div OUTDIR (stem name +:+ ".csv").

(** Line 149. *)
Definition csv_header : list string := ["year"] ++ MONTHS ++ ["Total"].

(** Lines 150-151. *)
Fixpoint write_rows (out_rows : list (list string)) : Run unit :=
  match out_rows with
  | [] => mret tt
  | orow :: out_rows' => xl_emit (XWriteRow orow);; write_rows out_rows'
  end.

(** Lines 82-152: what [process_file] does with the rows it has read.
    Opening the CSV and writing to it are taken to complete. *)
Definition convert (name : string) (rows : list (list cell)) : Run unit :=
  let path := path_div SCRAPED name in
  header_idx ← xl_lift (find_month_header_row rows);
  if header_idx =? -1 then xl_emit (XPrint (MsgNoHeader path))
  else
    match nth_error rows (Z.to_nat header_idx) with
    | None => xl_raise (Exn "IndexError" "list index out of range")
    | Some header =>
        let header_row := map or_empty header in
        let '(month_cols, total_col) := header_columns header_row in
        total_col ← xl_lift (total_column header_row total_col);
        out_rows ← xl_lift (data_rows month_cols total_col
                             (drop (Z.to_nat header_idx + 1) rows));
        match out_rows with
        | [] => xl_emit (XPrint (MsgNoData path))
        | _ =>
            xl_emit (XOpen (outpath name));;
            xl_emit (XWriteRow csv_header);;
            write_rows out_rows;;
            xl_emit (XPrint (MsgWrote (outpath name) (length out_rows)))
        end
    end.

(** [process_file(SCRAPED / name)] (lines 77-152). *)
Definition process_file (name : string) : Run unit :=
  let path := path_div SCRAPED name in
  xl_emit (XPrint (MsgProcessing path));;
  rows ← xl_call (XLoad path) (load_rows lib name);
  convert name rows.

(** The order of [sorted] on paths of one directory: by file name. *)
Definition name_le (a b : string) : Prop := String.leb a b = true.

#[export] Instance name_le_dec a b : Decision (name_le a b).
Proof. unfold name_le. apply _. Defined.

Fixpoint process_all (names : list string) : Run unit :=
  match names with
  | [] => mret tt
  | f :: names' => process_file f;; process_all names'
  end.

(** Line 11 and lines 155-160. *)
Definition main : Run unit :=
  xl_call (XMkdir OUTDIR) (match make_outdir lib with Some e => inl e | None => inr tt end);;
  found ← xl_call (XGlob SCRAPED "*.xlsx") (glob_xlsx lib);
  let files := merge_sort name_le found in
  (match files with
   | [] => xl_emit (XPrint MsgNoFiles)
   | _ => mret tt
   end);;
  process_all files.

End Script.

(** Observations on the events of the script. *)
Definition is_output (ev : xl_event) : bool :=
  match ev with XOpen _ | XWriteRow _ => true | _ => false end.

Definition is_load (ev : xl_event) : bool :=
  match ev with XLoad _ => true | _ => false end.

(** A row the header search passes over: every cell is a string or falsy,
    and fewer than six month names stand in it. *)
Definition passed_over (row : list cell) : Prop :=
  ∃ cells, strip_cells row = Ok cells ∧ (months_found cells < 6)%nat.

(** A row at which the loop over the data rows stops: its first cell is
    empty, blank, or begins with [total] in any case. *)
Definition stops (r : list cell) : Prop :=
  ∃ first rest,
    r = first :: rest
    ∧ (first = CNone
       ∨ py_strip (cell_str first) = ""
       ∨ startswith (str_lower (py_strip (cell_str first))) "total" = true).

(** A column index that names a header cell reading [word] in any case. *)
Definition reads (header_row : list cell) (word : string) (col : nat) : Prop :=
  ∃ c, header_row !! col = Some c
       ∧ cell_truthy c = true
       ∧ same_word (py_strip (cell_str c)) word = true.

(** The workbooks of [names] being opened, one after the other. *)
Definition loads (lib : Lib) (names : list string) : list xl_event :=
  map (fun name => XLoad (path_div (SCRAPED lib) name)) names.

End Excel.

(** ** Concrete workbooks *)

(** A number parser for the scripted library: ASCII digits, with an
    optional sign. *)
Fixpoint digits_value (acc : Z) (s : string) : option Z :=
  match s with
  | EmptyString => Some acc
  | String c s' =>
      if Excel.is_digit c
      then digits_value (10 * acc + Z.of_nat (nat_of_ascii c - 48)) s'
      else None
  end.

Definition scripted_int (s : string) : option Z :=
  match s with
  | EmptyString => None
  | String "-" (String c s') => Z.opp <$> digits_value 0 (String c s')
  | _ => digits_value 0 s
  end.

Definition scripted_float (s : string) : option Excel.pyfloat :=
  (fun n => Excel.Whole n (s +:+ ".0")) <$> scripted_int s.

Definition month_cells : list Excel.cell := map Excel.CStr Excel.MONTHS.

(** A sheet as the service delivers it: a title, the header, two years, a
    note, the summary row and a footer. *)
Definition sample_sheet : list (list Excel.cell) :=
  [ [Excel.CStr "Persons Killed, by Year and Month"];
    Excel.CStr "Year" :: month_cells ++ [Excel.CStr "Total"];
    Excel.CInt 2010 :: map Excel.CInt [1; 2; 3; 4; 5; 6; 7; 8; 9; 10; 11; 12]
      ++ [Excel.CInt 78];
    [Excel.CStr "(revised)"];
    Excel.CStr " 2011 " :: map Excel.CStr ["1,234"; "2"; "3"; "4"; "5"; "6"; "7"; "8";
                                             "9"; "10"; "11"; "12"]
      ++ [Excel.CStr "1,311"];
    Excel.CStr "Total" :: map Excel.CInt [1; 2; 3; 4; 5; 6; 7; 8; 9; 10; 11; 12]
      ++ [Excel.CInt 1389];
    [Excel.CStr "2012"; Excel.CInt 99] ].

(** A sheet with a number above its header. *)
Definition numbered_sheet : list (list Excel.cell) :=
  [Excel.CStr "Report"; Excel.CInt 7] :: sample_sheet.

Definition scripted_lib (names : list string) (sheet : string -> exn + list (list Excel.cell))
  : Excel.Lib :=
  {| Excel.WORKDIR := "/srv/first";
     Excel.py_float := scripted_float;
     Excel.py_int := scripted_int;
     Excel.make_outdir := None;
     Excel.glob_xlsx := inr names;
     Excel.load_rows := sheet |}.

Definition sample_lib : Excel.Lib :=
  scripted_lib ["Texas-dui-data.xlsx"; "California-dui-data.xlsx"; "Ohio-dui-data.xlsx"]
    (fun name =>
       if String.eqb name "Ohio-dui-data.xlsx" then inr numbered_sheet
       else inr sample_sheet).

(** * Properties *)

(** ** The pure functions on small inputs *)

Example quote_plus_reserved : quote_plus "Years: 2010-2023 &x=/~" = "Years%3A+2010-2023+%26x%3D%2F~".
Proof. reflexivity. Qed.

Example quote_keeps_slash : quote "<a href='/f'>" = "%3Ca%20href%3D%27/f%27%3E".
Proof. reflexivity. Qed.

Example urlencode_two : urlencode [("_program", "/Public/x"); ("n", "")] = "_program=%2FPublic%2Fx&n=".
Proof. reflexivity. Qed.

Example dict_set_keeps_position :
  dict_set "a" "3" [("a", "1"); ("b", "2")] = [("a", "3"); ("b", "2")].
Proof. reflexivity. Qed.

Example normalize_rooted : normalize_link "/files/x.xlsx" = "https://cdan.dot.gov/files/x.xlsx".
Proof. reflexivity. Qed.

Example normalize_absolute : normalize_link "https://host/x.xlsx" = "https://host/x.xlsx".
Proof. reflexivity. Qed.

Example normalize_relative : normalize_link "x.xlsx" = "https://cdan.dot.gov/x.xlsx".
Proof. reflexivity. Qed.

Example auth_url_rooted : auth_url_of "/auth/x" = "https://cdan.dot.gov/auth/x".
Proof. reflexivity. Qed.

Example target_name_columbia : target_name columbia = "District-Columbia".
Proof. reflexivity. Qed.

Example challenge_uri_upper :
  challenge_uri (json_response 449 "" (PDict [("uri", PStr ""); ("URI", PStr "/auth/x")]))
  = PStr "/auth/x".
Proof. reflexivity. Qed.

Example challenge_uri_of_list : challenge_uri (json_response 449 "" (PList [])) = PNone.
Proof. reflexivity. Qed.

(** ** The monad *)

Lemma bind_run {A B : Type} (m : M A) (f : A -> M B) (h : list event) :
  (m ≫= f) h =
  match m h with
  | (Ok a, h') => f a h'
  | (Raise e, h') => (Raise e, h')
  end.
Proof. reflexivity. Qed.

Lemma bind_ok {A B : Type} (m : M A) (f : A -> M B) h a h' :
  m h = (Ok a, h') -> (m ≫= f) h = f a h'.
Proof. intros H. rewrite bind_run, H. reflexivity. Qed.

Lemma bind_raise {A B : Type} (m : M A) (f : A -> M B) h e h' :
  m h = (Raise e, h') -> (m ≫= f) h = (Raise e, h').
Proof. intros H. rewrite bind_run, H. reflexivity. Qed.

Section Appends.

Context (P : event -> Prop).

Lemma appends_run {A : Type} (m : M A) h r h' :
  appends P m -> m h = (r, h') -> ∃ new, h' = h ++ new ∧ Forall P new.
Proof. intros Hm Hrun. destruct (Hm h) as [new [Heq HP]]. rewrite Hrun in Heq. eauto. Qed.

Lemma appends_ret {A : Type} (a : A) : appends P (mret a).
Proof. intros h. exists []. rewrite app_nil_r. split; [reflexivity | constructor]. Qed.

Lemma appends_raise {A : Type} (e : exn) : appends P (@raise A e).
Proof. intros h. exists []. rewrite app_nil_r. split; [reflexivity | constructor]. Qed.

Lemma appends_emit (ev : event) : P ev -> appends P (emit ev).
Proof. intros Hev h. exists [ev]. split; [reflexivity | repeat constructor; exact Hev]. Qed.

Lemma appends_call {A : Type} (ev : event) (answer : list event -> exn + A) :
  P ev -> appends P (call ev answer).
Proof.
  intros Hev h. exists [ev]. unfold call.
  destruct (answer h); (split; [reflexivity | repeat constructor; exact Hev]).
Qed.

Lemma appends_bind {A B : Type} (m : M A) (f : A -> M B) :
  appends P m -> (∀ a, appends P (f a)) -> appends P (m ≫= f).
Proof.
  intros Hm Hf h. rewrite bind_run.
  destruct (m h) as [[a|e] h1] eqn:Hrun;
    destruct (appends_run _ _ _ _ Hm Hrun) as [n1 [-> H1]].
  - destruct (Hf a (h ++ n1)) as [n2 [Heq H2]].
    exists (n1 ++ n2). rewrite Heq, app_assoc. split; [reflexivity|].
    apply Forall_app; auto.
  - exists n1. auto.
Qed.

Lemma appends_try {A : Type} (m : M A) (handler : exn -> M A) :
  appends P m -> (∀ e, appends P (handler e)) -> appends P (try_except m handler).
Proof.
  intros Hm Hf h. unfold try_except.
  destruct (m h) as [[a|e] h1] eqn:Hrun;
    destruct (appends_run _ _ _ _ Hm Hrun) as [n1 [-> H1]].
  - exists n1. auto.
  - destruct (Hf e (h ++ n1)) as [n2 [Heq H2]].
    exists (n1 ++ n2). rewrite Heq, app_assoc. split; [reflexivity|].
    apply Forall_app; auto.
Qed.

End Appends.

(** Walks through a block of the program, leaving one goal [P ev] per event
    the block can emit. *)
Ltac appends_step :=
  first
    [ apply appends_ret
    | apply appends_raise
    | apply appends_emit
    | apply appends_call
    | apply appends_bind; [| intros ?]
    | apply appends_try; [| intros ?]
    | progress cbv beta zeta
    | match goal with
      | |- appends _ (match ?x with _ => _ end) => destruct x
      end ].

Ltac appends_auto := repeat appends_step.

Ltac unfold_program :=
  unfold post_query_and_download, resolve_and_fetch, acquire_page,
    fetch_response, submit_job, handle_challenge, resolve_form, load_page,
    find_link, fetch_artifact, download, request_api_post, request_api_get,
    page_set_content, page_goto, page_wait_for_selector, handle_get_attribute,
    page_evaluate, call_unit, print.

(** ** What each block can emit *)

Section Blocks.

Variable env : Env.

(** Up to the loaded page nothing is written and no artifact is requested. *)
Lemma acquire_page_no_artifact sid name :
  appends (fun ev => is_write ev = false ∧ is_artifact_get ev = false)
          (acquire_page env sid name).
Proof. unfold_program. appends_auto; done. Qed.

Lemma find_link_no_artifact :
  appends (fun ev => is_write ev = false ∧ is_artifact_get ev = false)
          (find_link env).
Proof. unfold_program. appends_auto; done. Qed.

(** After the loaded page no POST is issued. *)
Lemma resolve_and_fetch_no_post name :
  appends (fun ev => is_post ev = false) (resolve_and_fetch env name).
Proof. unfold_program. appends_auto; done. Qed.

(** After the 449 handler there is neither a job request nor a
    re-authentication GET. *)
Lemma resolve_form_no_retry txt :
  appends (fun ev => is_job_post ev = false ∧ is_reauth_get ev = false)
          (resolve_form env txt).
Proof. unfold_program. appends_auto; done. Qed.

Lemma load_page_no_retry page_html :
  appends (fun ev => is_job_post ev = false ∧ is_reauth_get ev = false)
          (load_page env page_html).
Proof. unfold_program. appends_auto; done. Qed.

Lemma resolve_and_fetch_no_retry name :
  appends (fun ev => is_job_post ev = false ∧ is_reauth_get ev = false)
          (resolve_and_fetch env name).
Proof. unfold_program. appends_auto; done. Qed.

(** One Target's acquisition never prints a progress line and never
    sleeps. *)
Lemma post_query_and_download_no_pacing sid name :
  appends (fun ev => is_pacing ev = false) (post_query_and_download env sid name).
Proof. unfold_program. appends_auto; done. Qed.

(** [find_link] catches everything. *)
Lemma find_link_total h :
  ∃ link new, find_link env h = (Ok link, h ++ new).
Proof.
  unfold_program. unfold try_except, call. rewrite bind_run.
  destruct (wait_for_selector env h xlsx_selector 180000) as [e|hd].
  - destruct (evaluate env _ xlsx_script) as [e'|l];
      eexists _, [_; _]; rewrite <- app_assoc; reflexivity.
  - destruct (get_attribute hd "href") as [e'|l].
    + destruct (evaluate env _ xlsx_script) as [e''|l];
        eexists _, [_; _; _]; rewrite <- !app_assoc; reflexivity.
    + eexists _, [_; _]; rewrite <- app_assoc; reflexivity.
Qed.

End Blocks.

(** ** Files *)

Lemma files_after_app fs evs1 evs2 :
  files_after fs (evs1 ++ evs2) = files_after (files_after fs evs1) evs2.
Proof. apply fold_left_app. Qed.

Lemma files_after_no_write fs evs :
  Forall (fun ev => is_write ev = false) evs -> files_after fs evs = fs.
Proof.
  intros H. revert fs. induction H as [|ev evs Hev _ IH]; intros fs; [reflexivity|].
  simpl. destruct ev; try discriminate; apply IH.
Qed.

Lemma Forall_fst {A : Type} (P Q : A -> Prop) l :
  Forall (fun x => P x ∧ Q x) l -> Forall P l.
Proof. intros H. eapply Forall_impl; [exact H | simpl; tauto]. Qed.


(** ** The run of [post_query_and_download], phase by phase *)

Section Phases.

Variable env : Env.

Lemma post_query_and_download_run sid name h :
  post_query_and_download env sid name h =
  match acquire_page env sid name h with
  | (Ok _, h1) => resolve_and_fetch env name h1
  | (Raise e, h1) => (Raise e, h1)
  end.
Proof. reflexivity. Qed.

Lemma resolve_and_fetch_run name h link h2 :
  find_link env h = (Ok link, h2) ->
  resolve_and_fetch env name h = fetch_artifact env name link h2.
Proof. intros H. unfold resolve_and_fetch. apply (bind_ok _ _ _ _ _ H). Qed.

Lemma startswith_http_not_slash link :
  startswith link "http" = true -> startswith link "/" = false.
Proof.
  unfold startswith. destruct link as [|c l]; [discriminate|].
  cbn [String.prefix].
  destruct (ascii_dec "h" c) as [<-|]; [intros _|discriminate].
  destruct (ascii_dec "/" "h"); [discriminate | reflexivity].
Qed.

(** The possible runs of the last step (lines 145-155). *)
Lemma download_run url name h :
  match request_get env h url session_headers 120000 with
  | inl e =>
      download env url name h = (Raise e, h ++ [EGet url session_headers 120000])
  | inr r2 =>
      if status r2 =? 200 then
        download env url name h =
        (Ok true, h ++ [EGet url session_headers 120000;
                        EWrite (outpath env name) (body r2);
                        EPrint (MsgSaved (outpath env name))])
      else
        download env url name h =
        (Ok false, h ++ [EGet url session_headers 120000;
                         EPrint (MsgDownloadFailed name (status r2))])
  end.
Proof.
  unfold download, request_api_get. rewrite bind_run. unfold call.
  destruct (request_get env h url session_headers 120000) as [e|r2]; [reflexivity|].
  destruct (status r2 =? 200); unfold print, emit; rewrite ?bind_run;
    cbn; rewrite <- ?app_assoc; reflexivity.
Qed.

End Phases.

(** ** The claims about the Artifact Fetcher *)

Section Fetcher.

Variable env : Env.

Lemma fetch_artifact_found name link h :
  link ≠ "" ->
  fetch_artifact env name (Some link) h = download env (normalize_link link) name h.
Proof.
  intros Hne. unfold fetch_artifact.
  destruct (String.eqb_spec link ""); [contradiction | reflexivity].
Qed.

Lemma fetch_artifact_not_found name link h :
  no_link link = true ->
  fetch_artifact env name link h = (Ok false, h ++ [EPrint (MsgLinkNotFound name)]).
Proof.
  unfold no_link, fetch_artifact. destruct link as [l|]; [intros ->|]; reflexivity.
Qed.

(** C6. A discovered reference is requested at its normalized address: a
    reference that starts with "/" at base + reference, one that starts with
    "http" unchanged, any other at base + "/" + reference; and that request
    is the only GET that follows the link resolution. *)
Theorem C6_link_normalized_and_requested sid name h h1 h2 link :
  acquire_page env sid name h = (Ok tt, h1) ->
  find_link env h1 = (Ok (Some link), h2) ->
  link ≠ "" ->
  (startswith link "/" = true -> normalize_link link = BASE +:+ link) ∧
  (startswith link "http" = true -> normalize_link link = link) ∧
  (startswith link "/" = false -> startswith link "http" = false ->
   normalize_link link = BASE +:+ "/" +:+ link) ∧
  ∃ r rest,
    post_query_and_download env sid name h =
    (r, h2 ++ EGet (normalize_link link) session_headers 120000 :: rest)
    ∧ Forall (fun ev => is_get ev = false) rest.
Proof.
  intros Hpage Hlink Hne.
  split; [unfold normalize_link; intros ->; reflexivity|].
  split; [unfold normalize_link; intros Hh;
          rewrite (startswith_http_not_slash _ Hh), Hh; reflexivity|].
  split; [unfold normalize_link; intros -> ->; reflexivity|].
  rewrite post_query_and_download_run, Hpage.
  rewrite (resolve_and_fetch_run _ _ _ _ _ Hlink).
  rewrite (fetch_artifact_found _ _ _ Hne).
  pose proof (download_run env (normalize_link link) name h2) as Hd.
  destruct (request_get env h2 _ session_headers 120000) as [e|r2].
  - rewrite Hd. exists (Raise e), []. split; [reflexivity | constructor].
  - destruct (status r2 =? 200); rewrite Hd; eexists _, _;
      (split; [reflexivity | repeat constructor]).
Qed.

(** The three ways a run can end. *)
Lemma post_query_and_download_outcomes sid name h :
  ∃ r new,
    post_query_and_download env sid name h = (r, h ++ new) ∧
    match r with
    | Ok true =>
        ∃ front url r2,
          new = front ++ [EGet url session_headers 120000;
                          EWrite (outpath env name) (body r2);
                          EPrint (MsgSaved (outpath env name))]
          ∧ request_get env (h ++ front) url session_headers 120000 = inr r2
          ∧ status r2 = 200
          ∧ Forall (fun ev => is_write ev = false ∧ is_artifact_get ev = false) front
    | Ok false =>
        (∃ front,
           new = front ++ [EPrint (MsgLinkNotFound name)]
           ∧ Forall (fun ev => is_write ev = false ∧ is_artifact_get ev = false) front)
        ∨ (∃ front url r2,
             new = front ++ [EGet url session_headers 120000;
                             EPrint (MsgDownloadFailed name (status r2))]
             ∧ request_get env (h ++ front) url session_headers 120000 = inr r2
             ∧ status r2 ≠ 200
             ∧ Forall (fun ev => is_write ev = false ∧ is_artifact_get ev = false) front)
    | Raise _ => Forall (fun ev => is_write ev = false) new
    end.
Proof.
  rewrite post_query_and_download_run.
  destruct (acquire_page env sid name h) as [[[]|e] h1] eqn:Hpage;
    destruct (appends_run _ _ _ _ _ (acquire_page_no_artifact env sid name) Hpage)
      as [n1 [-> Hn1]].
  2:{ exists (Raise e), n1. split; [reflexivity | exact (Forall_fst _ _ _ Hn1)]. }
  destruct (find_link_total env (h ++ n1)) as [link [n2 Hlink]].
  destruct (appends_run _ _ _ _ _ (find_link_no_artifact env) Hlink) as [n2' [Heq Hn2]].
  apply app_inv_head in Heq. subst n2'.
  rewrite (resolve_and_fetch_run _ _ _ _ _ Hlink).
  assert (Hfront : Forall (fun ev => is_write ev = false ∧ is_artifact_get ev = false)
                          (n1 ++ n2)) by (apply Forall_app; auto).
  destruct (no_link link) eqn:Hno.
  - rewrite (fetch_artifact_not_found _ _ _ Hno).
    exists (Ok false), ((n1 ++ n2) ++ [EPrint (MsgLinkNotFound name)]).
    split; [rewrite <- !app_assoc; reflexivity|].
    left. exists (n1 ++ n2). auto.
  - destruct link as [l|]; [|discriminate]. simpl in Hno.
    assert (Hne : l ≠ "") by (intros ->; discriminate).
    rewrite (fetch_artifact_found _ _ _ Hne).
    pose proof (download_run env (normalize_link l) name ((h ++ n1) ++ n2)) as Hd.
    destruct (request_get env ((h ++ n1) ++ n2) _ session_headers 120000)
      as [e|r2] eqn:Hget.
    + rewrite Hd.
      exists (Raise e), ((n1 ++ n2) ++ [EGet (normalize_link l) session_headers 120000]).
      split; [rewrite <- !app_assoc; reflexivity|].
      apply Forall_app; split; [exact (Forall_fst _ _ _ Hfront) | repeat constructor].
    + destruct (status r2 =? 200) eqn:Hst; rewrite Hd.
      * exists (Ok true), ((n1 ++ n2) ++ [EGet (normalize_link l) session_headers 120000;
                                          EWrite (outpath env name) (body r2);
                                          EPrint (MsgSaved (outpath env name))]).
        split; [rewrite <- !app_assoc; reflexivity|].
        exists (n1 ++ n2), (normalize_link l), r2.
        split; [reflexivity|]. rewrite app_assoc. split; [exact Hget|].
        split; [apply Z.eqb_eq, Hst | exact Hfront].
      * exists (Ok false), ((n1 ++ n2) ++ [EGet (normalize_link l) session_headers 120000;
                                           EPrint (MsgDownloadFailed name (status r2))]).
        split; [rewrite <- !app_assoc; reflexivity|].
        right. exists (n1 ++ n2), (normalize_link l), r2.
        split; [reflexivity|]. rewrite app_assoc. split; [exact Hget|].
        split; [apply Z.eqb_neq, Hst | exact Hfront].
Qed.


End Fetcher.

(** ** The claims about the Form Resolver *)

Section FormResolver.

Variable env : Env.

Lemma post_query_and_download_after_response sid name h txt h1 :
  fetch_response env sid name h = (Ok txt, h1) ->
  post_query_and_download env sid name h = after_response env name txt h1.
Proof.
  intros H. unfold post_query_and_download, acquire_page, after_response, after_page.
  rewrite !bind_run, H, !bind_run.
  destruct (resolve_form env txt h1) as [[page_html|e] h2]; [|reflexivity].
  rewrite !bind_run. destruct (load_page env page_html h2) as [[[]|e] h3]; reflexivity.
Qed.

Lemma load_page_run page_html h :
  ∃ r tl, load_page env page_html h = (r, h ++ ESetContent page_html :: tl)
          ∧ Forall (fun ev => is_post ev = false) tl.
Proof.
  unfold load_page, try_except, page_set_content, page_goto, call_unit, call.
  destruct (set_content env h page_html) as [e|].
  - destruct (goto env _ _ 60000); eexists _, [_]; rewrite <- app_assoc;
      (split; [reflexivity | repeat constructor]).
  - eexists _, []. split; [reflexivity | constructor].
Qed.

(** The loaded page is the first thing that happens after the Form
    Resolver, and no POST follows it. *)
Lemma after_page_run name page_html h :
  ∃ r rest, after_page env name page_html h = (r, h ++ ESetContent page_html :: rest)
            ∧ Forall (fun ev => is_post ev = false) rest.
Proof.
  unfold after_page. rewrite bind_run.
  destruct (load_page_run page_html h) as [r [tl [Hrun Htl]]]. rewrite Hrun.
  destruct r as [[]|e].
  - destruct (resolve_and_fetch env name (h ++ ESetContent page_html :: tl))
      as [r2 h2] eqn:Hraf.
    destruct (appends_run _ _ _ _ _ (resolve_and_fetch_no_post env name) Hraf)
      as [n2 [-> Hn2]].
    exists r2, (tl ++ n2). split; [rewrite <- app_assoc; reflexivity|].
    apply Forall_app; auto.
  - exists (Raise e), tl. auto.
Qed.

(** C7. When the response body has no intermediate form, the Form Resolver
    issues no request and hands the body on unchanged: it is the page that
    is loaded for link resolution, and no POST follows. *)
Theorem C7_no_form_pass_through sid name h txt h1 :
  fetch_response env sid name h = (Ok txt, h1) ->
  find_progress_form (soup_of env txt) = None ->
  resolve_form env txt h1 = (Ok txt, h1)
  ∧ ∃ r rest,
      post_query_and_download env sid name h = (r, h1 ++ ESetContent txt :: rest)
      ∧ Forall (fun ev => is_post ev = false) rest.
Proof.
  intros Hresp Hnone.
  assert (Hrf : resolve_form env txt h1 = (Ok txt, h1)).
  { unfold resolve_form. fold (soup_of env txt). rewrite Hnone. reflexivity. }
  split; [exact Hrf|].
  rewrite (post_query_and_download_after_response _ _ _ _ _ Hresp).
  unfold after_response. rewrite (bind_ok _ _ _ _ _ Hrf).
  apply after_page_run.
Qed.

(** The single submission of a found form. *)
Lemma resolve_form_run txt h form :
  find_progress_form (soup_of env txt) = Some form ->
  let submitted :=
    h ++ [EPrint (MsgSubmittingForm (form_action form));
          EPost (form_action form) (urlencode (form_inputs form)) form_headers 60000] in
  match request_post env (h ++ [EPrint (MsgSubmittingForm (form_action form))])
          (form_action form) (urlencode (form_inputs form)) form_headers 60000 with
  | inl e => resolve_form env txt h = (Raise e, submitted)
  | inr resp2 =>
      resolve_form env txt h =
      (Ok (text resp2), submitted ++ [EPrint (MsgDebugForm (status resp2) (text resp2))])
  end.
Proof.
  intros Hform. unfold resolve_form. fold (soup_of env txt). rewrite Hform.
  unfold print, emit, request_api_post, call. rewrite !bind_run. cbn.
  destruct (request_post env _ _ _ form_headers 60000) as [e|resp2];
    unfold mbind, M_bind, mret, M_ret; cbn; rewrite <- ?app_assoc; reflexivity.
Qed.

End FormResolver.

(** ** The field map of a form *)

Section Dicts.

Context {V : Type}.

Implicit Types (d : list (string * V)) (k : string) (v : V).


Lemma assoc_None k d : assoc k d = None ↔ k ∉ map fst d.
Proof.
  induction d as [|[k' v'] d IH]; simpl.
  - split; [intros _; apply not_elem_of_nil | reflexivity].
  - rewrite not_elem_of_cons. destruct (String.eqb_spec k k') as [->|Hne].
    + split; [discriminate | intros [[] _]; reflexivity].
    + rewrite IH. tauto.
Qed.

Lemma assoc_dict_set_eq k v d : assoc k (dict_set k v d) = Some v.
Proof.
  induction d as [|[k' v'] d IH]; simpl.
  - rewrite String.eqb_refl. reflexivity.
  - destruct (String.eqb_spec k k') as [->|Hne]; simpl.
    + rewrite String.eqb_refl. reflexivity.
    + destruct (String.eqb_spec k k'); [contradiction | exact IH].
Qed.

Lemma assoc_dict_set_ne k k' v d :
  k ≠ k' -> assoc k' (dict_set k v d) = assoc k' d.
Proof.
  intros Hne. induction d as [|[k1 v1] d IH]; simpl.
  - destruct (String.eqb_spec k' k); [congruence | reflexivity].
  - destruct (String.eqb_spec k k1) as [->|Hk]; simpl.
    + destruct (String.eqb_spec k' k1); [congruence | reflexivity].
    + destruct (String.eqb k' k1); [reflexivity | exact IH].
Qed.







End Dicts.


(** ** The encoding of a form body loses nothing *)

Lemma str_replace_app old new s t :
  str_replace old new (s +:+ t) = str_replace old new s +:+ str_replace old new t.
Proof. induction s as [|c s IH]; [reflexivity|]. simpl. rewrite IH. reflexivity. Qed.

Lemma quote_plus_cons c s :
  quote_plus (String c s) = quote_plus_char c +:+ quote_plus s.
Proof. unfold quote_plus, quote_plus_char. cbn [quote_safe]. apply str_replace_app. Qed.

(** Byte by byte: the 256 cases compute. *)
Lemma unquote_plus_char c t :
  unquote_plus (quote_plus_char c +:+ t) = String c (unquote_plus t).
Proof. destruct c as [[] [] [] [] [] [] [] []]; reflexivity. Qed.

Lemma unquote_quote_plus s : unquote_plus (quote_plus s) = s.
Proof.
  induction s as [|c s IH]; [reflexivity|].
  rewrite quote_plus_cons, unquote_plus_char, IH. reflexivity.
Qed.

Lemma lacks_app x s t : lacks x (s +:+ t) = lacks x s && lacks x t.
Proof. induction s as [|c s IH]; [reflexivity|]. simpl. rewrite IH. apply andb_assoc. Qed.

Lemma quote_plus_char_lacks c :
  lacks "&" (quote_plus_char c) = true ∧ lacks "=" (quote_plus_char c) = true.
Proof. destruct c as [[] [] [] [] [] [] [] []]; split; reflexivity. Qed.

(** A quoted string holds neither separator. *)
Lemma quote_plus_lacks s :
  lacks "&" (quote_plus s) = true ∧ lacks "=" (quote_plus s) = true.
Proof.
  induction s as [|c s [IH1 IH2]]; [split; reflexivity|].
  rewrite quote_plus_cons, !lacks_app, IH1, IH2.
  destruct (quote_plus_char_lacks c) as [-> ->]. split; reflexivity.
Qed.

Lemma cut_at_app sep k v :
  lacks sep k = true -> cut_at sep (k +:+ String sep v) = (k, v).
Proof.
  induction k as [|c k IH]; simpl.
  - intros _. rewrite Ascii.eqb_refl. reflexivity.
  - intros H. apply andb_true_iff in H as [Hc Hk].
    destruct (Ascii.eqb c sep); [discriminate|]. rewrite (IH Hk). reflexivity.
Qed.

Lemma split_on_lacks sep s : lacks sep s = true -> split_on sep s = [s].
Proof.
  induction s as [|c s IH]; [reflexivity|]. simpl.
  intros H. apply andb_true_iff in H as [Hc Hs].
  destruct (Ascii.eqb c sep); [discriminate|]. rewrite (IH Hs). reflexivity.
Qed.

Lemma split_on_app sep s t :
  lacks sep s = true -> split_on sep (s +:+ String sep t) = s :: split_on sep t.
Proof.
  induction s as [|c s IH]; simpl.
  - intros _. rewrite Ascii.eqb_refl. reflexivity.
  - intros H. apply andb_true_iff in H as [Hc Hs].
    destruct (Ascii.eqb c sep); [discriminate|]. rewrite (IH Hs). reflexivity.
Qed.

Lemma encode_pair_lacks kv : lacks "&" (encode_pair kv) = true.
Proof.
  unfold encode_pair. rewrite !lacks_app.
  destruct (quote_plus_lacks (fst kv)) as [-> _].
  destruct (quote_plus_lacks (snd kv)) as [-> _]. reflexivity.
Qed.

Lemma encode_pair_has_eq kv : lacks "=" (encode_pair kv) = false.
Proof.
  unfold encode_pair. rewrite lacks_app.
  change ("=" +:+ quote_plus kv.2) with (String "=" (quote_plus kv.2)).
  cbn [lacks]. rewrite Ascii.eqb_refl. apply andb_false_r.
Qed.

Lemma split_on_join l :
  l ≠ [] -> split_on "&" (str_join "&" (map encode_pair l)) = map encode_pair l.
Proof.
  induction l as [|kv l IH]; [congruence|]. intros _.
  destruct l as [|kv' l].
  - simpl. apply split_on_lacks, encode_pair_lacks.
  - change (str_join "&" (map encode_pair (kv :: kv' :: l)))
      with (encode_pair kv +:+ String "&" (str_join "&" (map encode_pair (kv' :: l)))).
    rewrite split_on_app by apply encode_pair_lacks.
    rewrite IH by discriminate. reflexivity.
Qed.

Lemma decode_encode_pair kv : decode_pair (encode_pair kv) = kv.
Proof.
  unfold decode_pair, encode_pair.
  change (quote_plus kv.1 +:+ "=" +:+ quote_plus kv.2)
    with (quote_plus kv.1 +:+ String "=" (quote_plus kv.2)).
  rewrite cut_at_app by apply quote_plus_lacks.
  rewrite !unquote_quote_plus. destruct kv; reflexivity.
Qed.

Lemma urlencode_nonempty kv l : urlencode (kv :: l) ≠ "".
Proof.
  intros Heq.
  assert (H : lacks "=" (urlencode (kv :: l)) = false).
  { unfold urlencode. destruct l as [|kv' l]; cbn [map str_join].
    - apply encode_pair_has_eq.
    - rewrite lacks_app, encode_pair_has_eq. reflexivity. }
  rewrite Heq in H. discriminate.
Qed.

(** Decoding the body gives back the dict, pair by pair and in order. *)
Lemma parse_qsl_urlencode d : parse_qsl (urlencode d) = d.
Proof.
  destruct d as [|kv l]; [reflexivity|].
  unfold parse_qsl. destruct (String.eqb_spec (urlencode (kv :: l)) "") as [H|_].
  - exfalso. exact (urlencode_nonempty _ _ H).
  - unfold urlencode. rewrite split_on_join by discriminate.
    rewrite map_map. rewrite <- (map_id (kv :: l)) at 2.
    apply map_ext. intros a. apply decode_encode_pair.
Qed.

(** ** The submission and its 449 handler *)

Section Submission.

Variable env : Env.

(** Lines 67-71. *)
Lemma submit_job_run sid name h :
  match request_post env h SAS_URL (job_body env sid) xhr_headers 60000 with
  | inl e => submit_job env sid name h = (Raise e, h ++ [job_post env sid])
  | inr resp =>
      submit_job env sid name h =
      (Ok resp, h ++ [job_post env sid;
                      EPrint (MsgDebugPost (text resp) name (status resp));
                      EPrint (MsgDebugPreviewPost (text resp))])
  end.
Proof.
  unfold submit_job, request_api_post, call, job_post.
  generalize (job_body env sid). intros data. rewrite bind_run.
  destruct (request_post env h SAS_URL data xhr_headers 60000) as [e|resp];
    [reflexivity|].
  unfold print, emit, mbind, M_bind, mret, M_ret. rewrite <- !app_assoc. reflexivity.
Qed.

Lemma fetch_response_starts sid name h r h1 :
  fetch_response env sid name h = (r, h1) -> ∃ tl, h1 = h ++ job_post env sid :: tl.
Proof.
  unfold fetch_response. rewrite bind_run.
  pose proof (submit_job_run sid name h) as Hsub.
  destruct (request_post env h SAS_URL _ xhr_headers 60000) as [e|resp];
    rewrite Hsub.
  - intros [= _ <-]. exists []. reflexivity.
  - intros Hhc.
    assert (Happ : appends (fun _ => True) (handle_challenge env sid name resp))
      by (unfold_program; appends_auto; done).
    destruct (appends_run _ _ _ _ _ Happ Hhc) as [tl [-> _]].
    rewrite <- app_assoc. eexists. reflexivity.
Qed.

End Submission.

Section FormClaims.

Variable env : Env.



(** The run of the function from a response that carries the form. *)
Lemma form_submission_run sid name h txt h1 form :
  fetch_response env sid name h = (Ok txt, h1) ->
  find_progress_form (soup_of env txt) = Some form ->
  ∃ r rest,
    post_query_and_download env sid name h =
    (r, h1 ++ [EPrint (MsgSubmittingForm (form_action form));
               EPost (form_action form) (urlencode (form_inputs form))
                     form_headers 60000] ++ rest)
    ∧ Forall (fun ev => is_post ev = false) rest
    ∧ ∀ resp2,
        request_post env (h1 ++ [EPrint (MsgSubmittingForm (form_action form))])
          (form_action form) (urlencode (form_inputs form)) form_headers 60000
        = inr resp2 ->
        ∃ rest', rest = [EPrint (MsgDebugForm (status resp2) (text resp2));
                         ESetContent (text resp2)] ++ rest'.
Proof.
  intros Hresp Hform.
  rewrite (post_query_and_download_after_response _ _ _ _ _ _ Hresp).
  unfold after_response.
  pose proof (resolve_form_run env txt h1 form Hform) as Hrun. cbv zeta in Hrun.
  destruct (request_post env _ (form_action form) _ form_headers 60000)
    as [e|resp2].
  - rewrite (bind_raise _ _ _ _ _ Hrun).
    exists (Raise e), []. rewrite app_nil_r.
    split; [reflexivity|]. split; [constructor | discriminate].
  - rewrite (bind_ok _ _ _ _ _ Hrun).
    destruct (after_page_run env name (text resp2)
                (((h1 ++ [EPrint (MsgSubmittingForm (form_action form));
                          EPost (form_action form) (urlencode (form_inputs form))
                                form_headers 60000])
                  ++ [EPrint (MsgDebugForm (status resp2) (text resp2))])))
      as [r [rest' [Hap Hrest']]].
    rewrite Hap.
    exists r, ([EPrint (MsgDebugForm (status resp2) (text resp2));
                ESetContent (text resp2)] ++ rest').
    split; [rewrite <- !app_assoc; reflexivity|].
    split; [repeat constructor; exact Hrest'|].
    intros resp2' Heq. injection Heq as <-. exists rest'. reflexivity.
Qed.


(** C10. A form whose action is absent or empty is submitted to the
    job-execution endpoint, the address the job itself is posted to. *)
Theorem C10_missing_action_goes_to_job_endpoint sid name h txt h1 form :
  fetch_response env sid name h = (Ok txt, h1) ->
  find_progress_form (soup_of env txt) = Some form ->
  tag_get form "action" = None ∨ tag_get form "action" = Some "" ->
  form_action form = SAS_URL
  ∧ (∃ r rest,
       post_query_and_download env sid name h =
       (r, h1 ++ [EPrint (MsgSubmittingForm SAS_URL);
                  EPost SAS_URL (urlencode (form_inputs form)) form_headers 60000]
              ++ rest)
       ∧ Forall (fun ev => is_post ev = false) rest)
  ∧ ∃ tl, h1 = h ++ job_post env sid :: tl.
Proof.
  intros Hresp Hform Haction.
  assert (Hact : form_action form = SAS_URL).
  { unfold form_action. destruct Haction as [-> | ->]; reflexivity. }
  split; [exact Hact|]. split.
  - destruct (form_submission_run sid name h txt h1 form Hresp Hform)
      as (r & rest & Hrun & Hrest & _).
    rewrite Hact in Hrun. eauto.
  - apply (fetch_response_starts _ _ _ _ _ _ Hresp).
Qed.

End FormClaims.

(** ** The claims about the Challenge Handler *)

Section Challenge.

Variable env : Env.

Lemma post_query_and_download_fetch_raise sid name h e h1 :
  fetch_response env sid name h = (Raise e, h1) ->
  post_query_and_download env sid name h = (Raise e, h1).
Proof.
  intros H. unfold post_query_and_download, acquire_page.
  rewrite !bind_run, H. reflexivity.
Qed.

Lemma after_response_no_retry name txt :
  appends (fun ev => is_job_post ev = false ∧ is_reauth_get ev = false)
          (after_response env name txt).
Proof.
  unfold after_response, after_page.
  apply appends_bind; [apply resolve_form_no_retry | intros page_html].
  apply appends_bind; [apply load_page_no_retry | intros _].
  apply resolve_and_fetch_no_retry.
Qed.

(** Lines 74-88 when the handler has nothing to follow. *)
Lemma handle_challenge_skip sid name resp h :
  status resp ≠ 449 ∨ truthy (challenge_uri resp) = false ->
  handle_challenge env sid name resp h = (Ok (text resp), h).
Proof.
  unfold handle_challenge. intros [Hst | Huri].
  - apply Z.eqb_neq in Hst. rewrite Hst. reflexivity.
  - rewrite Huri. destruct (status resp =? 449); reflexivity.
Qed.

(** Lines 74-88 when the body names a follow-up address. *)
Lemma handle_challenge_follow sid name resp u h :
  status resp = 449 -> challenge_uri resp = PStr u -> u ≠ "" ->
  let reauth := EGet (auth_url_of u) session_headers 60000 in
  let announced := h ++ [EPrint (MsgFollowingSSO (auth_url_of u))] in
  match request_get env announced (auth_url_of u) session_headers 60000 with
  | inl e => handle_challenge env sid name resp h = (Raise e, announced ++ [reauth])
  | inr _ =>
      match request_post env (announced ++ [reauth]) SAS_URL (job_body env sid)
              xhr_headers 60000 with
      | inl e =>
          handle_challenge env sid name resp h =
          (Raise e, announced ++ [reauth; job_post env sid])
      | inr resp' =>
          handle_challenge env sid name resp h =
          (Ok (text resp'),
           announced ++ [reauth; job_post env sid;
                         EPrint (MsgDebugPostRetry (text resp') name (status resp'));
                         EPrint (MsgDebugPreviewPostRetry (text resp'))])
      end
  end.
Proof.
  intros Hst Huri Hne. cbv zeta.
  unfold handle_challenge, job_post. rewrite Hst, Huri.
  change (449 =? 449) with true. cbn [truthy].
  destruct (String.eqb_spec u ""); [contradiction|]. cbn [negb].
  generalize (job_body env sid). intros data.
  unfold print, emit, request_api_get, request_api_post, call.
  rewrite !bind_run.
  destruct (request_get env _ (auth_url_of u) session_headers 60000) as [e|g];
    [reflexivity|].
  rewrite !bind_run.
  destruct (request_post env _ SAS_URL data xhr_headers 60000) as [e|resp'];
    [rewrite <- !app_assoc; reflexivity|].
  unfold mbind, M_bind, mret, M_ret. rewrite <- !app_assoc. reflexivity.
Qed.

Lemma no_follow_up_falsy resp : no_follow_up resp -> truthy (challenge_uri resp) = false.
Proof.
  unfold no_follow_up, challenge_uri.
  destruct (json resp) as [e|[]]; try reflexivity.
  intros [Hu HU]. unfold dict_get, py_or. rewrite Hu, HU. reflexivity.
Qed.


(** C2, as amended.  A 449 answer whose body does not parse or names no
    follow-up address leads to no re-authentication GET and no
    resubmission; the run is not ended: the body of that answer is handed on
    as the response text, and the Form Resolver, the link resolution and the
    Artifact Fetcher run on it as on any other answer. *)
Theorem C2_unresolvable_challenge_falls_through sid name h resp :
  request_post env h SAS_URL (job_body env sid) xhr_headers 60000 = inr resp ->
  status resp = 449 ->
  no_follow_up resp ->
  let submitted :=
    h ++ [job_post env sid;
          EPrint (MsgDebugPost (text resp) name 449);
          EPrint (MsgDebugPreviewPost (text resp))] in
  fetch_response env sid name h = (Ok (text resp), submitted)
  ∧ post_query_and_download env sid name h =
    after_response env name (text resp) submitted
  ∧ ∃ rest,
      (post_query_and_download env sid name h).2 = submitted ++ rest
      ∧ Forall (fun ev => is_job_post ev = false ∧ is_reauth_get ev = false) rest.
Proof.
  intros Hpost Hst Hno. cbv zeta.
  pose proof (submit_job_run env sid name h) as Hsub. rewrite Hpost, Hst in Hsub.
  assert (Hfr : fetch_response env sid name h =
                (Ok (text resp),
                 h ++ [job_post env sid;
                       EPrint (MsgDebugPost (text resp) name 449);
                       EPrint (MsgDebugPreviewPost (text resp))])).
  { unfold fetch_response. rewrite (bind_ok _ _ _ _ _ Hsub).
    apply handle_challenge_skip. right. apply no_follow_up_falsy, Hno. }
  split; [exact Hfr|].
  rewrite (post_query_and_download_after_response _ _ _ _ _ _ Hfr).
  split; [reflexivity|].
  destruct (after_response env name (text resp) _) as [r h2] eqn:Hafter.
  destruct (appends_run _ _ _ _ _ (after_response_no_retry name (text resp)) Hafter)
    as [n [-> Hn]].
  exists n. auto.
Qed.

End Challenge.

(** ** The claim about the Result Link Resolver *)

Section LinkResolver.

Variable env : Env.

(** Lines 122-130 when the wait ends in an exception and the script finds
    nothing. *)
Lemma find_link_not_found h e :
  wait_for_selector env h xlsx_selector 180000 = inl e ->
  (∀ l, evaluate env (h ++ [EWaitForSelector xlsx_selector 180000]) xlsx_script
        ≠ inr (Some l)) ->
  find_link env h =
  (Ok None, h ++ [EWaitForSelector xlsx_selector 180000; EEvaluate xlsx_script]).
Proof.
  intros Hwait Hscript.
  unfold find_link, try_except, page_wait_for_selector, page_evaluate, call.
  rewrite bind_run, Hwait.
  destruct (evaluate env _ xlsx_script) as [e'|[l|]].
  - rewrite <- app_assoc. reflexivity.
  - exfalso. apply (Hscript l). reflexivity.
  - rewrite <- app_assoc. reflexivity.
Qed.

(** C8. When the wait for a qualifying anchor ends at its deadline and the
    script that queries the document once more finds none, the link
    resolution yields no link and the run returns [False] with the
    link-not-found line as its last event; the run issues no artifact GET
    and writes no file. *)
Theorem C8_link_not_found sid name h h1 e fs :
  acquire_page env sid name h = (Ok tt, h1) ->
  wait_for_selector env h1 xlsx_selector 180000 = inl e ->
  (∀ l, evaluate env (h1 ++ [EWaitForSelector xlsx_selector 180000]) xlsx_script
        ≠ inr (Some l)) ->
  find_link env h1 =
  (Ok None, h1 ++ [EWaitForSelector xlsx_selector 180000; EEvaluate xlsx_script])
  ∧ post_query_and_download env sid name h =
    (Ok false, h1 ++ [EWaitForSelector xlsx_selector 180000;
                      EEvaluate xlsx_script;
                      EPrint (MsgLinkNotFound name)])
  ∧ ∃ new,
      (post_query_and_download env sid name h).2 = h ++ new
      ∧ Forall (fun ev => is_write ev = false ∧ is_artifact_get ev = false) new
      ∧ files_after fs new = fs.
Proof.
  intros Hpage Hwait Hscript.
  pose proof (find_link_not_found h1 e Hwait Hscript) as Hlink.
  split; [exact Hlink|].
  assert (Hrun : post_query_and_download env sid name h =
                 (Ok false, h1 ++ [EWaitForSelector xlsx_selector 180000;
                                   EEvaluate xlsx_script;
                                   EPrint (MsgLinkNotFound name)])).
  { rewrite post_query_and_download_run, Hpage.
    rewrite (resolve_and_fetch_run _ _ _ _ _ Hlink).
    rewrite fetch_artifact_not_found by reflexivity.
    rewrite <- app_assoc. reflexivity. }
  split; [exact Hrun|]. rewrite Hrun.
  destruct (appends_run _ _ _ _ _ (acquire_page_no_artifact env sid name) Hpage)
    as [n1 [-> Hn1]].
  exists (n1 ++ [EWaitForSelector xlsx_selector 180000;
                 EEvaluate xlsx_script;
                 EPrint (MsgLinkNotFound name)]).
  assert (Hall : Forall (fun ev => is_write ev = false ∧ is_artifact_get ev = false)
                        (n1 ++ [EWaitForSelector xlsx_selector 180000;
                                EEvaluate xlsx_script;
                                EPrint (MsgLinkNotFound name)]))
    by (apply Forall_app; split; [exact Hn1 | repeat constructor]).
  split; [simpl; rewrite <- app_assoc; reflexivity|].
  split; [exact Hall|].
  apply files_after_no_write, (Forall_fst _ _ _ Hall).
Qed.

End LinkResolver.

(** ** The claims about the Orchestrator *)

Section Orchestrator.

Variable env : Env.

(** Lines 168-175 for a Target record: the acquisition runs between the
    progress line and the pause, and an exception only adds its line. *)
Lemma process_state_run s h :
  is_target s = true ->
  let name := target_name s in
  let started := h ++ [EPrint (MsgProcessing (target_id s) name)] in
  process_state env s h =
  match post_query_and_download env (target_id s) name started with
  | (Ok _, h1) => (Ok tt, h1 ++ [ESleep 1])
  | (Raise e, h1) => (Ok tt, h1 ++ [EPrint (MsgError name e); ESleep 1])
  end.
Proof.
  intros Ht. cbv zeta.
  destruct s as [| | | | |l|d]; try discriminate.
  assert (Hnm : dict_get d "StateName" (PStr "unknown") = PStr (display_name (PDict d))).
  { unfold display_name, dict_get. simpl in Ht.
    destruct (assoc "StateName" d) as [[]|]; try discriminate; reflexivity. }
  unfold target_name, target_id, process_state, py_get, mbind, M_bind, mret, M_ret.
  rewrite Hnm.
  unfold py_replace, try_except, print, emit, mret, M_ret.
  destruct (post_query_and_download env _ _ _) as [[ok|e] h1];
    rewrite <- ?app_assoc; reflexivity.
Qed.

(** One Target's segment of the history. *)
Lemma process_state_segment s h :
  is_target s = true ->
  ∃ mid,
    process_state env s h =
    (Ok tt, h ++ [EPrint (MsgProcessing (target_id s) (target_name s));
                  job_post env (target_id s)] ++ mid ++ [ESleep 1])
    ∧ Forall (fun ev => is_pacing ev = false) mid.
Proof.
  intros Ht. rewrite (process_state_run s h Ht). cbv zeta.
  set (sid := target_id s). set (name := target_name s).
  set (started := h ++ [EPrint (MsgProcessing sid name)]).
  destruct (post_query_and_download env sid name started) as [r h1] eqn:Hrun.
  destruct (appends_run _ _ _ _ _ (post_query_and_download_no_pacing env sid name) Hrun)
    as [new [-> Hnew]].
  assert (Hstart : ∃ tl, new = job_post env sid :: tl).
  { destruct (fetch_response env sid name started) as [r' h'] eqn:Hfr.
    destruct (fetch_response_starts env _ _ _ _ _ Hfr) as [tl ->].
    destruct r' as [txt|e].
    - rewrite (post_query_and_download_after_response _ _ _ _ _ _ Hfr) in Hrun.
      assert (Happ : appends (fun _ => True) (after_response env name txt))
        by (unfold after_response, after_page; unfold_program; appends_auto; done).
      destruct (appends_run _ _ _ _ _ Happ Hrun) as [n [Heq _]].
      rewrite <- app_assoc in Heq. apply app_inv_head in Heq.
      exists (tl ++ n). exact Heq.
    - rewrite (post_query_and_download_fetch_raise _ _ _ _ _ _ Hfr) in Hrun.
      injection Hrun as _ Heq. apply app_inv_head in Heq. exists tl. auto. }
  destruct Hstart as [tl ->]. apply Forall_cons in Hnew as [_ Htl].
  unfold started. destruct r as [ok|e].
  - exists tl. split; [rewrite <- !app_assoc; reflexivity | exact Htl].
  - exists (tl ++ [EPrint (MsgError name e)]).
    split; [rewrite <- !app_assoc; reflexivity|].
    apply Forall_app. split; [exact Htl | repeat constructor].
Qed.

(** The loop of line 167 over Target records. *)
Lemma for_each_targets states h :
  Forall (fun s => is_target s = true) states ->
  ∃ segs,
    for_each (process_state env) states h = (Ok tt, h ++ concat segs)
    ∧ Forall2
        (fun s seg =>
           ∃ mid,
             seg = [EPrint (MsgProcessing (target_id s) (target_name s));
                    job_post env (target_id s)] ++ mid ++ [ESleep 1]
             ∧ Forall (fun ev => is_pacing ev = false) mid)
        states segs.
Proof.
  intros Hall. revert h. induction Hall as [|s states Hs _ IH]; intros h.
  - exists []. simpl. rewrite app_nil_r. split; [reflexivity | constructor].
  - destruct (process_state_segment s h Hs) as [mid [Hrun Hmid]].
    destruct (IH (h ++ [EPrint (MsgProcessing (target_id s) (target_name s));
                        job_post env (target_id s)] ++ mid ++ [ESleep 1]))
      as [segs [Hloop Hsegs]].
    exists (([EPrint (MsgProcessing (target_id s) (target_name s));
              job_post env (target_id s)] ++ mid ++ [ESleep 1]) :: segs).
    split.
    + cbn [for_each]. rewrite (bind_ok _ _ _ _ _ Hrun), Hloop.
      cbn [concat]. rewrite <- !app_assoc. reflexivity.
    + constructor; [exists mid; auto | exact Hsegs].
Qed.

End Orchestrator.

Section OrchestratorClaims.

Variable env : Env.

(** C3. Once the start-up has succeeded, [main] processes the Targets one
    at a time in input order and always reaches the end of the list: the
    history is the start-up, then one segment per Target in input order,
    then the close.  Each segment opens with the progress line and the job
    request of its Target and closes with the one-second pause, whether the
    acquisition in between returned, failed or raised. *)
Theorem C3_targets_processed_in_order states h :
  mkdir env h (OUTDIR env) = None ->
  states_file env (h ++ [EMkdir (OUTDIR env)]) = inr (PList states) ->
  launch env (h ++ [EMkdir (OUTDIR env); ELoadStates]) = None ->
  goto env (h ++ [EMkdir (OUTDIR env); ELoadStates; ELaunch]) QUERY_URL 60000 = None ->
  Forall (fun s => is_target s = true) states ->
  ∃ segs,
    main env h =
    (Ok tt, h ++ [EMkdir (OUTDIR env); ELoadStates; ELaunch; EGoto QUERY_URL 60000]
              ++ concat segs ++ [EClose])
    ∧ Forall2
        (fun s seg =>
           ∃ mid,
             seg = [EPrint (MsgProcessing (target_id s) (target_name s));
                    job_post env (target_id s)] ++ mid ++ [ESleep 1]
             ∧ Forall (fun ev => is_pacing ev = false) mid)
        states segs.
Proof.
  intros Hmkdir Hstates Hlaunch Hgoto Hall.
  destruct (for_each_targets env states
              (h ++ [EMkdir (OUTDIR env); ELoadStates; ELaunch; EGoto QUERY_URL 60000])
              Hall) as [segs [Hloop Hsegs]].
  exists segs. split; [|exact Hsegs].
  unfold main, page_goto, call_unit, call, py_iter, emit.
  rewrite bind_run, Hmkdir. rewrite bind_run, Hstates.
  rewrite bind_run, <- app_assoc. simpl app. rewrite Hlaunch.
  rewrite bind_run, <- app_assoc. simpl app. rewrite Hgoto.
  rewrite <- app_assoc. simpl app.
  unfold mbind, M_bind, mret, M_ret. rewrite Hloop.
  rewrite <- !app_assoc. reflexivity.
Qed.

Lemma str_replace_get old new s i :
  String.get i (str_replace old new s) =
  (fun c => if Ascii.eqb c old then new else c) <$> String.get i s.
Proof.
  revert i. induction s as [|c s IH]; intros i; [reflexivity|].
  destruct i as [|i]; [reflexivity | apply IH].
Qed.

Lemma filter_none {A : Type} (f : A -> bool) l :
  Forall (fun x => f x = false) l -> List.filter f l = [].
Proof.
  induction 1 as [|x l Hx _ IH]; [reflexivity|]. simpl. rewrite Hx. exact IH.
Qed.

(** C9. A Target whose acquisition succeeds leaves exactly one written
    file: in the output directory, named by the display name with every
    "/" replaced by "-", followed by "-dui-data.xlsx"; it holds the
    downloaded body. *)
Theorem C9_one_file_named_after_target s h h1 fs :
  is_target s = true ->
  post_query_and_download env (target_id s) (target_name s)
    (h ++ [EPrint (MsgProcessing (target_id s) (target_name s))]) = (Ok true, h1) ->
  (∀ i, String.get i (target_name s) =
        (fun c => if Ascii.eqb c "/" then "-"%char else c)
          <$> String.get i (display_name s))
  ∧ OUTDIR env = WORKDIR env +:+ "/scraped"
  ∧ ∃ new content,
      process_state env s h = (Ok tt, h ++ new)
      ∧ List.filter is_write new =
        [EWrite (OUTDIR env +:+ "/" +:+ target_name s +:+ "-dui-data.xlsx") content]
      ∧ files_after fs new =
        <[OUTDIR env +:+ "/" +:+ target_name s +:+ "-dui-data.xlsx" := content]> fs.
Proof.
  intros Ht Hrun.
  split; [intros i; apply str_replace_get|]. split; [reflexivity|].
  rewrite (process_state_run env s h Ht). cbv zeta. rewrite Hrun.
  destruct (post_query_and_download_outcomes env (target_id s) (target_name s)
              (h ++ [EPrint (MsgProcessing (target_id s) (target_name s))]))
    as [r [new [Hrun' Hout]]].
  rewrite Hrun in Hrun'. injection Hrun' as <- ->.
  destruct Hout as (front & url & r2 & -> & _ & _ & Hfront).
  pose proof (Forall_fst _ _ _ Hfront) as Hfw.
  exists ([EPrint (MsgProcessing (target_id s) (target_name s))] ++ front
          ++ [EGet url session_headers 120000;
              EWrite (outpath env (target_name s)) (body r2);
              EPrint (MsgSaved (outpath env (target_name s)));
              ESleep 1]), (body r2).
  split; [rewrite <- !app_assoc; reflexivity|]. split.
  - rewrite !List.filter_app, (filter_none _ _ Hfw). reflexivity.
  - rewrite !files_after_app, (files_after_no_write _ front Hfw). reflexivity.
Qed.

End OrchestratorClaims.

(** ** The claims on concrete worlds *)


(** C2, as stated, fails on the world whose job answers 449 with a body
    that is not JSON but holds the link: nothing is re-authenticated or
    resubmitted, and the acquisition does not fail, it downloads the file. *)
Lemma C2_counterexample :
  request_post unresolvable_world [] SAS_URL (job_body unresolvable_world (PStr "06"))
    xhr_headers 60000 = inr unparsable_challenge
  ∧ status unparsable_challenge = 449
  ∧ no_follow_up unparsable_challenge
  ∧ ∃ new,
      post_query_and_download unresolvable_world (PStr "06") "California" [] =
      (Ok true, new)
      ∧ last new = Some (EPrint (MsgSaved "/srv/first/scraped/California-dui-data.xlsx"))
      ∧ files_after ∅ new !! "/srv/first/scraped/California-dui-data.xlsx"
        = Some xlsx_bytes.
Proof.
  split; [vm_compute; reflexivity|]. split; [reflexivity|]. split; [exact I|].
  eexists. split; [vm_compute; reflexivity|].
  split; vm_compute; reflexivity.
Defined.

Lemma C2_witness :
  fetch_response unresolvable_world (PStr "06") "California" [] =
  (Ok (text unparsable_challenge),
   [] ++ [job_post unresolvable_world (PStr "06");
          EPrint (MsgDebugPost (text unparsable_challenge) "California" 449);
          EPrint (MsgDebugPreviewPost (text unparsable_challenge))])
  ∧ post_query_and_download unresolvable_world (PStr "06") "California" [] =
    after_response unresolvable_world "California" (text unparsable_challenge)
      ([] ++ [job_post unresolvable_world (PStr "06");
              EPrint (MsgDebugPost (text unparsable_challenge) "California" 449);
              EPrint (MsgDebugPreviewPost (text unparsable_challenge))])
  ∧ ∃ rest,
      (post_query_and_download unresolvable_world (PStr "06") "California" []).2 =
      ([] ++ [job_post unresolvable_world (PStr "06");
              EPrint (MsgDebugPost (text unparsable_challenge) "California" 449);
              EPrint (MsgDebugPreviewPost (text unparsable_challenge))]) ++ rest
      ∧ Forall (fun ev => is_job_post ev = false ∧ is_reauth_get ev = false) rest.
Proof.
  apply (C2_unresolvable_challenge_falls_through unresolvable_world (PStr "06")
           "California" [] unparsable_challenge);
    [vm_compute; reflexivity | reflexivity | exact I].
Defined.

(** C3 on two Targets, the first of which fails with a timeout. *)
Lemma C3_witness :
  ∃ segs,
    main two_targets_world [] =
    (Ok tt, [] ++ [EMkdir (OUTDIR two_targets_world); ELoadStates; ELaunch;
                   EGoto QUERY_URL 60000]
               ++ concat segs ++ [EClose])
    ∧ Forall2
        (fun s seg =>
           ∃ mid,
             seg = [EPrint (MsgProcessing (target_id s) (target_name s));
                    job_post two_targets_world (target_id s)] ++ mid ++ [ESleep 1]
             ∧ Forall (fun ev => is_pacing ev = false) mid)
        [california; columbia] segs.
Proof.
  apply (C3_targets_processed_in_order two_targets_world [california; columbia] []);
    [reflexivity | reflexivity | reflexivity | reflexivity | repeat constructor].
Defined.



(** C6 on the scenario of the specification: the reference
    ["/files/files/ca.xlsx"] is requested at the base address plus itself. *)
Lemma C6_witness :
  ∃ r rest,
    post_query_and_download direct_world (PStr "06") "California" [] =
    (r, direct_found
        ++ EGet "https://cdan.dot.gov/files/files/ca.xlsx" session_headers 120000 :: rest)
    ∧ Forall (fun ev => is_get ev = false) rest.
Proof.
  destruct (C6_link_normalized_and_requested direct_world (PStr "06") "California"
              [] direct_loaded direct_found "/files/files/ca.xlsx")
    as (_ & _ & _ & r & rest & Hrun & Hrest);
    [vm_compute; reflexivity | vm_compute; reflexivity | discriminate |].
  exists r, rest. split; [exact Hrun | exact Hrest].
Defined.

Lemma C7_witness :
  resolve_form direct_world result_page direct_fetched = (Ok result_page, direct_fetched)
  ∧ ∃ r rest,
      post_query_and_download direct_world (PStr "06") "California" [] =
      (r, direct_fetched ++ ESetContent result_page :: rest)
      ∧ Forall (fun ev => is_post ev = false) rest.
Proof.
  apply (C7_no_form_pass_through direct_world (PStr "06") "California" []
           result_page direct_fetched);
    vm_compute; reflexivity.
Defined.

Lemma C8_witness :
  post_query_and_download no_link_world (PStr "06") "California" [] =
  (Ok false, no_link_loaded ++ [EWaitForSelector xlsx_selector 180000;
                                EEvaluate xlsx_script;
                                EPrint (MsgLinkNotFound "California")]).
Proof.
  destruct (C8_link_not_found no_link_world (PStr "06") "California" []
              no_link_loaded timed_out ∅) as (_ & Hrun & _);
    [vm_compute; reflexivity | reflexivity | discriminate |].
  exact Hrun.
Defined.

(** C9 on the scenario of the specification: California yields
    [California-dui-data.xlsx]. *)
Lemma C9_witness :
  ∃ new content,
    process_state direct_world california [] = (Ok tt, [] ++ new)
    ∧ List.filter is_write new =
      [EWrite "/srv/first/scraped/California-dui-data.xlsx" content]
    ∧ files_after ∅ new = <["/srv/first/scraped/California-dui-data.xlsx" := content]> ∅.
Proof.
  destruct (C9_one_file_named_after_target direct_world california [] direct_done ∅)
    as (_ & _ & Hfile); [reflexivity | vm_compute; reflexivity |].
  exact Hfile.
Defined.

Lemma C10_witness :
  form_action actionless_form = SAS_URL
  ∧ ∃ r rest,
      post_query_and_download (form_world actionless_form) (PStr "06") "California" [] =
      (r, form_fetched
          ++ [EPrint (MsgSubmittingForm SAS_URL);
              EPost SAS_URL (urlencode (form_inputs actionless_form)) form_headers 60000]
          ++ rest)
      ∧ Forall (fun ev => is_post ev = false) rest.
Proof.
  destruct (C10_missing_action_goes_to_job_endpoint (form_world actionless_form)
              (PStr "06") "California" [] progress_page form_fetched actionless_form)
    as (Hact & Hrun & _);
    [vm_compute; reflexivity | vm_compute; reflexivity | left; reflexivity |].
  split; [exact Hact | exact Hrun].
Defined.

(** * Further properties of the acquisition script *)

(** ** Counting events *)

Section AtMost.

Context (f : event -> bool).

Lemma at_most_run {A : Type} n (m : M A) h r h' :
  at_most f n m -> m h = (r, h') ->
  ∃ new, h' = h ++ new ∧ (length (List.filter f new) <= n)%nat.
Proof. intros Hm Hrun. destruct (Hm h) as [new [Heq Hn]]. rewrite Hrun in Heq. eauto. Qed.

Lemma at_most_ret {A : Type} n (a : A) : at_most f n (mret a).
Proof. intros h. exists []. rewrite app_nil_r. split; [reflexivity | simpl; lia]. Qed.

Lemma at_most_raise {A : Type} n (e : exn) : at_most f n (@raise A e).
Proof. intros h. exists []. rewrite app_nil_r. split; [reflexivity | simpl; lia]. Qed.

Lemma at_most_emit n (ev : event) :
  ((if f ev then 1 else 0) <= n)%nat -> at_most f n (emit ev).
Proof.
  intros Hn h. exists [ev]. split; [reflexivity|]. simpl. destruct (f ev); simpl; lia.
Qed.

Lemma at_most_call {A : Type} n (ev : event) (answer : list event -> exn + A) :
  ((if f ev then 1 else 0) <= n)%nat -> at_most f n (call ev answer).
Proof.
  intros Hn h. exists [ev]. unfold call.
  destruct (answer h); (split; [reflexivity|]); simpl; destruct (f ev); simpl; lia.
Qed.

Lemma at_most_bind {A B : Type} n1 n2 n (m : M A) (k : A -> M B) :
  (n1 + n2 <= n)%nat ->
  at_most f n1 m -> (∀ a, at_most f n2 (k a)) -> at_most f n (m ≫= k).
Proof.
  intros Hn Hm Hk h. rewrite bind_run.
  destruct (m h) as [[a|e] h1] eqn:Hrun;
    destruct (at_most_run _ _ _ _ _ Hm Hrun) as [new1 [-> H1]].
  - destruct (Hk a (h ++ new1)) as [new2 [Heq H2]].
    exists (new1 ++ new2). rewrite Heq, app_assoc. split; [reflexivity|].
    rewrite List.filter_app, length_app. lia.
  - exists new1. split; [reflexivity | lia].
Qed.

Lemma at_most_try {A : Type} n1 n2 n (m : M A) (handler : exn -> M A) :
  (n1 + n2 <= n)%nat ->
  at_most f n1 m -> (∀ e, at_most f n2 (handler e)) -> at_most f n (try_except m handler).
Proof.
  intros Hn Hm Hk h. unfold try_except.
  destruct (m h) as [[a|e] h1] eqn:Hrun;
    destruct (at_most_run _ _ _ _ _ Hm Hrun) as [new1 [-> H1]].
  - exists new1. split; [reflexivity | lia].
  - destruct (Hk e (h ++ new1)) as [new2 [Heq H2]].
    exists (new1 ++ new2). rewrite Heq, app_assoc. split; [reflexivity|].
    rewrite List.filter_app, length_app. lia.
Qed.

End AtMost.

(** Splits the budget of a sequence between its head and its tail, trying
    the small shares first. *)
Ltac at_most_solve :=
  cbv beta zeta;
  lazymatch goal with
  | |- at_most _ _ (mret _) => apply at_most_ret
  | |- at_most _ _ (raise _) => apply at_most_raise
  | |- at_most _ _ (emit _) => apply at_most_emit; simpl; lia
  | |- at_most _ _ (call _ _) => apply at_most_call; simpl; lia
  | |- at_most _ ?n (_ ≫= _) =>
      first [ at_most_share_bind constr:(0%nat) n
            | at_most_share_bind constr:(1%nat) n
            | at_most_share_bind constr:(2%nat) n
            | at_most_share_bind constr:(3%nat) n ]
  | |- at_most _ ?n (try_except _ _) =>
      first [ at_most_share_try constr:(0%nat) n
            | at_most_share_try constr:(1%nat) n
            | at_most_share_try constr:(2%nat) n ]
  | |- at_most _ _ (match ?x with _ => _ end) => destruct x; at_most_solve
  end
with at_most_share_bind k n :=
  let rest := eval compute in (n - k)%nat in
  solve [ apply (@at_most_bind _ _ _ k rest);
          [ simpl; lia | at_most_solve | intros ?; at_most_solve ] ]
with at_most_share_try k n :=
  let rest := eval compute in (n - k)%nat in
  solve [ apply (@at_most_try _ _ k rest);
          [ simpl; lia | at_most_solve | intros ?; at_most_solve ] ].

Section Bounds.

Variable env : Env.

(** X1.  One run of [post_query_and_download] is bounded: it never loops on the
    network, the browser or the disk. *)
Theorem X_requests_are_bounded sid name h :
  ∃ r new,
    post_query_and_download env sid name h = (r, h ++ new)
    ∧ (length (List.filter is_post new) <= 3)%nat
    ∧ (length (List.filter is_get new) <= 2)%nat
    ∧ (length (List.filter is_poll new) <= 1)%nat
    ∧ (length (List.filter is_write new) <= 1)%nat.
Proof.
  assert (Hpost : at_most is_post 3 (post_query_and_download env sid name))
    by (unfold_program; at_most_solve).
  assert (Hget : at_most is_get 2 (post_query_and_download env sid name))
    by (unfold_program; at_most_solve).
  assert (Hpoll : at_most is_poll 1 (post_query_and_download env sid name))
    by (unfold_program; at_most_solve).
  assert (Hwrite : at_most is_write 1 (post_query_and_download env sid name))
    by (unfold_program; at_most_solve).
  destruct (post_query_and_download env sid name h) as [r h'] eqn:Hrun.
  destruct (at_most_run _ _ _ _ _ _ Hpost Hrun) as [new [-> H1]].
  destruct (at_most_run _ _ _ _ _ _ Hget Hrun) as [new2 [Heq2 H2]].
  destruct (at_most_run _ _ _ _ _ _ Hpoll Hrun) as [new3 [Heq3 H3]].
  destruct (at_most_run _ _ _ _ _ _ Hwrite Hrun) as [new4 [Heq4 H4]].
  apply app_inv_head in Heq2, Heq3, Heq4. subst new2 new3 new4.
  exists r, new. auto.
Qed.

End Bounds.

(** ** More on the 449 handler *)

Section ChallengeEdges.

Variable env : Env.

Lemma fetch_response_from sid name h resp :
  request_post env h SAS_URL (job_body env sid) xhr_headers 60000 = inr resp ->
  fetch_response env sid name h =
  handle_challenge env sid name resp
    (h ++ [job_post env sid;
           EPrint (MsgDebugPost (text resp) name (status resp));
           EPrint (MsgDebugPreviewPost (text resp))]).
Proof.
  intros Hpost. pose proof (submit_job_run env sid name h) as Hsub.
  rewrite Hpost in Hsub. unfold fetch_response. apply (bind_ok _ _ _ _ _ Hsub).
Qed.

(** X2.  Only the status 449 is a challenge.  With any other status the body is
    never read for a follow-up address, even when it names one: the run
    goes on with the text of that answer, without a re-authentication GET
    and without a second job request. *)
Theorem X_other_status_is_no_challenge sid name h resp :
  request_post env h SAS_URL (job_body env sid) xhr_headers 60000 = inr resp ->
  status resp ≠ 449 ->
  let submitted :=
    h ++ [job_post env sid;
          EPrint (MsgDebugPost (text resp) name (status resp));
          EPrint (MsgDebugPreviewPost (text resp))] in
  post_query_and_download env sid name h =
  after_response env name (text resp) submitted
  ∧ ∃ rest,
      (post_query_and_download env sid name h).2 = submitted ++ rest
      ∧ Forall (fun ev => is_job_post ev = false ∧ is_reauth_get ev = false) rest.
Proof.
  intros Hpost Hst. cbv zeta.
  assert (Hfr : fetch_response env sid name h =
                (Ok (text resp),
                 h ++ [job_post env sid;
                       EPrint (MsgDebugPost (text resp) name (status resp));
                       EPrint (MsgDebugPreviewPost (text resp))])).
  { rewrite (fetch_response_from _ _ _ _ Hpost).
    apply handle_challenge_skip. left. exact Hst. }
  rewrite (post_query_and_download_after_response _ _ _ _ _ _ Hfr).
  split; [reflexivity|].
  destruct (after_response env name (text resp) _) as [r h2] eqn:Hafter.
  destruct (appends_run _ _ _ _ _ (after_response_no_retry env name (text resp)) Hafter)
    as [n [-> Hn]].
  exists n. auto.
Qed.

(** X3.  A 449 answer whose follow-up field holds a truthy value that is not a
    string (a number, a list, an object, [true]) makes the run raise
    [AttributeError] at [uri.startswith]: nothing is requested after the
    job submission, and no page is loaded. *)
Theorem X_non_string_uri_raises sid name h resp :
  request_post env h SAS_URL (job_body env sid) xhr_headers 60000 = inr resp ->
  status resp = 449 ->
  truthy (challenge_uri resp) = true ->
  (∀ u, challenge_uri resp ≠ PStr u) ->
  ∃ what,
    post_query_and_download env sid name h =
    (Raise (AttributeError what),
     h ++ [job_post env sid;
           EPrint (MsgDebugPost (text resp) name 449);
           EPrint (MsgDebugPreviewPost (text resp))]).
Proof.
  intros Hpost Hst Htruthy Hnot.
  exists "startswith". apply post_query_and_download_fetch_raise.
  rewrite (fetch_response_from _ _ _ _ Hpost), Hst.
  unfold handle_challenge. rewrite Hst, Htruthy. change (449 =? 449) with true.
  cbv iota zeta.
  destruct (challenge_uri resp) as [| | | |u| |]; try reflexivity.
  exfalso. apply (Hnot u). reflexivity.
Qed.

(** X4.  After a followed challenge only the second answer counts: whatever its
    status, its text is what the Form Resolver parses and what is loaded;
    the body of the 449 answer is not used again. *)
Theorem X_followed_challenge_uses_second_answer sid name h resp u g resp' :
  request_post env h SAS_URL (job_body env sid) xhr_headers 60000 = inr resp ->
  status resp = 449 ->
  challenge_uri resp = PStr u ->
  u ≠ "" ->
  let challenged :=
    h ++ [job_post env sid;
          EPrint (MsgDebugPost (text resp) name 449);
          EPrint (MsgDebugPreviewPost (text resp));
          EPrint (MsgFollowingSSO (auth_url_of u))] in
  let reauth := EGet (auth_url_of u) session_headers 60000 in
  request_get env challenged (auth_url_of u) session_headers 60000 = inr g ->
  request_post env (challenged ++ [reauth]) SAS_URL (job_body env sid)
    xhr_headers 60000 = inr resp' ->
  post_query_and_download env sid name h =
  after_response env name (text resp')
    (challenged ++ [reauth; job_post env sid;
                    EPrint (MsgDebugPostRetry (text resp') name (status resp'));
                    EPrint (MsgDebugPreviewPostRetry (text resp'))]).
Proof.
  intros Hpost Hst Huri Hne. cbv zeta. intros Hget Hpost'.
  pose proof (handle_challenge_follow env sid name resp u
                (h ++ [job_post env sid;
                       EPrint (MsgDebugPost (text resp) name 449);
                       EPrint (MsgDebugPreviewPost (text resp))]) Hst Huri Hne) as Hhc.
  cbv zeta in Hhc. rewrite <- !app_assoc in Hhc. simpl app in Hhc.
  rewrite <- !app_assoc in Hpost'. simpl app in Hpost'.
  rewrite Hget, Hpost' in Hhc.
  apply post_query_and_download_after_response.
  rewrite (fetch_response_from _ _ _ _ Hpost), Hst, Hhc.
  rewrite <- !app_assoc. reflexivity.
Qed.

End ChallengeEdges.

(** ** More on the page and the link *)

Section LinkEdges.

Variable env : Env.

(** X5.  An anchor that is found but has no [href] (one matched through its
    [download] attribute), or an empty one, counts as no link: the run
    returns [False] with the link-not-found line, and the fallback script is
    not tried. *)
Theorem X_anchor_without_href_is_not_found sid name h h1 hd :
  acquire_page env sid name h = (Ok tt, h1) ->
  wait_for_selector env h1 xlsx_selector 180000 = inr hd ->
  get_attribute hd "href" = inr None ∨ get_attribute hd "href" = inr (Some "") ->
  post_query_and_download env sid name h =
  (Ok false, h1 ++ [EWaitForSelector xlsx_selector 180000;
                    EGetAttribute "href";
                    EPrint (MsgLinkNotFound name)]).
Proof.
  intros Hpage Hwait Hattr.
  assert (Hlink : ∃ link, no_link link = true ∧
            find_link env h1 =
            (Ok link, h1 ++ [EWaitForSelector xlsx_selector 180000;
                             EGetAttribute "href"])).
  { unfold find_link, try_except, page_wait_for_selector, handle_get_attribute, call.
    rewrite bind_run, Hwait.
    destruct Hattr as [-> | ->]; eexists; (split; [|rewrite <- app_assoc; reflexivity]);
      reflexivity. }
  destruct Hlink as [link [Hno Hlink]].
  rewrite post_query_and_download_run, Hpage.
  rewrite (resolve_and_fetch_run _ _ _ _ _ Hlink).
  rewrite (fetch_artifact_not_found _ _ _ _ Hno).
  rewrite <- app_assoc. reflexivity.
Qed.

(** X6.  When the wait for the anchor raises, the script that queries the
    document decides: the reference it returns is normalized and
    requested. *)
Theorem X_script_link_is_requested sid name h h1 e link :
  acquire_page env sid name h = (Ok tt, h1) ->
  wait_for_selector env h1 xlsx_selector 180000 = inl e ->
  evaluate env (h1 ++ [EWaitForSelector xlsx_selector 180000]) xlsx_script
  = inr (Some link) ->
  link ≠ "" ->
  ∃ r rest,
    post_query_and_download env sid name h =
    (r, h1 ++ [EWaitForSelector xlsx_selector 180000;
               EEvaluate xlsx_script;
               EGet (normalize_link link) session_headers 120000] ++ rest)
    ∧ Forall (fun ev => is_get ev = false) rest.
Proof.
  intros Hpage Hwait Hscript Hne.
  assert (Hlink : find_link env h1 =
                  (Ok (Some link), h1 ++ [EWaitForSelector xlsx_selector 180000;
                                          EEvaluate xlsx_script])).
  { unfold find_link, try_except, page_wait_for_selector, page_evaluate, call.
    rewrite bind_run, Hwait, Hscript. rewrite <- app_assoc. reflexivity. }
  rewrite post_query_and_download_run, Hpage.
  rewrite (resolve_and_fetch_run _ _ _ _ _ Hlink).
  rewrite (fetch_artifact_found _ _ _ _ Hne).
  pose proof (download_run env (normalize_link link) name
                (h1 ++ [EWaitForSelector xlsx_selector 180000;
                        EEvaluate xlsx_script])) as Hd.
  destruct (request_get env _ (normalize_link link) session_headers 120000) as [e'|r2].
  - rewrite Hd. exists (Raise e'), [].
    split; [rewrite <- !app_assoc; reflexivity | constructor].
  - destruct (status r2 =? 200); rewrite Hd; eexists _, _;
      (split; [rewrite <- !app_assoc; reflexivity | repeat constructor]).
Qed.

Lemma quote_cons c s : quote (String c s) = quote_char c +:+ quote s.
Proof. reflexivity. Qed.

Lemma unquote_char c t : unquote (quote_char c +:+ t) = String c (unquote t).
Proof. destruct c as [[] [] [] [] [] [] [] []]; reflexivity. Qed.

Lemma unquote_quote s : unquote (quote s) = s.
Proof.
  induction s as [|c s IH]; [reflexivity|].
  rewrite quote_cons, unquote_char, IH. reflexivity.
Qed.

Lemma all_chars_app f s t : all_chars f (s +:+ t) = all_chars f s && all_chars f t.
Proof. induction s as [|c s IH]; [reflexivity|]. simpl. rewrite IH. apply andb_assoc. Qed.

Lemma quote_char_url c : all_chars url_char (quote_char c) = true.
Proof. destruct c as [[] [] [] [] [] [] [] []]; reflexivity. Qed.

Lemma quote_url s : all_chars url_char (quote s) = true.
Proof.
  induction s as [|c s IH]; [reflexivity|].
  rewrite quote_cons, all_chars_app, quote_char_url, IH. reflexivity.
Qed.

(** X7.  When [set_content] raises, the page is handed to the browser as a
    [data:] address instead.  The address is made of unreserved characters,
    "/" and percent escapes only, and percent-decoding it gives back the
    page, byte for byte.  If that navigation raises as well, so does
    [load_page]. *)
Theorem X_page_fallback_is_lossless page_html h e :
  set_content env h page_html = Some e ->
  let address := "data:text/html," +:+ quote page_html in
  all_chars url_char (quote page_html) = true
  ∧ unquote (quote page_html) = page_html
  ∧ load_page env page_html h =
    (match goto env (h ++ [ESetContent page_html]) address 60000 with
     | None => Ok tt
     | Some e' => Raise e'
     end,
     h ++ [ESetContent page_html; EGoto address 60000]).
Proof.
  intros Hset. cbv zeta.
  split; [apply quote_url|]. split; [apply unquote_quote|].
  unfold load_page, try_except, page_set_content, page_goto, call_unit, call.
  rewrite Hset.
  destruct (goto env _ _ 60000); rewrite <- app_assoc; reflexivity.
Qed.

End LinkEdges.

(** ** More on the loop of [main] *)

Section LoopEdges.

Variable env : Env.

Lemma post_query_and_download_no_error_line sid name :
  appends (fun ev => is_error_line ev = false) (post_query_and_download env sid name).
Proof. unfold_program. appends_auto; done. Qed.

(** X8.  [main] prints its error line for a Target exactly when the acquisition
    raised, with the Target's name and the exception.  A run that returned
    is not reported, whether it returned [True] or [False]: the return value
    is never looked at. *)
Theorem X_error_line_only_when_raised s h :
  is_target s = true ->
  let name := target_name s in
  let started := h ++ [EPrint (MsgProcessing (target_id s) name)] in
  ∃ new,
    process_state env s h = (Ok tt, h ++ new)
    ∧ List.filter is_error_line new =
      match (post_query_and_download env (target_id s) name started).1 with
      | Raise e => [EPrint (MsgError name e)]
      | Ok _ => []
      end.
Proof.
  intros Ht. cbv zeta. rewrite (process_state_run env s h Ht). cbv zeta.
  destruct (post_query_and_download env (target_id s) (target_name s) _)
    as [r h1] eqn:Hrun.
  destruct (appends_run _ _ _ _ _
              (post_query_and_download_no_error_line (target_id s) (target_name s)) Hrun)
    as [n [-> Hn]].
  destruct r as [ok|e]; simpl fst.
  - exists ([EPrint (MsgProcessing (target_id s) (target_name s))] ++ n ++ [ESleep 1]).
    split; [rewrite <- !app_assoc; reflexivity|].
    rewrite !List.filter_app, (filter_none _ _ Hn). reflexivity.
  - exists ([EPrint (MsgProcessing (target_id s) (target_name s))] ++ n
            ++ [EPrint (MsgError (target_name s) e); ESleep 1]).
    split; [rewrite <- !app_assoc; reflexivity|].
    rewrite !List.filter_app, (filter_none _ _ Hn). reflexivity.
Qed.

(** An element that is not a Target record stops [process_state] before
    anything is done. *)
Lemma process_state_malformed s h :
  is_target s = false ->
  ∃ what, process_state env s h = (Raise (AttributeError what), h).
Proof.
  intros Ht. unfold process_state, py_get.
  destruct s as [| | | | |l|d]; try (exists "get"; reflexivity).
  simpl in Ht. unfold mbind, M_bind, mret, M_ret, dict_get.
  destruct (assoc "StateName" d) as [[]|]; try discriminate;
    exists "replace"; reflexivity.
Qed.

Lemma for_each_app body l1 l2 h :
  for_each body (l1 ++ l2) h =
  match for_each body l1 h with
  | (Ok _, h1) => for_each body l2 h1
  | (Raise e, h1) => (Raise e, h1)
  end.
Proof.
  revert h. induction l1 as [|s l1 IH]; intros h; [reflexivity|].
  cbn [for_each app]. rewrite !bind_run.
  destruct (body s h) as [[[]|e] h1]; [apply IH | reflexivity].
Qed.

(** X9.  The reads of the record ([s.get], [.replace]) stand outside the [try]:
    an element of the list that is not a Target record ends the whole run
    with [AttributeError].  The Targets before it have been processed, the
    ones after it never are, and [browser.close()] is not reached. *)
Theorem X_malformed_element_ends_the_run good bad rest h :
  mkdir env h (OUTDIR env) = None ->
  states_file env (h ++ [EMkdir (OUTDIR env)]) = inr (PList (good ++ bad :: rest)) ->
  launch env (h ++ [EMkdir (OUTDIR env); ELoadStates]) = None ->
  goto env (h ++ [EMkdir (OUTDIR env); ELoadStates; ELaunch]) QUERY_URL 60000 = None ->
  Forall (fun s => is_target s = true) good ->
  is_target bad = false ->
  ∃ what segs,
    main env h =
    (Raise (AttributeError what),
     h ++ [EMkdir (OUTDIR env); ELoadStates; ELaunch; EGoto QUERY_URL 60000]
       ++ concat segs)
    ∧ Forall2
        (fun s seg =>
           ∃ mid,
             seg = [EPrint (MsgProcessing (target_id s) (target_name s));
                    job_post env (target_id s)] ++ mid ++ [ESleep 1]
             ∧ Forall (fun ev => is_pacing ev = false) mid)
        good segs.
Proof.
  intros Hmkdir Hstates Hlaunch Hgoto Hgood Hbad.
  destruct (for_each_targets env good
              (h ++ [EMkdir (OUTDIR env); ELoadStates; ELaunch; EGoto QUERY_URL 60000])
              Hgood) as [segs [Hloop Hsegs]].
  destruct (process_state_malformed bad
              ((h ++ [EMkdir (OUTDIR env); ELoadStates; ELaunch; EGoto QUERY_URL 60000])
               ++ concat segs) Hbad) as [what Hraise].
  exists what, segs. split; [|exact Hsegs].
  unfold main, page_goto, call_unit, call, py_iter, emit.
  rewrite bind_run, Hmkdir. rewrite bind_run, Hstates.
  rewrite bind_run, <- app_assoc. simpl app. rewrite Hlaunch.
  rewrite bind_run, <- app_assoc. simpl app. rewrite Hgoto.
  rewrite <- app_assoc. simpl app.
  unfold mbind, M_bind, mret, M_ret.
  rewrite for_each_app, Hloop. cbn [for_each]. rewrite bind_run, Hraise.
  rewrite <- !app_assoc. reflexivity.
Qed.

(** X10.  What [for s in states] makes of a state file that holds no Target at
    all.  An empty list, object or string is an empty loop: the run starts up,
    closes the browser and returns.  A non-empty object or string yields
    strings, on which [s.get] raises [AttributeError]; [null], a number or a
    boolean is not iterable and raises [TypeError].  In both cases nothing is
    requested and [browser.close()] is not reached. *)
Theorem X_state_file_without_a_list v h :
  mkdir env h (OUTDIR env) = None ->
  states_file env (h ++ [EMkdir (OUTDIR env)]) = inr v ->
  launch env (h ++ [EMkdir (OUTDIR env); ELoadStates]) = None ->
  goto env (h ++ [EMkdir (OUTDIR env); ELoadStates; ELaunch]) QUERY_URL 60000 = None ->
  (∀ s l, v ≠ PList (s :: l)) ->
  let started :=
    h ++ [EMkdir (OUTDIR env); ELoadStates; ELaunch; EGoto QUERY_URL 60000] in
  match v with
  | PList _ | PDict [] | PStr "" => main env h = (Ok tt, started ++ [EClose])
  | PDict (_ :: _) | PStr (String _ _) =>
      ∃ what, main env h = (Raise (AttributeError what), started)
  | PNone | PBool _ | PInt _ | PFloat _ _ =>
      ∃ what, main env h = (Raise (TypeError what), started)
  end.
Proof.
  intros Hmkdir Hstates Hlaunch Hgoto Hlist. cbv zeta.
  assert (Hmain : main env h =
                  (items ← py_iter v; for_each (process_state env) items;; emit EClose)
                    (h ++ [EMkdir (OUTDIR env); ELoadStates; ELaunch;
                           EGoto QUERY_URL 60000])).
  { unfold main, page_goto, call_unit, call.
    rewrite bind_run, Hmkdir. rewrite bind_run, Hstates.
    rewrite bind_run, <- app_assoc. simpl app. rewrite Hlaunch.
    rewrite bind_run, <- app_assoc. simpl app. rewrite Hgoto.
    rewrite <- app_assoc. reflexivity. }
  rewrite Hmain.
  destruct v as [| | | |s|l|d]; try (eexists; reflexivity).
  - destruct s; [reflexivity | eexists; reflexivity].
  - destruct l as [|s l]; [reflexivity | exfalso; exact (Hlist s l eq_refl)].
  - destruct d as [|[k v] d]; [reflexivity | eexists; reflexivity].
Qed.

End LoopEdges.

(** ** Where the files go, and what the job request carries *)

Section Outputs.

Variable env : Env.

Lemma str_replace_lacks old new s :
  old ≠ new -> lacks old (str_replace old new s) = true.
Proof.
  intros Hne. induction s as [|c s IH]; [reflexivity|]. simpl. rewrite IH, andb_true_r.
  destruct (Ascii.eqb_spec c old) as [->|Hc].
  - destruct (Ascii.eqb_spec new old); [congruence | reflexivity].
  - destruct (Ascii.eqb_spec c old); [contradiction | reflexivity].
Qed.

Lemma appends_ret_bind {A B : Type} (P : event -> Prop) (a : A) (k : A -> M B) :
  appends P (k a) -> appends P (mret a ≫= k).
Proof. intros H. exact H. Qed.

Lemma appends_raise_bind {A B : Type} (P : event -> Prop) e (k : A -> M B) :
  appends P (raise e ≫= k).
Proof. apply (appends_raise P (A := B) e). Qed.

Lemma appends_weaken {A : Type} (P Q : event -> Prop) (m : M A) :
  (∀ ev, P ev -> Q ev) -> appends P m -> appends Q m.
Proof.
  intros HPQ Hm h. destruct (Hm h) as [new [Heq HP]]. exists new.
  split; [exact Heq | eapply Forall_impl; eauto].
Qed.

(** The only file one acquisition writes is [outpath name]. *)
Lemma post_query_and_download_writes sid name :
  appends (fun ev => match ev with EWrite path _ => path = outpath env name | _ => True end)
          (post_query_and_download env sid name).
Proof. unfold_program. appends_auto; done. Qed.

Lemma process_state_inside_outdir s : appends (inside_outdir env) (process_state env s).
Proof.
  unfold process_state, py_get.
  destruct s as [| | | | |l|d]; try apply appends_raise_bind.
  apply appends_ret_bind, appends_ret_bind. unfold py_replace.
  destruct (dict_get d "StateName" (PStr "unknown")) as [| | | |nm| |];
    try apply appends_raise_bind.
  apply appends_ret_bind.
  apply appends_bind; [apply appends_emit; exact I | intros _].
  apply appends_bind; [|intros _; apply appends_emit; exact I].
  apply appends_try; [|intros e; apply appends_emit; exact I].
  apply appends_bind; [|intros _; apply appends_ret].
  eapply appends_weaken; [|apply post_query_and_download_writes].
  intros [] Hev; try exact I. cbn in Hev. rewrite Hev.
  exists (str_replace "/" "-" nm). split; [reflexivity|].
  apply str_replace_lacks. discriminate.
Qed.

Lemma for_each_inside_outdir l :
  appends (inside_outdir env) (for_each (process_state env) l).
Proof.
  induction l as [|s l IH]; [apply appends_ret|].
  cbn [for_each]. apply appends_bind; [apply process_state_inside_outdir | intros _; exact IH].
Qed.

(** X11.  Whatever the state file holds and whatever the servers answer, [main]
    only ever writes files that lie directly in the output directory: every
    written path is the output directory, one "/", and a file name without
    "/" that ends in [-dui-data.xlsx]. *)
Theorem X_writes_stay_in_the_output_directory h :
  ∃ new,
    (main env h).2 = h ++ new
    ∧ ∀ path content,
        In (EWrite path content) new ->
        ∃ stem, path = OUTDIR env +:+ "/" +:+ stem +:+ "-dui-data.xlsx"
                ∧ lacks "/" stem = true.
Proof.
  assert (Hmain : appends (inside_outdir env) (main env)).
  { unfold main, page_goto, call_unit, py_iter.
    apply appends_bind; [apply appends_call; exact I | intros _].
    apply appends_bind; [apply appends_call; exact I | intros states].
    apply appends_bind; [apply appends_call; exact I | intros _].
    apply appends_bind; [apply appends_call; exact I | intros _].
    apply appends_bind.
    - destruct states; first [apply appends_ret | apply appends_raise].
    - intros items. apply appends_bind; [apply for_each_inside_outdir | intros _].
      apply appends_emit. exact I. }
  destruct (Hmain h) as [new [Heq Hall]]. exists new. split; [exact Heq|].
  intros path content Hin. rewrite Forall_forall in Hall.
  apply (Hall (EWrite path content)). apply list_elem_of_In. exact Hin.
Qed.

(** X12.  Whatever the Target identifier is (and however [str()] renders it),
    the body of the job request is the form encoding of exactly three
    fields, in this order: the query string, the program path and the
    application host.  The identifier sits inside the query string field;
    an "&" or "=" in it cannot add a field to the request, and the body
    holds exactly two "&". *)
Theorem X_job_body_has_three_fields sid :
  parse_qsl (job_body env sid) =
  [("SASQueryString", sas_query env sid); ("_program", PROGRAM); ("_apphostname", APPHOST)]
  ∧ length (split_on "&" (job_body env sid)) = 3%nat.
Proof.
  split; [apply parse_qsl_urlencode|].
  unfold job_body, urlencode. rewrite split_on_join by discriminate. reflexivity.
Qed.

End Outputs.

(** * Properties of the conversion script *)

Section Conversion.

Variable lib : Excel.Lib.

#[local] Existing Instances Excel.Run_ret Excel.Run_bind Excel.name_le_dec.

Lemma run_bind {A B : Type} (m : Excel.Run A) (k : A -> Excel.Run B) :
  m ≫= k =
  match m with
  | (Ok a, evs) => let (r, evs') := k a in (r, evs ++ evs')
  | (Raise e, evs) => (Raise e, evs)
  end.
Proof. reflexivity. Qed.

Lemma row_values_length month_cols total_col year r :
  length (Excel.row_values lib month_cols total_col year r) = 14%nat.
Proof. unfold Excel.row_values. rewrite !length_app, length_map. reflexivity. Qed.

Lemma data_rows_lengths month_cols total_col rows out :
  Excel.data_rows lib month_cols total_col rows = Ok out ->
  Forall (fun row => length row = 14%nat) out.
Proof.
  revert out. induction rows as [|r rows IH]; intros out; cbn [Excel.data_rows].
  - intros [= <-]. constructor.
  - destruct r as [|first rest]; [discriminate|].
    assert (Hgen :
      (if String.eqb (py_strip (Excel.cell_str first)) "" then Ok []
       else if startswith (str_lower (py_strip (Excel.cell_str first))) "total" then Ok []
       else match Excel.year_of lib (py_strip (Excel.cell_str first)) with
            | Some year =>
                match Excel.data_rows lib month_cols total_col rows with
                | Ok out0 =>
                    Ok (Excel.row_values lib month_cols total_col year (first :: rest) :: out0)
                | Raise e => Raise e
                end
            | None => Excel.data_rows lib month_cols total_col rows
            end) = Ok out -> Forall (fun row => length row = 14%nat) out).
    { destruct (String.eqb _ ""); [intros [= <-]; constructor|].
      destruct (startswith _ "total"); [intros [= <-]; constructor|].
      destruct (Excel.year_of lib _) as [year|]; [|apply IH].
      destruct (Excel.data_rows lib month_cols total_col rows) as [out0|e]; [|discriminate].
      intros [= <-]. constructor; [apply row_values_length | apply IH; reflexivity]. }
    destruct first; try exact Hgen. intros [= <-]. constructor.
Qed.

Lemma write_rows_run out : Excel.write_rows out = (Ok tt, map Excel.XWriteRow out).
Proof.
  induction out as [|orow out IH]; [reflexivity|].
  cbn [Excel.write_rows]. rewrite run_bind. unfold Excel.xl_emit. rewrite IH. reflexivity.
Qed.

(** The events of [convert]: nothing, one line, or a whole CSV. *)
Lemma convert_events name rows :
  ∃ r evs,
    Excel.convert lib name rows = (r, evs)
    ∧ (evs = []
       ∨ (∃ m, evs = [Excel.XPrint m])
       ∨ (r = Ok tt
          ∧ ∃ out,
              out ≠ []
              ∧ Forall (fun row => length row = 14%nat) out
              ∧ evs = [Excel.XOpen (Excel.outpath lib name);
                       Excel.XWriteRow Excel.csv_header]
                      ++ map Excel.XWriteRow out
                      ++ [Excel.XPrint (Excel.MsgWrote (Excel.outpath lib name)
                                          (length out))])).
Proof.
  unfold Excel.convert. rewrite run_bind. unfold Excel.xl_lift at 1.
  destruct (Excel.find_month_header_row rows) as [idx|e].
  2:{ eexists _, _. split; [reflexivity|]. left. reflexivity. }
  destruct (idx =? -1).
  { eexists _, _. split; [reflexivity|]. right. left. eexists. reflexivity. }
  destruct (nth_error rows (Z.to_nat idx)) as [header|].
  2:{ eexists _, _. split; [reflexivity|]. left. reflexivity. }
  destruct (Excel.header_columns (map Excel.or_empty header)) as [month_cols total_col].
  rewrite run_bind. unfold Excel.xl_lift at 1.
  destruct (Excel.total_column (map Excel.or_empty header) total_col) as [tc|e].
  2:{ eexists _, _. split; [reflexivity|]. left. reflexivity. }
  rewrite run_bind. unfold Excel.xl_lift.
  destruct (Excel.data_rows lib month_cols tc _) as [out|e] eqn:Hdata.
  2:{ eexists _, _. split; [reflexivity|]. left. reflexivity. }
  destruct out as [|orow out].
  { eexists _, _. split; [reflexivity|]. right. left. eexists. reflexivity. }
  rewrite !run_bind. unfold Excel.xl_emit. rewrite write_rows_run.
  eexists _, _. split; [reflexivity|]. right. right. split; [reflexivity|].
  exists (orow :: out). split; [discriminate|].
  split; [apply (data_rows_lengths _ _ _ _ Hdata)|].
  cbn. rewrite <- ?app_assoc. reflexivity.
Qed.

Lemma process_file_run name :
  Excel.process_file lib name =
  let path := path_div (Excel.SCRAPED lib) name in
  match Excel.load_rows lib name with
  | inl e => (Raise e, [Excel.XPrint (Excel.MsgProcessing path); Excel.XLoad path])
  | inr rows =>
      ((Excel.convert lib name rows).1,
       [Excel.XPrint (Excel.MsgProcessing path); Excel.XLoad path]
       ++ (Excel.convert lib name rows).2)
  end.
Proof.
  unfold Excel.process_file. cbv zeta. rewrite !run_bind.
  unfold Excel.xl_emit, Excel.xl_call.
  destruct (Excel.load_rows lib name) as [e|rows]; [reflexivity|].
  destruct (Excel.convert lib name rows) as [r evs]. reflexivity.
Qed.

(** X18.  [process_file] writes a CSV whole or not at all (opening the file
    and writing to it are taken to succeed).  Either it opens no file and
    writes no row; or it returns normally after reading the workbook, opening
    exactly one file, and writing the header row and at least one data row,
    and its last line reports the number of data rows.  Every data row has as
    many fields as the header row. *)
Theorem X_csv_is_whole_and_rectangular name :
  ∃ r evs,
    Excel.process_file lib name = (r, evs)
    ∧ (Forall (fun ev => Excel.is_output ev = false) evs
       ∨ (r = Ok tt
          ∧ ∃ out,
              out ≠ []
              ∧ Forall (fun row => length row = length Excel.csv_header) out
              ∧ evs = [Excel.XPrint (Excel.MsgProcessing (path_div (Excel.SCRAPED lib) name));
                       Excel.XLoad (path_div (Excel.SCRAPED lib) name);
                       Excel.XOpen (Excel.outpath lib name);
                       Excel.XWriteRow Excel.csv_header]
                      ++ map Excel.XWriteRow out
                      ++ [Excel.XPrint (Excel.MsgWrote (Excel.outpath lib name)
                                          (length out))])).
Proof.
  rewrite process_file_run. cbv zeta.
  destruct (Excel.load_rows lib name) as [e|rows].
  { eexists _, _. split; [reflexivity|]. left. repeat constructor. }
  destruct (convert_events name rows) as (r & evs & Hrun & Hshape). rewrite Hrun.
  eexists _, _. split; [reflexivity|]. cbn [fst snd].
  destruct Hshape as [-> | [[m ->] | (-> & out & Hne & Hlen & ->)]].
  - left. repeat constructor.
  - left. repeat constructor.
  - right. split; [reflexivity|]. exists out. split; [exact Hne|].
    split; [exact Hlen | reflexivity].
Qed.

Lemma find_from_spec rows : ∀ i j,
  Excel.find_from i rows = Ok j ->
  (j = -1 ∧ Forall Excel.passed_over rows)
  ∨ (∃ k row cells,
       j = i + Z.of_nat k
       ∧ rows !! k = Some row
       ∧ Excel.strip_cells row = Ok cells
       ∧ (6 <= Excel.months_found cells)%nat
       ∧ Forall Excel.passed_over (take k rows)).
Proof.
  induction rows as [|row rows IH]; intros i j; cbn [Excel.find_from].
  - intros [= <-]. left. split; [reflexivity | constructor].
  - destruct (Excel.strip_cells row) as [cells|e] eqn:Hcells; [|discriminate].
    destruct (6 <=? Excel.months_found cells)%nat eqn:Hsix.
    + intros [= <-]. right. exists 0%nat, row, cells.
      repeat split; [lia | assumption | apply Nat.leb_le, Hsix | constructor].
    + intros Hrest. apply Nat.leb_gt in Hsix.
      assert (Hrow : Excel.passed_over row) by (exists cells; auto).
      destruct (IH _ _ Hrest) as [[-> Hall] | (k & row' & cells' & -> & Hk & Hc & Hm & Hbefore)].
      * left. split; [reflexivity | constructor; assumption].
      * right. exists (S k), row', cells'.
        repeat split; [lia | assumption | assumption | assumption |].
        cbn [take]. constructor; assumption.
Qed.

(** X13.  [find_month_header_row] returns the index of the first row in which
    at least six of the twelve month names stand as cells (in any case, with
    blanks around them allowed).  When it returns [-1], every row has been
    passed over; otherwise the index lies within the sheet, that row holds
    six month names or more, and every row above it has been passed over. *)
Theorem X_header_is_the_first_row_with_six_months rows j :
  Excel.find_month_header_row rows = Ok j ->
  (j = -1 ∧ Forall Excel.passed_over rows)
  ∨ (0 <= j < Z.of_nat (length rows)
     ∧ ∃ row cells,
         rows !! Z.to_nat j = Some row
         ∧ Excel.strip_cells row = Ok cells
         ∧ (6 <= Excel.months_found cells)%nat
         ∧ Forall Excel.passed_over (take (Z.to_nat j) rows)).
Proof.
  intros H. destruct (find_from_spec _ _ _ H)
    as [? | (k & row & cells & -> & Hk & Hc & Hm & Hbefore)]; [left; assumption|].
  right. rewrite Z.add_0_l, Nat2Z.id.
  split; [|exists row, cells; auto].
  apply lookup_lt_Some in Hk. lia.
Qed.

Lemma strip_cells_raises row c :
  c ∈ row -> Excel.cell_truthy c = true -> (∀ s, c ≠ Excel.CStr s) ->
  ∃ what, Excel.strip_cells row = Raise (AttributeError what).
Proof.
  intros Hin Ht Hns. induction row as [|c' row IH]; [apply elem_of_nil in Hin; contradiction|].
  apply elem_of_cons in Hin as [<- | Hin]; cbn [Excel.strip_cells].
  - unfold Excel.or_empty. rewrite Ht. destruct c; try (eexists; reflexivity).
    exfalso. apply (Hns s). reflexivity.
  - destruct (Excel.or_empty c'); try (eexists; reflexivity).
    destruct (IH Hin) as [what ->]. eexists; reflexivity.
Qed.

Lemma find_from_raises above bad below c i :
  Forall Excel.passed_over above ->
  c ∈ bad -> Excel.cell_truthy c = true -> (∀ s, c ≠ Excel.CStr s) ->
  ∃ what, Excel.find_from i (above ++ bad :: below) = Raise (AttributeError what).
Proof.
  intros Habove Hin Ht Hns. revert i.
  induction Habove as [|row above [cells [Hc Hm]] _ IH]; intros i; cbn [app Excel.find_from].
  - destruct (strip_cells_raises _ _ Hin Ht Hns) as [what ->]. eexists; reflexivity.
  - rewrite Hc. apply Nat.leb_gt in Hm. rewrite Hm. apply IH.
Qed.

(** X14.  The header search calls [.strip()] on every truthy cell of every
    row it reaches.  A row reached by the search that holds a truthy cell
    which is not a string (a number, a date, [True]) makes [process_file]
    raise [AttributeError]: the workbook has been read, and nothing is
    printed or written after that. *)
Theorem X_number_above_the_header_raises name above bad below c :
  Excel.load_rows lib name = inr (above ++ bad :: below) ->
  Forall Excel.passed_over above ->
  c ∈ bad -> Excel.cell_truthy c = true -> (∀ s, c ≠ Excel.CStr s) ->
  ∃ what,
    Excel.process_file lib name =
    (Raise (AttributeError what),
     [Excel.XPrint (Excel.MsgProcessing (path_div (Excel.SCRAPED lib) name));
      Excel.XLoad (path_div (Excel.SCRAPED lib) name)]).
Proof.
  intros Hload Habove Hin Ht Hns.
  destruct (find_from_raises above bad below c 0 Habove Hin Ht Hns) as [what Hfind].
  exists what. rewrite process_file_run, Hload. cbv zeta.
  unfold Excel.convert, Excel.find_month_header_row. rewrite Hfind. reflexivity.
Qed.

Lemma find_from_header above header cells below i :
  Forall Excel.passed_over above ->
  Excel.strip_cells header = Ok cells ->
  (6 <= Excel.months_found cells)%nat ->
  Excel.find_from i (above ++ header :: below) = Ok (i + Z.of_nat (length above)).
Proof.
  intros Habove Hc Hm. revert i.
  induction Habove as [|row above [cells' [Hc' Hm']] _ IH]; intros i; cbn [app Excel.find_from].
  - rewrite Hc. apply Nat.leb_le in Hm. rewrite Hm. f_equal. simpl. lia.
  - rewrite Hc'. apply Nat.leb_gt in Hm'. rewrite Hm', IH. f_equal. cbn [length]. lia.
Qed.

(** [convert] on a sheet whose header row is known. *)
Lemma convert_below_header name above header cells below :
  Forall Excel.passed_over above ->
  Excel.strip_cells header = Ok cells ->
  (6 <= Excel.months_found cells)%nat ->
  Excel.convert lib name (above ++ header :: below) =
  (let header_row := map Excel.or_empty header in
   let '(month_cols, total_col) := Excel.header_columns header_row in
   total_col ← Excel.xl_lift (Excel.total_column header_row total_col);
   out_rows ← Excel.xl_lift (Excel.data_rows lib month_cols total_col below);
   match out_rows with
   | [] => Excel.xl_emit (Excel.XPrint (Excel.MsgNoData (path_div (Excel.SCRAPED lib) name)))
   | _ =>
       Excel.xl_emit (Excel.XOpen (Excel.outpath lib name));;
       Excel.xl_emit (Excel.XWriteRow Excel.csv_header);;
       Excel.write_rows out_rows;;
       Excel.xl_emit (Excel.XPrint (Excel.MsgWrote (Excel.outpath lib name) (length out_rows)))
   end).
Proof.
  intros Habove Hc Hm. unfold Excel.convert, Excel.find_month_header_row.
  rewrite (find_from_header _ _ _ _ _ Habove Hc Hm). rewrite Z.add_0_l.
  rewrite run_bind. unfold Excel.xl_lift at 1. cbv iota beta.
  destruct (Z.of_nat (length above) =? -1) eqn:Hneg; [apply Z.eqb_eq in Hneg; lia|].
  rewrite Nat2Z.id.
  assert (Hnth : nth_error (above ++ header :: below) (length above) = Some header).
  { rewrite nth_error_app2 by lia. rewrite Nat.sub_diag. reflexivity. }
  assert (Hdrop : drop (length above + 1) (above ++ header :: below) = below).
  { rewrite Nat.add_1_r. change (header :: below) with ([header] ++ below).
    rewrite app_assoc. rewrite drop_app_length'; [reflexivity|].
    rewrite length_app. simpl. lia. }
  rewrite Hnth, Hdrop.
  match goal with |- (let (r, evs') := ?m in _) = _ => destruct m as [r evs'] end.
  reflexivity.
Qed.

Lemma data_rows_stop month_cols total_col above r below :
  Excel.stops r ->
  Excel.data_rows lib month_cols total_col (above ++ r :: below)
  = Excel.data_rows lib month_cols total_col above.
Proof.
  intros (first & rest & -> & Hstop).
  induction above as [|a above IH]; cbn [app Excel.data_rows].
  - destruct Hstop as [-> | [Hblank | Htotal]]; [reflexivity | |].
    + rewrite Hblank. destruct first; reflexivity.
    + rewrite Htotal. destruct first; try reflexivity;
        destruct (String.eqb _ ""); reflexivity.
  - rewrite IH. reflexivity.
Qed.

Lemma data_rows_skip month_cols total_col above first rest below :
  first ≠ Excel.CNone ->
  py_strip (Excel.cell_str first) ≠ "" ->
  startswith (str_lower (py_strip (Excel.cell_str first))) "total" = false ->
  Excel.year_of lib (py_strip (Excel.cell_str first)) = None ->
  Excel.data_rows lib month_cols total_col (above ++ (first :: rest) :: below)
  = Excel.data_rows lib month_cols total_col (above ++ below).
Proof.
  intros Hnone Hblank Htotal Hyear.
  induction above as [|a above IH]; cbn [app Excel.data_rows].
  - apply String.eqb_neq in Hblank. rewrite Hblank, Htotal, Hyear.
    destruct first; try reflexivity. contradiction.
  - rewrite IH. reflexivity.
Qed.

(** X16.  The loop over the data rows ends at the first row whose leading
    cell is [None], blank, or begins with [total] in any case: that row and
    everything below it have no influence on what the conversion does. *)
Theorem X_rows_below_the_stop_row_are_ignored name above header cells data r below :
  Forall Excel.passed_over above ->
  Excel.strip_cells header = Ok cells ->
  (6 <= Excel.months_found cells)%nat ->
  Excel.stops r ->
  Excel.convert lib name (above ++ header :: data ++ r :: below)
  = Excel.convert lib name (above ++ header :: data).
Proof.
  intros Habove Hc Hm Hstop.
  rewrite !(convert_below_header _ _ _ _ _ Habove Hc Hm). cbv zeta.
  destruct (Excel.header_columns _) as [mc tc].
  rewrite !run_bind. destruct (Excel.xl_lift (Excel.total_column _ tc)) as [[tc'|e] evs];
    [|reflexivity].
  rewrite (data_rows_stop _ _ _ _ _ Hstop). reflexivity.
Qed.

(** X17.  A row below the header whose leading cell is neither empty nor a
    summary marker, and does not read as a finite number either, is skipped: the
    conversion does what it would do without that row. *)
Theorem X_rows_that_are_no_year_are_skipped name above header cells data first rest below :
  Forall Excel.passed_over above ->
  Excel.strip_cells header = Ok cells ->
  (6 <= Excel.months_found cells)%nat ->
  first ≠ Excel.CNone ->
  py_strip (Excel.cell_str first) ≠ "" ->
  startswith (str_lower (py_strip (Excel.cell_str first))) "total" = false ->
  Excel.year_of lib (py_strip (Excel.cell_str first)) = None ->
  Excel.convert lib name (above ++ header :: data ++ (first :: rest) :: below)
  = Excel.convert lib name (above ++ header :: data ++ below).
Proof.
  intros Habove Hc Hm Hnone Hblank Htotal Hyear.
  rewrite !(convert_below_header _ _ _ _ _ Habove Hc Hm). cbv zeta.
  destruct (Excel.header_columns _) as [mc tc].
  rewrite !run_bind. destruct (Excel.xl_lift (Excel.total_column _ tc)) as [[tc'|e] evs];
    [|reflexivity].
  rewrite (data_rows_skip _ _ _ _ _ _ Hnone Hblank Htotal Hyear). reflexivity.
Qed.

(** ** The fallback of [parse_number] *)

Lemma str_app_assoc s t u : (s +:+ t) +:+ u = s +:+ (t +:+ u).
Proof.
  induction s as [|a s IH]; [reflexivity|].
  change (String a ((s +:+ t) +:+ u) = String a (s +:+ (t +:+ u))). rewrite IH. reflexivity.
Qed.

Lemma span_spec f s :
  s = (span f s).1 +:+ (span f s).2 ∧ all_chars f (span f s).1 = true.
Proof.
  induction s as [|a s [IHs IHf]]; [split; reflexivity|]. cbn [span].
  destruct (f a) eqn:Hfa; [|split; reflexivity].
  destruct (span f s) as [run rest]. cbn [fst snd] in *.
  split; [change (String a s = String a (run +:+ rest)); f_equal; exact IHs|].
  cbn [all_chars]. rewrite Hfa, IHf. reflexivity.
Qed.

Lemma skip_optional_spec c s :
  ∃ pre, s = pre +:+ Excel.skip_optional c s ∧ (pre = "" ∨ pre = String c "").
Proof.
  destruct s as [|a s]; [exists ""; auto|]. cbn [Excel.skip_optional].
  destruct (Ascii.eqb_spec a c) as [->|_]; [exists (String c "") | exists ""]; auto.
Qed.

Lemma all_chars_impl (f g : ascii -> bool) s :
  (∀ c, f c = true -> g c = true) -> all_chars f s = true -> all_chars g s = true.
Proof.
  intros Hfg. induction s as [|a s IH]; [reflexivity|]. cbn [all_chars].
  intros [Ha Hs]%andb_prop. rewrite (Hfg _ Ha), (IH Hs). reflexivity.
Qed.

Lemma closes_spec t : String.eqb t "" || String.eqb t ")" = true -> t = "" ∨ t = ")".
Proof.
  intros [H|H]%orb_prop; apply String.eqb_eq in H; auto.
Qed.

Lemma NUM_RE_group s g :
  Excel.NUM_RE s = Some g ->
  g ≠ ""
  ∧ all_chars Excel.number_char g = true
  ∧ ∃ before after,
      s = before +:+ g +:+ after
      ∧ all_chars Excel.opener_char before = true
      ∧ (after = "" ∨ after = ")").
Proof.
  unfold Excel.NUM_RE.
  destruct (skip_optional_spec "-" s) as (p1 & Hs1 & Hp1).
  destruct (skip_optional_spec "(" (Excel.skip_optional "-" s)) as (p2 & Hs2 & Hp2).
  destruct (skip_optional_spec "$" (Excel.skip_optional "(" (Excel.skip_optional "-" s)))
    as (p3 & Hs3 & Hp3).
  set (body := Excel.skip_optional "$" _) in *.
  destruct (span_spec (fun c => Excel.is_digit c || Ascii.eqb c ",") body) as [Hbody Hrun].
  destruct (span _ body) as [run rest]. cbn [fst snd] in *.
  assert (Hbefore : all_chars Excel.opener_char (p1 +:+ p2 +:+ p3) = true).
  { destruct Hp1 as [-> | ->], Hp2 as [-> | ->], Hp3 as [-> | ->]; reflexivity. }
  assert (Hs : s = (p1 +:+ p2 +:+ p3) +:+ body).
  { rewrite Hs1 at 1. rewrite Hs2 at 1. rewrite Hs3 at 1.
    rewrite !str_app_assoc. reflexivity. }
  assert (Hnum : all_chars Excel.number_char run = true).
  { eapply all_chars_impl; [|exact Hrun]. intros c Hc. unfold Excel.number_char.
    apply orb_prop in Hc as [Hc | Hc]; rewrite Hc; [reflexivity | rewrite orb_true_r; reflexivity]. }
  destruct (String.eqb_spec run "") as [|Hne]; [discriminate|].
  assert (Hplain : (if String.eqb rest "" || String.eqb rest ")" then Some run else None)
                   = Some g ->
                   g ≠ "" ∧ all_chars Excel.number_char g = true
                   ∧ ∃ before after, s = before +:+ g +:+ after
                       ∧ all_chars Excel.opener_char before = true ∧ (after = "" ∨ after = ")")).
  { destruct (String.eqb rest "" || String.eqb rest ")") eqn:Hclose; [|discriminate].
    intros [= <-]. split; [exact Hne|]. split; [exact Hnum|].
    exists (p1 +:+ p2 +:+ p3), rest. split; [rewrite Hs, Hbody; reflexivity|].
    split; [exact Hbefore | apply closes_spec, Hclose]. }
  destruct rest as [|a rest']; [exact Hplain|].
  destruct (Ascii.eqb_spec a ".") as [->|Ha].
  2:{ destruct a as [[] [] [] [] [] [] [] []]; try exact Hplain. contradiction. }
  destruct (span_spec Excel.is_digit rest') as [Hrest Hfrac].
  destruct (span Excel.is_digit rest') as [frac rest'']. cbn [fst snd] in *.
  destruct (String.eqb frac ""); [discriminate|].
  destruct (String.eqb rest'' "" || String.eqb rest'' ")") eqn:Hclose; [|discriminate].
  intros [= <-]. split; [destruct run; [contradiction | discriminate]|].
  split.
  - rewrite all_chars_app, Hnum. change ("." +:+ frac) with (String "." frac).
    cbn [all_chars andb]. eapply all_chars_impl; [|exact Hfrac].
    intros c Hc. unfold Excel.number_char. rewrite Hc. reflexivity.
  - exists (p1 +:+ p2 +:+ p3), rest''. split; [|split; [exact Hbefore | apply closes_spec, Hclose]].
    rewrite Hs, Hbody, Hrest. rewrite !str_app_assoc. reflexivity.
Qed.

(** X22.  When [float] or [int] rejects the cleaned text of a cell and the
    pattern matches the text, the field is the group of the pattern: a
    non-empty text of digits, commas and dots.  What stood before it in the
    cell (a minus sign, an opening parenthesis, the currency sign) and a
    closing parenthesis after it are dropped, so that the field of a
    negative amount carries no sign, and the commas stay. *)
Theorem X_fallback_field_is_unsigned txt g :
  py_strip txt ≠ "" ->
  Excel.converted lib (Excel.cleaned (py_strip txt)) = None ->
  Excel.NUM_RE (py_strip txt) = Some g ->
  Excel.parse_number lib (Excel.CStr txt) = g
  ∧ g ≠ ""
  ∧ all_chars Excel.number_char g = true
  ∧ ∃ before after,
      py_strip txt = before +:+ g +:+ after
      ∧ all_chars Excel.opener_char before = true
      ∧ (after = "" ∨ after = ")").
Proof.
  intros Hne Hconv Hre. split; [|exact (NUM_RE_group _ _ Hre)].
  cbn [Excel.parse_number Excel.cell_str]. apply String.eqb_neq in Hne.
  rewrite Hne, Hconv, Hre. reflexivity.
Qed.

(** ** The header columns *)

Lemma enumerate_lookup {A : Type} (l : list A) i c :
  (i, c) ∈ Excel.enumerate l -> l !! i = Some c.
Proof.
  unfold Excel.enumerate.
  assert (Hgen : ∀ n, (i, c) ∈ combine (seq n (length l)) l ->
                      (n <= i)%nat ∧ l !! (i - n)%nat = Some c).
  { induction l as [|a l IH]; intros n; cbn [length seq combine].
    - intros Hin. apply elem_of_nil in Hin. contradiction.
    - intros Hin. apply elem_of_cons in Hin as [[= -> ->] | Hin].
      + split; [lia|]. rewrite Nat.sub_diag. reflexivity.
      + destruct (IH _ Hin) as [Hle Hl]. split; [lia|].
        replace (i - n)%nat with (S (i - S n)) by lia. exact Hl. }
  intros Hin. destruct (Hgen 0%nat Hin) as [_ Hl]. rewrite Nat.sub_0_r in Hl. exact Hl.
Qed.

Lemma month_pass cell_s (idx : nat) ms : ∀ (cols : list (string * nat)) m col,
  assoc m
    (fold_left (fun cols m => if Excel.same_word cell_s m then dict_set m idx cols else cols)
       ms cols) = Some col ->
  (col = idx ∧ Excel.same_word cell_s m = true) ∨ assoc m cols = Some col.
Proof.
  induction ms as [|m0 ms IH]; intros cols m col; cbn [fold_left]; [auto|].
  intros H. destruct (IH _ _ _ H) as [? | Hcols]; [left; assumption|].
  destruct (Excel.same_word cell_s m0) eqn:Hword; [|right; exact Hcols].
  destruct (String.eqb_spec m0 m) as [-> | Hne].
  - rewrite assoc_dict_set_eq in Hcols. injection Hcols as <-. left. auto.
  - rewrite assoc_dict_set_ne in Hcols by exact Hne. right. exact Hcols.
Qed.

Lemma header_fold header_row ixs : ∀ acc,
  (∀ i c, (i, c) ∈ ixs -> header_row !! i = Some c) ->
  (∀ m col, assoc m acc.1 = Some col -> Excel.reads header_row m col) ->
  (∀ col, acc.2 = Some col -> Excel.reads header_row "total" col) ->
  let acc' := fold_left Excel.header_step ixs acc in
  (∀ m col, assoc m acc'.1 = Some col -> Excel.reads header_row m col)
  ∧ (∀ col, acc'.2 = Some col -> Excel.reads header_row "total" col).
Proof.
  induction ixs as [|[idx c] ixs IH]; intros acc Hix Hm Ht; cbn [fold_left]; [auto|].
  apply IH.
  - intros i c' Hin. apply Hix. apply elem_of_cons. right. exact Hin.
  - destruct acc as [month_cols total_col]. cbn [Excel.header_step].
    destruct (Excel.cell_truthy c) eqn:Htruthy; cbn [negb]; [|exact Hm].
    cbn [fst]. intros m col H. destruct (month_pass _ _ _ _ _ _ H) as [[-> Hword] | Hold].
    + exists c. split; [apply Hix; apply elem_of_cons; left; reflexivity | auto].
    + apply Hm. exact Hold.
  - destruct acc as [month_cols total_col]. cbn [Excel.header_step].
    destruct (Excel.cell_truthy c) eqn:Htruthy; cbn [negb]; [|exact Ht].
    cbn [snd]. intros col. destruct (Excel.same_word _ "total") eqn:Hword; [|apply Ht].
    intros [= <-]. exists c. split; [apply Hix; apply elem_of_cons; left; reflexivity | auto].
Qed.

(** X15. Every column index the header loop records points at a header cell
    that reads the name it is recorded under: a month column at a non-empty
    cell that is that month's name in some case, with blanks around it
    allowed, and the total column, when the loop sets it, at a cell that
    reads [total]. *)
Theorem X_columns_point_at_their_header_cells header_row word col :
  assoc word (Excel.header_columns header_row).1 = Some col
  ∨ (word = "total" ∧ (Excel.header_columns header_row).2 = Some col) ->
  Excel.reads header_row word col.
Proof.
  assert (Hfold :
    (∀ m c, assoc m (Excel.header_columns header_row).1 = Some c ->
            Excel.reads header_row m c)
    ∧ (∀ c, (Excel.header_columns header_row).2 = Some c ->
            Excel.reads header_row "total" c)).
  { unfold Excel.header_columns. apply header_fold.
    - intros i c. apply enumerate_lookup.
    - intros m c. discriminate.
    - intros c. discriminate. }
  destruct Hfold as [Hmonths Htotal].
  intros [Hmonth | [-> Htot]]; [apply Hmonths, Hmonth | apply Htotal, Htot].
Qed.

(** ** The loop over the files *)

Lemma filter_rows out : List.filter Excel.is_load (map Excel.XWriteRow out) = [].
Proof. induction out as [|r out IH]; [reflexivity | exact IH]. Qed.

Lemma convert_loads name rows :
  List.filter Excel.is_load (Excel.convert lib name rows).2 = [].
Proof.
  destruct (convert_events name rows) as (r & evs & -> & Hshape). cbn [snd].
  destruct Hshape as [-> | [[m ->] | (_ & out & _ & _ & ->)]]; [reflexivity | reflexivity |].
  rewrite !List.filter_app, filter_rows. reflexivity.
Qed.

Lemma process_file_loads name :
  List.filter Excel.is_load (Excel.process_file lib name).2
  = [Excel.XLoad (path_div (Excel.SCRAPED lib) name)].
Proof.
  rewrite process_file_run. cbv zeta.
  destruct (Excel.load_rows lib name) as [e|rows]; [reflexivity|].
  cbn [snd]. rewrite List.filter_app, convert_loads. reflexivity.
Qed.

Lemma process_all_loads names :
  ∃ k, (k <= length names)%nat
       ∧ List.filter Excel.is_load (Excel.process_all lib names).2 = Excel.loads lib (take k names)
       ∧ ((Excel.process_all lib names).1 = Ok tt -> k = length names).
Proof.
  induction names as [|f names (k & Hk & Hloads & Hall)]; cbn [Excel.process_all].
  - exists 0%nat. split; [reflexivity|]. split; reflexivity.
  - rewrite run_bind. pose proof (process_file_loads f) as Hf.
    destruct (Excel.process_file lib f) as [[[]|e] evs]; cbn [snd] in Hf.
    + destruct (Excel.process_all lib names) as [r evs']. cbn [fst snd] in *.
      exists (S k). split; [cbn [length]; lia|]. split.
      * rewrite List.filter_app, Hf, Hloads. reflexivity.
      * intros Hr. cbn [length]. f_equal. apply Hall, Hr.
    + exists 1%nat. cbn [fst snd length]. split; [lia|]. split; [|discriminate].
      rewrite Hf. reflexivity.
Qed.

Lemma name_le_total : Total Excel.name_le.
Proof. intros a b. apply String.leb_total. Qed.

(** X19.  When the output directory can be made and the listing succeeds, the
    workbooks are read in ascending order of their names, each listed
    workbook at most once: the workbooks read are an initial segment of the
    sorted listing, and all of it when the script returns normally. *)
Theorem X_files_are_read_in_name_order found :
  Excel.make_outdir lib = None ->
  Excel.glob_xlsx lib = inr found ->
  ∃ files k,
    files ≡ₚ found
    ∧ Sorted Excel.name_le files
    ∧ (k <= length files)%nat
    ∧ List.filter Excel.is_load (Excel.main lib).2 = Excel.loads lib (take k files)
    ∧ ((Excel.main lib).1 = Ok tt -> k = length files).
Proof.
  intros Hdir Hglob. exists (merge_sort Excel.name_le found).
  destruct (process_all_loads (merge_sort Excel.name_le found)) as (k & Hk & Hloads & Hall).
  exists k. split; [apply merge_sort_Permutation|].
  split; [apply (@Sorted_merge_sort _ _ _ name_le_total)|]. split; [exact Hk|].
  unfold Excel.main. rewrite Hdir, Hglob. unfold Excel.xl_call, Excel.xl_emit.
  rewrite !run_bind. cbv iota beta zeta.
  destruct (Excel.process_all lib (merge_sort Excel.name_le found)) as [r evs].
  cbn [fst snd] in *.
  destruct (merge_sort Excel.name_le found); cbn; rewrite ?Hloads; auto.
Qed.

(** X20. The loop over the files has no [try]: the first workbook whose
    conversion raises ends the script with that exception.  The workbooks
    before it have been converted; the ones after it are never opened. *)
Theorem X_failing_file_ends_the_conversion before f after e evs :
  Forall (fun name => (Excel.process_file lib name).1 = Ok tt) before ->
  Excel.process_file lib f = (Raise e, evs) ->
  Excel.process_all lib (before ++ f :: after)
  = (Raise e, concat (map (fun name => (Excel.process_file lib name).2) before) ++ evs).
Proof.
  intros Hbefore Hf. induction Hbefore as [|name before Hname _ IH];
    cbn [app Excel.process_all map concat].
  - rewrite run_bind, Hf. reflexivity.
  - rewrite run_bind, IH. destruct (Excel.process_file lib name) as [r evs0].
    cbn [fst snd] in *. rewrite Hname, <- app_assoc. reflexivity.
Qed.

(** ** From the download to the CSV *)

Lemma rfind_lacks c s : lacks c s = true -> rfind c s = None.
Proof.
  induction s as [|a s IH]; [reflexivity|]. cbn [lacks rfind].
  intros [Ha Hs]%andb_prop. rewrite (IH Hs).
  destruct (Ascii.eqb a c); [discriminate | reflexivity].
Qed.

Lemma rfind_last c s t :
  lacks c t = true -> rfind c (s +:+ String c t) = Some (String.length s).
Proof.
  intros Ht. induction s as [|a s IH].
  - change ("" +:+ String c t) with (String c t). cbn [rfind String.length].
    rewrite (rfind_lacks _ _ Ht), Ascii.eqb_refl. reflexivity.
  - change (String a s +:+ String c t) with (String a (s +:+ String c t)).
    cbn [rfind String.length]. rewrite IH. reflexivity.
Qed.

Lemma substring_prefix s t : String.substring 0 (String.length s) (s +:+ t) = s.
Proof.
  induction s as [|a s IH].
  - destruct t; reflexivity.
  - change (String a s +:+ t) with (String a (s +:+ t)).
    cbn [String.length String.substring]. f_equal. exact IH.
Qed.

Lemma length_app_string s t : String.length (s +:+ t) = (String.length s + String.length t)%nat.
Proof.
  induction s as [|a s IH]; [reflexivity|].
  change (S (String.length (s +:+ t)) = S (String.length s + String.length t)).
  rewrite IH. reflexivity.
Qed.

Lemma stem_xlsx s : s ≠ "" -> Excel.stem (s +:+ ".xlsx") = s.
Proof.
  intros Hs. unfold Excel.stem.
  change ".xlsx" with (String "." "xlsx"). rewrite rfind_last by reflexivity.
  rewrite length_app_string. cbn [String.length].
  destruct s as [|a s]; [contradiction|]. cbn [String.length].
  replace ((0 <? S (String.length s)) && (S (String.length s) <? S (String.length s) + 5 - 1))%nat
    with true by (symmetry; apply andb_true_intro; split; apply Nat.ltb_lt; lia).
  apply (substring_prefix (String a s)).
Qed.

(** X21.  The two scripts fit together: for a Target name without "/", the
    file the downloader writes lies directly in the directory the converter
    lists, and the converter names its CSV after the same Target, with
    [-dui-data.csv] in the output directory. *)
Theorem X_download_becomes_csv_of_the_same_name env name :
  Excel.WORKDIR lib = WORKDIR env ->
  lacks "/" name = true ->
  ∃ file,
    outpath env name = path_div (Excel.SCRAPED lib) file
    ∧ lacks "/" file = true
    ∧ Excel.outpath lib file = path_div (Excel.OUTDIR lib) (name +:+ "-dui-data.csv").
Proof.
  intros Hdir Hname. exists (name +:+ "-dui-data.xlsx").
  split; [unfold outpath, OUTDIR, Excel.SCRAPED; rewrite Hdir; reflexivity|].
  split; [rewrite lacks_app, Hname; reflexivity|].
  unfold Excel.outpath.
  { replace (name +:+ "-dui-data.xlsx") with ((name +:+ "-dui-data") +:+ ".xlsx").
    + rewrite stem_xlsx; [|destruct name; discriminate].
      unfold path_div. rewrite !str_app_assoc. reflexivity.
    + rewrite str_app_assoc. reflexivity. }
Qed.

End Conversion.

(** ** The further properties on concrete worlds and workbooks *)

(** X2 on a world whose job answers 500 with a follow-up address in its
    body. *)
Lemma X2_witness :
  ∃ rest,
    (post_query_and_download server_error_world (PStr "06") "California" []).2 =
    ([] ++ [job_post server_error_world (PStr "06");
            EPrint (MsgDebugPost (text server_error_response) "California" 500);
            EPrint (MsgDebugPreviewPost (text server_error_response))]) ++ rest
    ∧ Forall (fun ev => is_job_post ev = false ∧ is_reauth_get ev = false) rest.
Proof.
  destruct (X_other_status_is_no_challenge server_error_world (PStr "06") "California"
              [] server_error_response) as [_ Hrest];
    [vm_compute; reflexivity | vm_compute; discriminate |].
  exact Hrest.
Defined.

(** X3 on a world whose job answers 449 with a number as follow-up
    address. *)
Lemma X3_witness :
  ∃ what,
    post_query_and_download numeric_uri_world (PStr "06") "California" [] =
    (Raise (AttributeError what),
     [] ++ [job_post numeric_uri_world (PStr "06");
            EPrint (MsgDebugPost (text numeric_uri_response) "California" 449);
            EPrint (MsgDebugPreviewPost (text numeric_uri_response))]).
Proof.
  apply (X_non_string_uri_raises numeric_uri_world (PStr "06") "California" []
           numeric_uri_response);
    [vm_compute; reflexivity | reflexivity | reflexivity
    | intros u; vm_compute; discriminate].
Defined.

(** X4 on the challenge scenario of the specification. *)
Lemma X4_witness :
  post_query_and_download challenge_world (PStr "06") "California" [] =
  after_response challenge_world "California" result_page
    (([] ++ [job_post challenge_world (PStr "06");
             EPrint (MsgDebugPost (text challenge_response) "California" 449);
             EPrint (MsgDebugPreviewPost (text challenge_response));
             EPrint (MsgFollowingSSO (auth_url_of "/auth/x"))])
     ++ [EGet (auth_url_of "/auth/x") session_headers 60000;
         job_post challenge_world (PStr "06");
         EPrint (MsgDebugPostRetry result_page "California" 200);
         EPrint (MsgDebugPreviewPostRetry result_page)]).
Proof.
  apply (X_followed_challenge_uses_second_answer challenge_world (PStr "06") "California"
           [] challenge_response "/auth/x" (html_response 200 "")
           (html_response 200 result_page));
    [vm_compute; reflexivity | reflexivity | reflexivity | discriminate
    | vm_compute; reflexivity | vm_compute; reflexivity].
Defined.

(** X5 on a page whose anchor has no [href]. *)
Lemma X5_witness :
  post_query_and_download bare_anchor_world (PStr "06") "California" [] =
  (Ok false, bare_loaded ++ [EWaitForSelector xlsx_selector 180000;
                             EGetAttribute "href";
                             EPrint (MsgLinkNotFound "California")]).
Proof.
  apply (X_anchor_without_href_is_not_found bare_anchor_world (PStr "06") "California"
           [] bare_loaded bare_anchor);
    [vm_compute; reflexivity | reflexivity | left; reflexivity].
Defined.

(** X6 on a page where the wait times out and the script returns a relative
    reference. *)
Lemma X6_witness :
  ∃ r rest,
    post_query_and_download script_world (PStr "06") "California" [] =
    (r, script_loaded ++ [EWaitForSelector xlsx_selector 180000;
                          EEvaluate xlsx_script;
                          EGet "https://cdan.dot.gov/ca.xlsx" session_headers 120000]
                      ++ rest)
    ∧ Forall (fun ev => is_get ev = false) rest.
Proof.
  apply (X_script_link_is_requested script_world (PStr "06") "California" []
           script_loaded timed_out "ca.xlsx");
    [vm_compute; reflexivity | reflexivity | reflexivity | discriminate].
Defined.

(** X7 on a browser that refuses the page content. *)
Lemma X7_witness :
  unquote (quote result_page) = result_page
  ∧ load_page content_error_world result_page [] =
    (Ok tt, [] ++ [ESetContent result_page;
                   EGoto ("data:text/html," +:+ quote result_page) 60000]).
Proof.
  destruct (X_page_fallback_is_lossless content_error_world result_page [] timed_out)
    as (_ & Hround & Hload); [reflexivity|].
  split; [exact Hround | exact Hload].
Defined.

(** X8 on a Target whose job request times out. *)
Lemma X8_witness :
  ∃ new,
    process_state two_targets_world california [] = (Ok tt, [] ++ new)
    ∧ List.filter is_error_line new = [EPrint (MsgError "California" timed_out)].
Proof.
  destruct (X_error_line_only_when_raised two_targets_world california [])
    as [new [Hrun Hline]]; [reflexivity|].
  exists new. split; [exact Hrun | exact Hline].
Defined.

(** X9 on a list whose second element is a string. *)
Lemma X9_witness :
  ∃ what segs,
    main broken_list_world [] =
    (Raise (AttributeError what),
     [] ++ [EMkdir (OUTDIR broken_list_world); ELoadStates; ELaunch;
            EGoto QUERY_URL 60000]
        ++ concat segs)
    ∧ Forall2
        (fun s seg =>
           ∃ mid,
             seg = [EPrint (MsgProcessing (target_id s) (target_name s));
                    job_post broken_list_world (target_id s)] ++ mid ++ [ESleep 1]
             ∧ Forall (fun ev => is_pacing ev = false) mid)
        [california] segs.
Proof.
  apply (X_malformed_element_ends_the_run broken_list_world [california] (PStr "Texas")
           [columbia] []);
    [reflexivity | reflexivity | reflexivity | reflexivity | repeat constructor
    | reflexivity].
Defined.

(** X10 on a state file that holds one object instead of a list. *)
Lemma X10_witness :
  ∃ what,
    main (with_states (PDict [("06", PStr "California")]) direct_world) [] =
    (Raise (AttributeError what),
     [] ++ [EMkdir (OUTDIR direct_world); ELoadStates; ELaunch; EGoto QUERY_URL 60000]).
Proof.
  apply (X_state_file_without_a_list
           (with_states (PDict [("06", PStr "California")]) direct_world)
           (PDict [("06", PStr "California")]) []);
    [reflexivity | reflexivity | reflexivity | reflexivity | intros s l; discriminate].
Defined.

(** X13 on the sample sheet: the header is its second row. *)
Lemma X13_witness :
  (1 = -1 ∧ Forall Excel.passed_over sample_sheet)
  ∨ (0 <= 1 < Z.of_nat (length sample_sheet)
     ∧ ∃ row cells,
         sample_sheet !! Z.to_nat 1 = Some row
         ∧ Excel.strip_cells row = Ok cells
         ∧ (6 <= Excel.months_found cells)%nat
         ∧ Forall Excel.passed_over (take (Z.to_nat 1) sample_sheet)).
Proof.
  apply (X_header_is_the_first_row_with_six_months sample_sheet 1).
  vm_compute. reflexivity.
Defined.

(** X14 on the workbook with a number in its first row. *)
Lemma X14_witness :
  ∃ what,
    Excel.process_file sample_lib "Ohio-dui-data.xlsx" =
    (Raise (AttributeError what),
     [Excel.XPrint (Excel.MsgProcessing
                      (path_div (Excel.SCRAPED sample_lib) "Ohio-dui-data.xlsx"));
      Excel.XLoad (path_div (Excel.SCRAPED sample_lib) "Ohio-dui-data.xlsx")]).
Proof.
  apply (X_number_above_the_header_raises sample_lib "Ohio-dui-data.xlsx" []
           [Excel.CStr "Report"; Excel.CInt 7] sample_sheet (Excel.CInt 7));
    [reflexivity | constructor
    | apply elem_of_cons; right; apply elem_of_cons; left; reflexivity
    | reflexivity | intros s; discriminate].
Defined.

(** X15 on the header of the sample sheet: March stands in column 3. *)
Lemma X15_witness :
  Excel.reads (Excel.CStr "Year" :: month_cells ++ [Excel.CStr "Total"]) "March" 3.
Proof.
  apply X_columns_point_at_their_header_cells. left. vm_compute. reflexivity.
Defined.

(** X16 on the sample sheet: the summary row and the footer below it do
    not count. *)
Lemma X16_witness :
  Excel.convert sample_lib "Texas-dui-data.xlsx" sample_sheet
  = Excel.convert sample_lib "Texas-dui-data.xlsx" (take 5 sample_sheet).
Proof.
  apply (X_rows_below_the_stop_row_are_ignored sample_lib "Texas-dui-data.xlsx"
           [[Excel.CStr "Persons Killed, by Year and Month"]]
           (Excel.CStr "Year" :: month_cells ++ [Excel.CStr "Total"])
           ("Year" :: Excel.MONTHS ++ ["Total"])
           (take 3 (drop 2 sample_sheet))
           (Excel.CStr "Total" :: map Excel.CInt [1; 2; 3; 4; 5; 6; 7; 8; 9; 10; 11; 12]
              ++ [Excel.CInt 1389])
           [[Excel.CStr "2012"; Excel.CInt 99]]).
  - constructor; [|constructor].
    exists ["Persons Killed, by Year and Month"]. split; [reflexivity | vm_compute; lia].
  - reflexivity.
  - vm_compute. lia.
  - eexists _, _. split; [reflexivity|]. right. right. reflexivity.
Defined.

(** X17 on the sample sheet: the note between the two years is skipped. *)
Lemma X17_witness :
  Excel.convert sample_lib "Texas-dui-data.xlsx" sample_sheet
  = Excel.convert sample_lib "Texas-dui-data.xlsx"
      (take 3 sample_sheet ++ drop 4 sample_sheet).
Proof.
  apply (X_rows_that_are_no_year_are_skipped sample_lib "Texas-dui-data.xlsx"
           [[Excel.CStr "Persons Killed, by Year and Month"]]
           (Excel.CStr "Year" :: month_cells ++ [Excel.CStr "Total"])
           ("Year" :: Excel.MONTHS ++ ["Total"])
           (take 1 (drop 2 sample_sheet))
           (Excel.CStr "(revised)") []
           (drop 4 sample_sheet)).
  - constructor; [|constructor].
    exists ["Persons Killed, by Year and Month"]. split; [reflexivity | vm_compute; lia].
  - reflexivity.
  - vm_compute. lia.
  - discriminate.
  - vm_compute. discriminate.
  - reflexivity.
  - reflexivity.
Defined.

(** X19 on the three sample workbooks. *)
Lemma X19_witness :
  ∃ files k,
    files ≡ₚ ["Texas-dui-data.xlsx"; "California-dui-data.xlsx"; "Ohio-dui-data.xlsx"]
    ∧ Sorted Excel.name_le files
    ∧ (k <= length files)%nat
    ∧ List.filter Excel.is_load (Excel.main sample_lib).2
      = Excel.loads sample_lib (take k files)
    ∧ ((Excel.main sample_lib).1 = Ok tt -> k = length files).
Proof.
  apply (X_files_are_read_in_name_order sample_lib
           ["Texas-dui-data.xlsx"; "California-dui-data.xlsx"; "Ohio-dui-data.xlsx"]);
    reflexivity.
Defined.

(** X20 on the three sample workbooks: Ohio's fails, Texas's is never
    opened. *)
Lemma X20_witness :
  Excel.process_all sample_lib
    ["California-dui-data.xlsx"; "Ohio-dui-data.xlsx"; "Texas-dui-data.xlsx"]
  = (Raise (AttributeError "strip"),
     concat (map (fun name => (Excel.process_file sample_lib name).2)
               ["California-dui-data.xlsx"])
     ++ [Excel.XPrint (Excel.MsgProcessing "/srv/first/scraped/Ohio-dui-data.xlsx");
         Excel.XLoad "/srv/first/scraped/Ohio-dui-data.xlsx"]).
Proof.
  apply (X_failing_file_ends_the_conversion sample_lib ["California-dui-data.xlsx"]
           "Ohio-dui-data.xlsx" ["Texas-dui-data.xlsx"]);
    [constructor; [vm_compute; reflexivity | constructor] | vm_compute; reflexivity].
Defined.

(** X21 on California: the download is converted to
    [output/California-dui-data.csv]. *)
Lemma X21_witness :
  ∃ file,
    outpath direct_world "California" = path_div (Excel.SCRAPED sample_lib) file
    ∧ lacks "/" file = true
    ∧ Excel.outpath sample_lib file = "/srv/first/output/California-dui-data.csv".
Proof.
  apply (X_download_becomes_csv_of_the_same_name sample_lib direct_world "California");
    reflexivity.
Defined.

(** X22 on a negative amount in accounting notation with the sign outside:
    the field is [5]. *)
Lemma X22_witness :
  Excel.parse_number sample_lib (Excel.CStr " -(5) ") = "5"
  ∧ "5" ≠ ""
  ∧ all_chars Excel.number_char "5" = true
  ∧ ∃ before after,
      py_strip " -(5) " = before +:+ "5" +:+ after
      ∧ all_chars Excel.opener_char before = true
      ∧ (after = "" ∨ after = ")").
Proof.
  apply (X_fallback_field_is_unsigned sample_lib " -(5) " "5");
    [vm_compute; discriminate | reflexivity | reflexivity].
Defined.
